(** * Progress synchronisation hook of goat-scraper

    A shallow embedding of [frontend/components/use-progress-sync.tsx]
    (the [useProgressSync] hook) and of the [StudyItem] interface of
    [frontend/components/study-cart-provider.tsx].

    Conventions.
    - A JavaScript string is the sequence of its code units; the model
      carries the units below 256 as [ascii].
    - [localStorage] is a finite map from keys to strings; [getItem] is
      lookup ([None] is JavaScript's [null]) and [setItem] is insert.
    - A [try]/[catch] body is a computation in [option]: [None] means that
      an exception was thrown inside it.
    - React state set by a [setX] call is a field of the record [Hook];
      the values a callback closes over (the render it was created in) are
      explicit arguments, so a stale closure is representable.
    - The hook's argument [courseId] reaches the callbacks through their
      closures; [Mounted] pairs the state with the [courseId] of the latest
      render, the course the page displays.
    - Values that come from outside are read at the types the code gives
      them, except where the code passes them on unchecked: the cached
      leaderboard is [None] when the server sent something that is not an
      array. *)

From stdpp Require Import base option list strings pretty gmap.
From Stdlib Require Import Ascii String ZArith Lia.

Local Open Scope string_scope.

(** ** JavaScript primitives used by the hook *)

(** Truthiness of a value of type [string | null | undefined]. *)
Definition truthy (v : option string) : bool :=
  match v with
  | Some s => negb (String.eqb s "")
  | None => false
  end.

(** [a === b] where [a : string | undefined] and [b : string]. *)
Definition strict_eq (a : option string) (b : string) : bool :=
  match a with
  | Some s => String.eqb s b
  | None => false
  end.

(** WhiteSpace and LineTerminator code units below 256: TAB, LF, VT, FF, CR,
    SP and NBSP. *)
Definition is_white_space (c : ascii) : bool :=
  match nat_of_ascii c with
  | 9 | 10 | 11 | 12 | 13 | 32 | 160 => true
  | _ => false
  end.

Fixpoint trimStart (s : string) : string :=
  match s with
  | String c s' => if is_white_space c then trimStart s' else s
  | EmptyString => EmptyString
  end.

(** [trimEnd] keeps a character when it is not white space or when
    something survives after it. *)
Fixpoint trimEnd (s : string) : string :=
  match s with
  | String c s' =>
      match trimEnd s' with
      | EmptyString => if is_white_space c then EmptyString else String c EmptyString
      | rest => String c rest
      end
  | EmptyString => EmptyString
  end.

(** [String.prototype.trim]. *)
Definition trim (s : string) : string := trimEnd (trimStart s).

Fixpoint all_white_space (s : string) : bool :=
  match s with
  | String c s' => is_white_space c && all_white_space s'
  | EmptyString => true
  end.

(** [Array.prototype.forEach] with a callback that mutates one captured
    object [S] and may throw. *)
Fixpoint forEach {A S : Type} (f : S -> A -> option S) (l : list A) (s : S) : option S :=
  match l with
  | [] => Some s
  | x :: l' => s' ← f s x; forEach f l' s'
  end.

(** [Array.prototype.findIndex]: the index of the first element that
    satisfies [p], or -1. *)
Fixpoint findIndex {A : Type} (p : A -> bool) (l : list A) : Z :=
  match l with
  | [] => (-1)%Z
  | x :: l' =>
      if p x then 0%Z
      else let r := findIndex p l' in if (r <? 0)%Z then (-1)%Z else (r + 1)%Z
  end.

(** The property names every plain object inherits from
    [Object.prototype]; each of them reads as a truthy value that is not an
    array. *)
Definition Object_prototype_keys : list string :=
  [ "constructor"; "__defineGetter__"; "__defineSetter__"; "hasOwnProperty";
    "__lookupGetter__"; "__lookupSetter__"; "isPrototypeOf";
    "propertyIsEnumerable"; "toString"; "valueOf"; "__proto__";
    "toLocaleString" ].

Definition inherited (k : string) : bool :=
  existsb (String.eqb k) Object_prototype_keys.

(** What [studyItems[k]] reads on the object literal [{}] after some own
    array properties were added. *)
Inductive PropertyValue :=
  | OwnArray (a : list string)
  | InheritedValue
  | Undefined.

Definition get_property (o : gmap string (list string)) (k : string) : PropertyValue :=
  match o !! k with
  | Some a => OwnArray a
  | None => if inherited k then InheritedValue else Undefined
  end.

(** ** Data model *)

Record LeaderboardEntry := {
  entry_userId : string;
  entry_username : string;
  entry_completed : Z;
  entry_total : Z;
  entry_percentage : Z * Z;   (* a number, kept as a fraction; never computed with here *)
  entry_lastUpdate : string
}.

Record ProgressUpdate := {
  pu_courseId : string;
  pu_fileKey : string;
  pu_isComplete : bool
}.

(** [StudyItem] of study-cart-provider.tsx; [courseId] and [fileKey] are the
    optional linkage to progress tracking. *)
Record StudyItem := {
  item_id : string;
  item_url : string;
  item_title : string;
  item_courseName : string;
  item_unitNumber : Z;
  item_courseId : option string;
  item_fileKey : option string
}.

(** The fields [ws.onmessage] reads from a parsed server message.
    [data.leaderboard] is passed to [setLeaderboard] as it is: it is
    [Some entries] when it is an array, whose elements are read as entries,
    and [None] when it is anything else (the property is missing, [null], a
    number, a string, an object). *)
Record ServerData := {
  data_type : option string;
  data_courseId : option string;
  data_leaderboard : option (list LeaderboardEntry)
}.

(** What the browser supplies to the hook.
    - [JSON.parse], read at the three types the code uses its result at.
      [None] stands for a text on which the [try] body throws when it
      parses and first reads the value: [JSON.parse] itself throws, or the
      value is not of that type ([null] where a property is read, not an
      array where [forEach] is called).
    - [Progress] is the value stored under "course-progress"; the hook
      forwards it without looking inside.
    - [window_defined] is [typeof window !== "undefined"].
    - [NEXT_PUBLIC_WS_URL] is the build-time variable
      [process.env.NEXT_PUBLIC_WS_URL]. *)
Class Runtime := {
  Progress : Type;
  JSON_parse_progress : string -> option Progress;
  JSON_parse_cart : string -> option (list StudyItem);
  JSON_parse_data : string -> option ServerData;
  window_defined : bool;
  NEXT_PUBLIC_WS_URL : option string
}.

(** ** Identity store *)

Definition adjectives : list string :=
  [ "Swift"; "Clever"; "Bright"; "Keen"; "Sharp"; "Quick"; "Bold"; "Calm";
    "Wise"; "Agile"; "Smart"; "Brave"; "Cool"; "Epic"; "Fast"; "Great" ].

Definition nouns : list string :=
  [ "Panda"; "Tiger"; "Eagle"; "Wolf"; "Fox"; "Bear"; "Lion"; "Hawk";
    "Owl"; "Falcon"; "Lynx"; "Jaguar"; "Panther"; "Dragon"; "Phoenix"; "Raven" ].

(** The non-deterministic inputs of one call: [Date.now()], the text of
    [Math.random().toString(36)], and the three values
    [Math.floor(Math.random() * k)] takes in [generateUsername]. *)
Record Entropy := {
  now : N;
  random36 : string;
  pick_adj : nat;
  pick_noun : nat;
  pick_num : nat
}.

(** A template literal prints an out-of-range array read as "undefined". *)
Definition generateUsername (e : Entropy) : string :=
  let adj := nth (pick_adj e) adjectives "undefined" in
  let noun := nth (pick_noun e) nouns "undefined" in
  let num := (pick_num e + 1)%nat in
  adj +:+ noun +:+ pretty num.

Definition getUserId `{Runtime} (e : Entropy) (store : gmap string string)
  : option string * gmap string string :=
  if negb window_defined then (None, store)
  else
    let userId := store !! "progress-user-id" in
    if negb (truthy userId) then
      let userId := "user_" +:+ pretty (now e) +:+ "_" +:+ substring 2 9 (random36 e) in
      (Some userId, <["progress-user-id" := userId]> store)
    else (userId, store).

Definition getUsername `{Runtime} (e : Entropy) (store : gmap string string)
  : string * gmap string string :=
  if negb window_defined then ("", store)
  else
    let username := store !! "progress-username" in
    if negb (truthy username) then
      let username := generateUsername e in
      (username, <["progress-username" := username]> store)
    else (default "" username, store).

(** ** The hook's state *)

Inductive ReadyState := CONNECTING | OPEN | CLOSING | CLOSED.

Definition ReadyState_eqb (a b : ReadyState) : bool :=
  match a, b with
  | CONNECTING, CONNECTING | OPEN, OPEN | CLOSING, CLOSING | CLOSED, CLOSED => true
  | _, _ => false
  end.

(** Client to server messages: the object handed to [JSON.stringify] at each
    [send]. *)
Inductive Message `{Runtime} :=
  | set_username (username : string)
  | sync_full_progress (progress : Progress)
      (studyItems : gmap string (list string)) (username : string)
  | request_leaderboard (courseId : string)
  | sync_study_items (courseId : string) (fileKeys : list string)
  | progress_update (courseId fileKey : string) (isComplete : bool) (username : string).

(** The values of [userId], [courseId] and [username] in the render that
    created [connect]; the socket's handlers close over them. *)
Record Closure := {
  c_userId : option string;
  c_courseId : string;
  c_username : string
}.

(** A [WebSocket] object: [ws_sent] lists what was transmitted through it. *)
Record Socket `{Runtime} := {
  ws_url : string;
  readyState : ReadyState;
  ws_sent : list Message;
  ws_closure : Closure
}.

(** A pending [setTimeout]: the only callback the hook ever schedules logs
    and calls the [connect] of its closure. *)
Record Timer := {
  timer_delay : N;
  timer_closure : Closure
}.

(** Sockets and timers live in lists; an object's identity is its index. A
    timer that fired or was cleared is [None]. *)
Record Hook `{Runtime} := {
  leaderboard : option (list LeaderboardEntry);
  isConnected : bool;
  username : string;
  userId : option string;
  wsRef : option nat;
  reconnectTimeoutRef : option nat;
  pendingUpdatesRef : list ProgressUpdate;
  localStorage : gmap string string;
  sockets : list Socket;
  timeouts : list (option Timer);
  console : list string
}.

Section Updates.
Context `{Runtime}.

Definition setLeaderboard (v : option (list LeaderboardEntry)) (h : Hook) : Hook :=
  {| leaderboard := v; isConnected := isConnected h; username := username h;
     userId := userId h; wsRef := wsRef h;
     reconnectTimeoutRef := reconnectTimeoutRef h;
     pendingUpdatesRef := pendingUpdatesRef h; localStorage := localStorage h;
     sockets := sockets h; timeouts := timeouts h; console := console h |}.

Definition setIsConnected (v : bool) (h : Hook) : Hook :=
  {| leaderboard := leaderboard h; isConnected := v; username := username h;
     userId := userId h; wsRef := wsRef h;
     reconnectTimeoutRef := reconnectTimeoutRef h;
     pendingUpdatesRef := pendingUpdatesRef h; localStorage := localStorage h;
     sockets := sockets h; timeouts := timeouts h; console := console h |}.

Definition setUsername (v : string) (h : Hook) : Hook :=
  {| leaderboard := leaderboard h; isConnected := isConnected h; username := v;
     userId := userId h; wsRef := wsRef h;
     reconnectTimeoutRef := reconnectTimeoutRef h;
     pendingUpdatesRef := pendingUpdatesRef h; localStorage := localStorage h;
     sockets := sockets h; timeouts := timeouts h; console := console h |}.

Definition setUserId (v : option string) (h : Hook) : Hook :=
  {| leaderboard := leaderboard h; isConnected := isConnected h;
     username := username h; userId := v; wsRef := wsRef h;
     reconnectTimeoutRef := reconnectTimeoutRef h;
     pendingUpdatesRef := pendingUpdatesRef h; localStorage := localStorage h;
     sockets := sockets h; timeouts := timeouts h; console := console h |}.

Definition set_wsRef (v : option nat) (h : Hook) : Hook :=
  {| leaderboard := leaderboard h; isConnected := isConnected h;
     username := username h; userId := userId h; wsRef := v;
     reconnectTimeoutRef := reconnectTimeoutRef h;
     pendingUpdatesRef := pendingUpdatesRef h; localStorage := localStorage h;
     sockets := sockets h; timeouts := timeouts h; console := console h |}.

Definition set_reconnectTimeoutRef (v : option nat) (h : Hook) : Hook :=
  {| leaderboard := leaderboard h; isConnected := isConnected h;
     username := username h; userId := userId h; wsRef := wsRef h;
     reconnectTimeoutRef := v;
     pendingUpdatesRef := pendingUpdatesRef h; localStorage := localStorage h;
     sockets := sockets h; timeouts := timeouts h; console := console h |}.

Definition set_pendingUpdatesRef (v : list ProgressUpdate) (h : Hook) : Hook :=
  {| leaderboard := leaderboard h; isConnected := isConnected h;
     username := username h; userId := userId h; wsRef := wsRef h;
     reconnectTimeoutRef := reconnectTimeoutRef h;
     pendingUpdatesRef := v; localStorage := localStorage h;
     sockets := sockets h; timeouts := timeouts h; console := console h |}.

Definition set_localStorage (v : gmap string string) (h : Hook) : Hook :=
  {| leaderboard := leaderboard h; isConnected := isConnected h;
     username := username h; userId := userId h; wsRef := wsRef h;
     reconnectTimeoutRef := reconnectTimeoutRef h;
     pendingUpdatesRef := pendingUpdatesRef h; localStorage := v;
     sockets := sockets h; timeouts := timeouts h; console := console h |}.

Definition set_sockets (v : list Socket) (h : Hook) : Hook :=
  {| leaderboard := leaderboard h; isConnected := isConnected h;
     username := username h; userId := userId h; wsRef := wsRef h;
     reconnectTimeoutRef := reconnectTimeoutRef h;
     pendingUpdatesRef := pendingUpdatesRef h; localStorage := localStorage h;
     sockets := v; timeouts := timeouts h; console := console h |}.

Definition set_timeouts (v : list (option Timer)) (h : Hook) : Hook :=
  {| leaderboard := leaderboard h; isConnected := isConnected h;
     username := username h; userId := userId h; wsRef := wsRef h;
     reconnectTimeoutRef := reconnectTimeoutRef h;
     pendingUpdatesRef := pendingUpdatesRef h; localStorage := localStorage h;
     sockets := sockets h; timeouts := v; console := console h |}.

(** [console.log] and [console.error]. *)
Definition log (line : string) (h : Hook) : Hook :=
  {| leaderboard := leaderboard h; isConnected := isConnected h;
     username := username h; userId := userId h; wsRef := wsRef h;
     reconnectTimeoutRef := reconnectTimeoutRef h;
     pendingUpdatesRef := pendingUpdatesRef h; localStorage := localStorage h;
     sockets := sockets h; timeouts := timeouts h;
     console := console h ++ [line] |}.

Definition set_readyState (r : ReadyState) (s : Socket) : Socket :=
  {| ws_url := ws_url s; readyState := r; ws_sent := ws_sent s;
     ws_closure := ws_closure s |}.

Definition transmit (m : Message) (s : Socket) : Socket :=
  {| ws_url := ws_url s; readyState := readyState s;
     ws_sent := ws_sent s ++ [m]; ws_closure := ws_closure s |}.

(** [WebSocket.prototype.send]: throws while the socket is connecting,
    transmits when it is open, and drops the data once it is closing or
    closed. *)
Definition ws_send (ws : nat) (m : Message) (h : Hook) : option Hook :=
  match sockets h !! ws with
  | Some s =>
      match readyState s with
      | CONNECTING => None
      | OPEN => Some (set_sockets (<[ws := transmit m s]> (sockets h)) h)
      | CLOSING | CLOSED => Some h
      end
  | None => None
  end.

(** [wsRef.current.send(m)]. *)
Definition wsRef_send (m : Message) (h : Hook) : option Hook :=
  match wsRef h with
  | Some ws => ws_send ws m h
  | None => None
  end.

(** [wsRef.current && wsRef.current.readyState === WebSocket.OPEN]. *)
Definition wsRef_open (h : Hook) : bool :=
  match wsRef h with
  | Some ws =>
      match sockets h !! ws with
      | Some s => ReadyState_eqb (readyState s) OPEN
      | None => false
      end
  | None => false
  end.

(** An exception that escapes a callback ends it; the state is the one at
    the throw. *)
Definition uncaught (r : option Hook) (at_throw : Hook) : Hook :=
  default at_throw r.

End Updates.

(** ** The body of [useProgressSync] *)

Section UseProgressSync.
Context `{Runtime}.

(** The state of the first render. *)
Definition initial (store : gmap string string) : Hook :=
  {| leaderboard := Some []; isConnected := false; username := ""; userId := None;
     wsRef := None; reconnectTimeoutRef := None; pendingUpdatesRef := [];
     localStorage := store; sockets := []; timeouts := []; console := [] |}.

(** The mount effect: initialise [userId] and [username]. *)
Definition initIdentity (e : Entropy) (h : Hook) : Hook :=
  let '(id, store) := getUserId e (localStorage h) in
  let '(name, store) := getUsername e store in
  setUsername name (setUserId id (set_localStorage store h)).

Definition getWebSocketUrl : string :=
  if negb window_defined then "ws://localhost:8000"
  else if truthy NEXT_PUBLIC_WS_URL then default "" NEXT_PUBLIC_WS_URL
       else "ws://localhost:8000".

Definition updateUsername (newUsername : string) (h : Hook) : Hook :=
  if negb (truthy (Some (trim newUsername))) then h
  else
    let h := setUsername newUsername h in
    let h := set_localStorage (<["progress-username" := newUsername]> (localStorage h)) h in
    if wsRef_open h then uncaught (wsRef_send (set_username newUsername) h) h
    else h.

(** The [try] body of [ws.onopen]. *)
Definition onopen_try (ws : nat) (env : Closure) (h : Hook) : option Hook :=
  let storedProgress := localStorage h !! "course-progress" in
  let storedCart := localStorage h !! "study-cart" in
  if truthy storedProgress then
    progress ← JSON_parse_progress (default "" storedProgress);
    studyItems ←
      (if truthy storedCart then
         cartItems ← JSON_parse_cart (default "" storedCart);
         forEach (fun (studyItems : gmap string (list string)) item =>
           if truthy (item_courseId item) && truthy (item_fileKey item) then
             let courseId := default "" (item_courseId item) in
             let fileKey := default "" (item_fileKey item) in
             let studyItems :=
               match get_property studyItems courseId with
               | Undefined => <[courseId := []]> studyItems
               | _ => studyItems
               end in
             match get_property studyItems courseId with
             | OwnArray a => Some (<[courseId := (a ++ [fileKey])%list]> studyItems)
             | _ => None
             end
           else Some studyItems) cartItems ∅
       else Some ∅);
    h ← ws_send ws (sync_full_progress progress studyItems (c_username env)) h;
    Some (log "Synced full progress state to server" h)
  else Some h.

(** The [try]/[catch] statement of [ws.onopen]: the sync on connect. *)
Definition onopen_sync (ws : nat) (env : Closure) (h : Hook) : Hook :=
  match onopen_try ws env h with
  | Some h' => h'
  | None => log "Failed to sync progress:" h
  end.

Definition ws_onopen (ws : nat) (env : Closure) (h : Hook) : Hook :=
  let h := log "Connected to progress tracking server" h in
  let h := setIsConnected true h in
  let h := onopen_sync ws env h in
  let h := set_pendingUpdatesRef [] h in
  uncaught (ws_send ws (request_leaderboard (c_courseId env)) h) h.

(** The [try] body of [ws.onmessage]. *)
Definition onmessage_try (env : Closure) (event_data : string) (h : Hook) : option Hook :=
  data ← JSON_parse_data event_data;
  if strict_eq (data_type data) "leaderboard_update"
     && strict_eq (data_courseId data) (c_courseId env)
  then Some (setLeaderboard (data_leaderboard data) h)
  else if strict_eq (data_type data) "connected"
  then Some (log "Server confirmed connection" h)
  else Some h.

Definition ws_onmessage (env : Closure) (event_data : string) (h : Hook) : Hook :=
  match onmessage_try env event_data h with
  | Some h' => h'
  | None => log "Error parsing WebSocket message:" h
  end.

Definition ws_onerror (h : Hook) : Hook :=
  log "WebSocket error:" h.

(** [setTimeout(callback, 3000)]: the new timer's identity is its index. *)
Definition ws_onclose (env : Closure) (h : Hook) : Hook :=
  let h := log "Disconnected from progress tracking server" h in
  let h := setIsConnected false h in
  let id := List.length (timeouts h) in
  let h := set_timeouts (timeouts h ++ [Some {| timer_delay := 3000; timer_closure := env |}]) h in
  set_reconnectTimeoutRef (Some id) h.

(** [connect]; [constructed] tells whether [new WebSocket(url)] returned an
    object or threw. *)
Definition connect (env : Closure) (constructed : bool) (h : Hook) : Hook :=
  if negb (truthy (c_userId env)) || negb window_defined then h
  else if constructed then
    let wsUrl := getWebSocketUrl in
    let ws := {| ws_url := wsUrl +:+ "/ws/" +:+ default "" (c_userId env);
                 readyState := CONNECTING; ws_sent := []; ws_closure := env |} in
    let id := List.length (sockets h) in
    let h := set_sockets (sockets h ++ [ws]) h in
    set_wsRef (Some id) h
  else
    let h := log "Failed to connect to WebSocket:" h in
    setIsConnected false h.

(** The callback [ws.onclose] hands to [setTimeout]. *)
Definition reconnect (env : Closure) (constructed : bool) (h : Hook) : Hook :=
  let h := log "Attempting to reconnect..." h in
  connect env constructed h.

(** The callback of the 5 second leaderboard poll. *)
Definition pollInterval (courseId : string) (h : Hook) : Hook :=
  if wsRef_open h then
    uncaught (wsRef_send (request_leaderboard courseId) h) h
  else h.

(** The [try] body of the 30 second sync. *)
Definition syncInterval_try (username : string) (h : Hook) : option Hook :=
  let storedProgress := localStorage h !! "course-progress" in
  let storedCart := localStorage h !! "study-cart" in
  if truthy storedProgress then
    progress ← JSON_parse_progress (default "" storedProgress);
    studyItems ←
      (if truthy storedCart then
         cartItems ← JSON_parse_cart (default "" storedCart);
         forEach (fun (studyItems : gmap string (list string)) item =>
           if truthy (item_courseId item) && truthy (item_fileKey item) then
             let courseId := default "" (item_courseId item) in
             let fileKey := default "" (item_fileKey item) in
             let studyItems :=
               match get_property studyItems courseId with
               | Undefined => <[courseId := []]> studyItems
               | _ => studyItems
               end in
             match get_property studyItems courseId with
             | OwnArray a => Some (<[courseId := (a ++ [fileKey])%list]> studyItems)
             | _ => None
             end
           else Some studyItems) cartItems ∅
       else Some ∅);
    h ← wsRef_send (sync_full_progress progress studyItems username) h;
    Some (log "Periodic sync completed" h)
  else Some h.

Definition syncInterval (username : string) (h : Hook) : Hook :=
  if wsRef_open h then
    match syncInterval_try username h with
    | Some h' => h'
    | None => log "Failed to sync progress:" h
    end
  else h.

Definition handleOnline (isConnected : bool) (env : Closure) (constructed : bool)
    (h : Hook) : Hook :=
  let h := log "Browser came online, reconnecting..." h in
  if negb isConnected then connect env constructed h else h.

Definition handleOffline (h : Hook) : Hook :=
  log "Browser went offline" h.

(** The [try] body of [handleStorageChange]. *)
Definition handleStorageChange_try (username : string) (h : Hook) : option Hook :=
  let storedProgress := localStorage h !! "course-progress" in
  let storedCart := localStorage h !! "study-cart" in
  if truthy storedProgress then
    progress ← JSON_parse_progress (default "" storedProgress);
    studyItems ←
      (if truthy storedCart then
         cartItems ← JSON_parse_cart (default "" storedCart);
         forEach (fun (studyItems : gmap string (list string)) item =>
           if truthy (item_courseId item) && truthy (item_fileKey item) then
             let courseId := default "" (item_courseId item) in
             let fileKey := default "" (item_fileKey item) in
             let studyItems :=
               match get_property studyItems courseId with
               | Undefined => <[courseId := []]> studyItems
               | _ => studyItems
               end in
             match get_property studyItems courseId with
             | OwnArray a => Some (<[courseId := (a ++ [fileKey])%list]> studyItems)
             | _ => None
             end
           else Some studyItems) cartItems ∅
       else Some ∅);
    h ← wsRef_send (sync_full_progress progress studyItems username) h;
    Some (log "Synced after localStorage change" h)
  else Some h.

(** [e_key] is the [key] of the [StorageEvent] ([null] after [clear()]). *)
Definition handleStorageChange (username : string) (e_key : option string)
    (h : Hook) : Hook :=
  if strict_eq e_key "course-progress" || strict_eq e_key "study-cart" then
    if wsRef_open h then
      match handleStorageChange_try username h with
      | Some h' => h'
      | None => log "Failed to sync after storage change:" h
      end
    else h
  else h.

Definition sendProgressUpdate (courseId username : string) (fileKey : string)
    (isComplete : bool) (h : Hook) : Hook :=
  let update := {| pu_courseId := courseId; pu_fileKey := fileKey;
                   pu_isComplete := isComplete |} in
  if wsRef_open h then
    uncaught (wsRef_send (progress_update (pu_courseId update) (pu_fileKey update)
                            (pu_isComplete update) username) h) h
  else set_pendingUpdatesRef (pendingUpdatesRef h ++ [update]) h.

Definition requestLeaderboardUpdate (courseId : string) (h : Hook) : Hook :=
  if wsRef_open h && truthy (Some courseId) then
    uncaught (wsRef_send (request_leaderboard courseId) h) h
  else h.

Definition syncStudyItems (courseId : string) (fileKeys : list string) (h : Hook) : Hook :=
  if wsRef_open h && truthy (Some courseId) then
    uncaught (wsRef_send (sync_study_items courseId fileKeys) h) h
  else h.

Definition syncFullProgress (username : string) (progress : Progress)
    (studyItems : gmap string (list string)) (h : Hook) : Hook :=
  if wsRef_open h then
    uncaught (wsRef_send (sync_full_progress progress studyItems username) h) h
  else h.

(** [const currentUserRank] of the render. The outer [None] is a render
    that throws: [leaderboard.findIndex] is not a function when the cached
    value is not an array. With no [userId] the cache is not read. *)
Definition currentUserRank (userId : option string)
    (leaderboard : option (list LeaderboardEntry)) : option (option Z) :=
  if truthy userId then
    entries ← leaderboard;
    Some (Some (findIndex (fun entry => String.eqb (entry_userId entry) (default "" userId))
                  entries + 1)%Z)
  else Some None.

(** The [currentUserRank] field of the returned object; [None] when the
    render threw before returning. *)
Definition return_currentUserRank (h : Hook) : option (option Z) :=
  currentUserRank ← currentUserRank (userId h) (leaderboard h);
  Some match currentUserRank with
       | Some rank => if (rank >? 0)%Z then Some rank else None
       | None => None
       end.

(** ** Events delivered by the browser *)

(** The socket [ws] becomes open and its [onopen] runs. *)
Definition fire_open (ws : nat) (h : Hook) : Hook :=
  match sockets h !! ws with
  | Some s =>
      match readyState s with
      | CONNECTING =>
          ws_onopen ws (ws_closure s)
            (set_sockets (<[ws := set_readyState OPEN s]> (sockets h)) h)
      | _ => h
      end
  | None => h
  end.

(** A message arrives on the open socket [ws]. *)
Definition fire_message (ws : nat) (event_data : string) (h : Hook) : Hook :=
  match sockets h !! ws with
  | Some s =>
      match readyState s with
      | OPEN => ws_onmessage (ws_closure s) event_data h
      | _ => h
      end
  | None => h
  end.

(** The socket [ws] reports an error. *)
Definition fire_error (ws : nat) (h : Hook) : Hook :=
  match sockets h !! ws with
  | Some s => ws_onerror h
  | None => h
  end.

(** The socket [ws] is closed (by either side, or after a failure) and its
    [onclose] runs. *)
Definition fire_close (ws : nat) (h : Hook) : Hook :=
  match sockets h !! ws with
  | Some s =>
      match readyState s with
      | CLOSED => h
      | _ =>
          ws_onclose (ws_closure s)
            (set_sockets (<[ws := set_readyState CLOSED s]> (sockets h)) h)
      end
  | None => h
  end.

(** The pending timer [id] expires. *)
Definition fire_timeout (id : nat) (constructed : bool) (h : Hook) : Hook :=
  match timeouts h !! id with
  | Some (Some t) =>
      reconnect (timer_closure t) constructed
        (set_timeouts (<[id := None]> (timeouts h)) h)
  | _ => h
  end.

End UseProgressSync.

(** The cleanup of the connect effect: cancel the last reconnect timer and
    call [close()] on the current socket, which starts the closing
    handshake; the close event comes later. *)
Definition cleanup `{Runtime} (h : Hook) : Hook :=
  let h :=
    match reconnectTimeoutRef h with
    | Some id => set_timeouts (<[id := None]> (timeouts h)) h
    | None => h
    end in
  match wsRef h with
  | Some ws =>
      match sockets h !! ws with
      | Some s =>
          match readyState s with
          | CONNECTING | OPEN =>
              set_sockets (<[ws := set_readyState CLOSING s]> (sockets h)) h
          | _ => h
          end
      | None => h
      end
  | None => h
  end.

(** ** Runs of the hook

    Everything that can happen to a mounted hook. Callbacks carry the values
    they closed over, so a run may call a callback of an older render. *)
Inductive Event `{Runtime} :=
  | Mount (e : Entropy)
  | RunConnect (env : Closure) (constructed : bool)
  | Cleanup
  | Online (isConnected : bool) (env : Closure) (constructed : bool)
  | Offline
  | SocketOpen (ws : nat)
  | SocketMessage (ws : nat) (event_data : string)
  | SocketError (ws : nat)
  | SocketClose (ws : nat)
  | TimerExpires (id : nat) (constructed : bool)
  | PollTick (courseId : string)
  | SyncTick (username : string)
  | StorageChanged (username : string) (e_key : option string)
  | StoreWritten (key value : string)
  | CallUpdateUsername (newUsername : string)
  | CallSendProgressUpdate (courseId username fileKey : string) (isComplete : bool)
  | CallRequestLeaderboardUpdate (courseId : string)
  | CallSyncStudyItems (courseId : string) (fileKeys : list string)
  | CallSyncFullProgress (username : string) (progress : Progress)
      (studyItems : gmap string (list string)).

Definition step `{Runtime} (ev : Event) (h : Hook) : Hook :=
  match ev with
  | Mount e => initIdentity e h
  | RunConnect env constructed => connect env constructed h
  | Cleanup => cleanup h
  | Online isConnected env constructed => handleOnline isConnected env constructed h
  | Offline => handleOffline h
  | SocketOpen ws => fire_open ws h
  | SocketMessage ws event_data => fire_message ws event_data h
  | SocketError ws => fire_error ws h
  | SocketClose ws => fire_close ws h
  | TimerExpires id constructed => fire_timeout id constructed h
  | PollTick courseId => pollInterval courseId h
  | SyncTick username => syncInterval username h
  | StorageChanged username e_key => handleStorageChange username e_key h
  | StoreWritten key value => set_localStorage (<[key := value]> (localStorage h)) h
  | CallUpdateUsername newUsername => updateUsername newUsername h
  | CallSendProgressUpdate courseId username fileKey isComplete =>
      sendProgressUpdate courseId username fileKey isComplete h
  | CallRequestLeaderboardUpdate courseId => requestLeaderboardUpdate courseId h
  | CallSyncStudyItems courseId fileKeys => syncStudyItems courseId fileKeys h
  | CallSyncFullProgress username progress studyItems =>
      syncFullProgress username progress studyItems h
  end.

Inductive reachable `{Runtime} : Hook -> Prop :=
  | reach_initial store : reachable (initial store)
  | reach_step ev h : reachable h -> reachable (step ev h).

(** What every reachable state satisfies: [userId] is [null] or a non-empty
    string, every socket and every pending timer was created by a [connect]
    that passed its guard, and the references point at existing objects. *)
Record well_formed `{Runtime} (h : Hook) : Prop := {
  wf_userId : userId h = None \/ truthy (userId h) = true;
  wf_sockets : forall ws s, sockets h !! ws = Some s ->
    truthy (c_userId (ws_closure s)) = true /\ window_defined = true;
  wf_timeouts : forall id t, timeouts h !! id = Some (Some t) ->
    truthy (c_userId (timer_closure t)) = true /\ window_defined = true;
  wf_wsRef : forall ws, wsRef h = Some ws -> ws < List.length (sockets h)
}.

(** ** The mounted hook

    [useProgressSync(courseId)] runs again at every render. A mounted hook
    is the [courseId] of its latest render, which is the course the page
    displays, together with the state the hook keeps between renders. *)
Record Mounted `{Runtime} := {
  active_courseId : string;
  hook : Hook
}.

(** The values a render of the course [courseId] closes over. *)
Definition render_closure `{Runtime} (courseId : string) (h : Hook) : Closure :=
  {| c_userId := userId h; c_courseId := courseId; c_username := username h |}.

(** The connect effect of a render: [if (userId) { connect(); }]. *)
Definition connectEffect `{Runtime} (env : Closure) (constructed : bool)
    (h : Hook) : Hook :=
  if truthy (c_userId env) then connect env constructed h else h.

(** The page is rendered with another [courseId]. [connect] depends on
    [courseId], so the cleanup of the connect effect runs and then the
    effect of the new render. *)
Definition render_course `{Runtime} (courseId : string) (constructed : bool)
    (m : Mounted) : Mounted :=
  let h := cleanup (hook m) in
  {| active_courseId := courseId;
     hook := connectEffect (render_closure courseId h) constructed h |}.

(** An event of the hook while the page stays on its course. *)
Definition deliver `{Runtime} (ev : Event) (m : Mounted) : Mounted :=
  {| active_courseId := active_courseId m; hook := step ev (hook m) |}.

(** ** Reference definitions

    The sync block occurs three times in the source; [sync_payload] is what
    one copy builds, written once, to compare the three copies with. *)
Section Reference.
Context `{Runtime}.

(** The guard [item.courseId && item.fileKey]. *)
Definition linked (item : StudyItem) : bool :=
  truthy (item_courseId item) && truthy (item_fileKey item).

Definition filed_under (c : string) (item : StudyItem) : bool :=
  linked item && strict_eq (item_courseId item) c.

(** The file keys of the linked items of course [c], in cart order. *)
Definition fileKeys_of (c : string) (cart : list StudyItem) : list string :=
  omap (fun item => if filed_under c item then item_fileKey item else None) cart.

Definition collect (studyItems : gmap string (list string)) (item : StudyItem)
  : option (gmap string (list string)) :=
  if truthy (item_courseId item) && truthy (item_fileKey item) then
    let courseId := default "" (item_courseId item) in
    let fileKey := default "" (item_fileKey item) in
    let studyItems :=
      match get_property studyItems courseId with
      | Undefined => <[courseId := []]> studyItems
      | _ => studyItems
      end in
    match get_property studyItems courseId with
    | OwnArray a => Some (<[courseId := (a ++ [fileKey])%list]> studyItems)
    | _ => None
    end
  else Some studyItems.

(** [None]: the block throws; [Some None]: nothing to send;
    [Some (Some m)]: the message to send. *)
Definition sync_payload (store : gmap string string) (username : string)
  : option (option Message) :=
  let storedProgress := store !! "course-progress" in
  let storedCart := store !! "study-cart" in
  if truthy storedProgress then
    progress ← JSON_parse_progress (default "" storedProgress);
    studyItems ←
      (if truthy storedCart then
         cartItems ← JSON_parse_cart (default "" storedCart);
         forEach collect cartItems ∅
       else Some ∅);
    Some (Some (sync_full_progress progress studyItems username))
  else Some None.

(** The messages one sync cycle transmits on an open socket. *)
Definition sync_messages (store : gmap string string) (username : string)
  : list Message :=
  match sync_payload store username with
  | Some (Some m) => [m]
  | _ => []
  end.

(** One sync cycle around [sync_payload]: send the message, if any, through
    [send] and log [line]. *)
Definition run_payload (send : Message -> Hook -> option Hook) (line : string)
    (username : string) (h : Hook) : option Hook :=
  match sync_payload (localStorage h) username with
  | None => None
  | Some None => Some h
  | Some (Some m) => h' ← send m h; Some (log line h')
  end.

(** Everything transmitted so far through socket [ws]. *)
Definition sent_on (ws : nat) (h : Hook) : list Message :=
  match sockets h !! ws with
  | Some s => ws_sent s
  | None => []
  end.

Definition is_sync_full_progress (m : Message) : bool :=
  match m with
  | sync_full_progress _ _ _ => true
  | _ => false
  end.

Definition is_progress_update (m : Message) : bool :=
  match m with
  | progress_update _ _ _ _ => true
  | _ => false
  end.

(** [h'] differs from [h] at most in what was written to the console. *)
Definition same_but_console (h h' : Hook) : Prop :=
  leaderboard h' = leaderboard h /\ isConnected h' = isConnected h /\
  username h' = username h /\ userId h' = userId h /\ wsRef h' = wsRef h /\
  reconnectTimeoutRef h' = reconnectTimeoutRef h /\
  pendingUpdatesRef h' = pendingUpdatesRef h /\
  localStorage h' = localStorage h /\ sockets h' = sockets h /\
  timeouts h' = timeouts h.

(** The socket [s] once open and after transmitting [ms]. *)
Definition opened_with (ms : list Message) (s : Socket) : Socket :=
  {| ws_url := ws_url s; readyState := OPEN;
     ws_sent := (ws_sent s ++ ms)%list; ws_closure := ws_closure s |}.

End Reference.

(** ** The study cart provider

    [StudyCartProvider] of study-cart-provider.tsx: the cart is a list of
    items kept in React state and mirrored under "study-cart". *)
Module StudyCartProvider.

Definition STORAGE_KEY : string := "study-cart".

(** [JSON.stringify(items)] and the [JSON.parse] of the load effect, whose
    value the provider uses as a [StudyItem[]] without a check; [None]
    stands for a text on which [JSON.parse] throws. *)
Class CartStorage := {
  JSON_stringify_items : list StudyItem -> string;
  JSON_parse_items : string -> option (list StudyItem)
}.

Record Provider := {
  items : list StudyItem;
  isLoaded : bool;
  provider_console : list string
}.

Definition setItems (v : list StudyItem) (p : Provider) : Provider :=
  {| items := v; isLoaded := isLoaded p; provider_console := provider_console p |}.

Definition setIsLoaded (v : bool) (p : Provider) : Provider :=
  {| items := items p; isLoaded := v; provider_console := provider_console p |}.

Definition console_error (line : string) (p : Provider) : Provider :=
  {| items := items p; isLoaded := isLoaded p;
     provider_console := provider_console p ++ [line] |}.

(** The state of the first render. *)
Definition first_render : Provider :=
  {| items := []; isLoaded := false; provider_console := [] |}.

(** The [try] body of the load effect. *)
Definition load_try `{CartStorage} (store : gmap string string) (p : Provider)
  : option Provider :=
  let stored := store !! STORAGE_KEY in
  if truthy stored then
    parsed ← JSON_parse_items (default "" stored);
    Some (setItems parsed p)
  else Some p.

(** The load effect, run once on mount. *)
Definition loadEffect `{CartStorage} (store : gmap string string) (p : Provider)
  : Provider :=
  let p :=
    match load_try store p with
    | Some p' => p'
    | None => console_error "Failed to load study cart:" p
    end in
  setIsLoaded true p.

(** The save effect of a render whose state is [items], [isLoaded]. *)
Definition saveEffect `{CartStorage} (items : list StudyItem) (isLoaded : bool)
    (store : gmap string string) : gmap string string :=
  if isLoaded then <[STORAGE_KEY := JSON_stringify_items items]> store
  else store.

(** The updater [addItem] passes to [setItems]. *)
Definition addItem (item : StudyItem) (prev : list StudyItem) : list StudyItem :=
  match List.find (fun i => String.eqb (item_id i) (item_id item)) prev with
  | Some _ => prev
  | None => (prev ++ [item])%list
  end.

(** The updater [removeItem] passes to [setItems]. *)
Definition removeItem (id : string) (prev : list StudyItem) : list StudyItem :=
  List.filter (fun i => negb (String.eqb (item_id i) id)) prev.

Definition clearCart : list StudyItem := [].

Definition isInCart (id : string) (items : list StudyItem) : bool :=
  existsb (fun i => String.eqb (item_id i) id) items.

Definition itemCount (items : list StudyItem) : nat := List.length items.

(** Mounting the provider: both effects of the first render run in source
    order, the save effect still with the state of the first render; the
    state set by the load effect causes one more render, whose save effect
    runs with the loaded state. *)
Definition mount `{CartStorage} (store : gmap string string)
  : Provider * gmap string string :=
  let p := loadEffect store first_render in
  let store := saveEffect (items first_render) (isLoaded first_render) store in
  let store := saveEffect (items p) (isLoaded p) store in
  (p, store).

End StudyCartProvider.

(** ** What a run does to sockets, storage and timers *)

Section Evolution.
Context `{Runtime}.

(** The socket [connect] constructs for the closure [env]. *)
Definition new_socket (env : Closure) : Socket :=
  {| ws_url := getWebSocketUrl +:+ "/ws/" +:+ default "" (c_userId env);
     readyState := CONNECTING; ws_sent := []; ws_closure := env |}.

(** The sockets [l'] come from [l] by transmitting messages that satisfy
    [P] on open sockets, moving sockets out of the connecting state or
    between the later states, and constructing sockets for closures with
    an identity. *)
Inductive socket_ops (P : Message -> Prop) : list Socket -> list Socket -> Prop :=
  | ops_done l : socket_ops P l l
  | ops_transmit l l' ws s m :
      l !! ws = Some s -> readyState s = OPEN -> P m ->
      socket_ops P (<[ws := transmit m s]> l) l' -> socket_ops P l l'
  | ops_readyState l l' ws s r :
      l !! ws = Some s -> r <> CONNECTING ->
      socket_ops P (<[ws := set_readyState r s]> l) l' -> socket_ops P l l'
  | ops_new l l' env :
      truthy (c_userId env) = true -> window_defined = true ->
      socket_ops P (l ++ [new_socket env]) l' -> socket_ops P l l'.

(** [wsRef.current] is the socket constructed last. *)
Definition newest (h : Hook) : Prop :=
  match wsRef h with
  | Some ws => S ws = List.length (sockets h)
  | None => sockets h = []
  end.

(** How [h'] relates to an earlier state [h]: the sockets by [socket_ops]
    for messages in [P], [localStorage] equal outside the keys [K], every
    pending timer already pending or of 3000 ms, and [wsRef] still the
    newest socket if it was. *)
Record evolves (P : Message -> Prop) (K : list string) (h h' : Hook) : Prop := {
  ev_sockets : socket_ops P (sockets h) (sockets h');
  ev_storage : forall k, k ∉ K -> localStorage h' !! k = localStorage h !! k;
  ev_timeouts : forall id t, timeouts h' !! id = Some (Some t) ->
    timeouts h !! id = Some (Some t) \/ timer_delay t = 3000%N;
  ev_newest : newest h -> newest h'
}.

(** The messages an event can cause to be transmitted. *)
Definition may_transmit (ev : Event) (m : Message) : Prop :=
  match ev with
  | SocketOpen _ =>
      match m with
      | sync_full_progress _ _ _ | request_leaderboard _ => True
      | _ => False
      end
  | PollTick courseId => m = request_leaderboard courseId
  | CallRequestLeaderboardUpdate courseId => m = request_leaderboard courseId
  | SyncTick username | StorageChanged username _ =>
      exists progress studyItems, m = sync_full_progress progress studyItems username
  | CallSyncFullProgress username progress studyItems =>
      m = sync_full_progress progress studyItems username
  | CallUpdateUsername newUsername => m = set_username newUsername
  | CallSendProgressUpdate courseId username fileKey isComplete =>
      m = progress_update courseId fileKey isComplete username
  | CallSyncStudyItems courseId fileKeys => m = sync_study_items courseId fileKeys
  | _ => False
  end.

(** The [localStorage] keys an event can write. *)
Definition may_write (ev : Event) : list string :=
  match ev with
  | Mount _ => ["progress-user-id"; "progress-username"]
  | CallUpdateUsername _ => ["progress-username"]
  | StoreWritten key _ => [key]
  | _ => []
  end.

(** What a socket of a run looks like. *)
Definition socket_ok (s : Socket) : Prop :=
  ws_url s = getWebSocketUrl +:+ "/ws/" +:+ default "" (c_userId (ws_closure s))
  /\ truthy (c_userId (ws_closure s)) = true
  /\ (readyState s = CONNECTING -> ws_sent s = []).

End Evolution.


(** ** Sample data

    A runtime whose [JSON.parse] is right on the texts below, and a few
    states of a run, to evaluate the hook on. *)
Module Sample.

Definition quoted (s : string) : string :=
  String (ascii_of_nat 34) s +:+ String (ascii_of_nat 34) EmptyString.

Definition member (key value : string) : string := quoted key +:+ ":" +:+ value.

(** [JSON.stringify] of a [StudyItem] whose strings need no escaping; an
    [undefined] field is left out. *)
Definition stringify_item (item : StudyItem) : string :=
  "{" +:+ member "id" (quoted (item_id item))
  +:+ "," +:+ member "url" (quoted (item_url item))
  +:+ "," +:+ member "title" (quoted (item_title item))
  +:+ "," +:+ member "courseName" (quoted (item_courseName item))
  +:+ "," +:+ member "unitNumber" (pretty (item_unitNumber item))
  +:+ match item_courseId item with
      | Some c => "," +:+ member "courseId" (quoted c)
      | None => EmptyString
      end
  +:+ match item_fileKey item with
      | Some f => "," +:+ member "fileKey" (quoted f)
      | None => EmptyString
      end
  +:+ "}".

(** What study-cart-provider.tsx stores under "study-cart". *)
Definition stringify_cart (items : list StudyItem) : string :=
  "[" +:+ String.concat "," (map stringify_item items) +:+ "]".

Definition notes : StudyItem :=
  {| item_id := "n1"; item_url := "/cs101/notes.pdf"; item_title := "Notes";
     item_courseName := "CS101"; item_unitNumber := 1;
     item_courseId := Some "cs101"; item_fileKey := Some "1-notes" |}.

Definition slides : StudyItem :=
  {| item_id := "s1"; item_url := "/cs101/slides.pdf"; item_title := "Slides";
     item_courseName := "CS101"; item_unitNumber := 2;
     item_courseId := Some "cs101"; item_fileKey := Some "2-slides" |}.

Definition intro : StudyItem :=
  {| item_id := "i1"; item_url := "/ma201/intro.pdf"; item_title := "Intro";
     item_courseName := "MA201"; item_unitNumber := 1;
     item_courseId := Some "ma201"; item_fileKey := Some "1-intro" |}.

Definition unlinked : StudyItem :=
  {| item_id := "x1"; item_url := "/misc/syllabus.pdf"; item_title := "Syllabus";
     item_courseName := "Misc"; item_unitNumber := 0;
     item_courseId := None; item_fileKey := None |}.

(** An item that has both fields, with an empty [courseId]. *)
Definition blank : StudyItem :=
  {| item_id := "b1"; item_url := "/misc/blank.pdf"; item_title := "Blank";
     item_courseName := "Misc"; item_unitNumber := 3;
     item_courseId := Some EmptyString; item_fileKey := Some "3-blank" |}.

(** An item whose [courseId] is a name every object inherits. *)
Definition odd : StudyItem :=
  {| item_id := "o1"; item_url := "/misc/odd.pdf"; item_title := "Odd";
     item_courseName := "Misc"; item_unitNumber := 4;
     item_courseId := Some "constructor"; item_fileKey := Some "4-odd" |}.

Definition cart : list StudyItem := [notes; unlinked; intro; slides].
Definition blank_cart : list StudyItem := [blank].
Definition odd_cart : list StudyItem := [notes; odd].

Definition known_carts : list (list StudyItem) := [cart; blank_cart; odd_cart; []].

(** The progress snapshot [{"cs101":{"f1":true,"f2":false}}]. *)
Definition progress : list (string * list (string * bool)) :=
  [("cs101", [("f1", true); ("f2", false)])].

Definition progress_text : string :=
  "{" +:+ member "cs101"
            ("{" +:+ member "f1" "true" +:+ "," +:+ member "f2" "false" +:+ "}")
  +:+ "}".

Definition entropy : Entropy :=
  {| now := 1700000000000; random36 := "0.4fzyo82mvyr";
     pick_adj := 0; pick_noun := 0; pick_num := 0 |}.

Definition me : LeaderboardEntry :=
  {| entry_userId := "user_1700000000000_4fzyo82mv"; entry_username := "SwiftPanda1";
     entry_completed := 1; entry_total := 2; entry_percentage := (50, 1)%Z;
     entry_lastUpdate := "2024-01-01T00:00:00.000Z" |}.

Definition peer : LeaderboardEntry :=
  {| entry_userId := "user_1600000000000_abcdefghi"; entry_username := "BoldOwl7";
     entry_completed := 2; entry_total := 2; entry_percentage := (100, 1)%Z;
     entry_lastUpdate := "2023-12-31T00:00:00.000Z" |}.

Definition stringify_entry (e : LeaderboardEntry) : string :=
  "{" +:+ member "userId" (quoted (entry_userId e))
  +:+ "," +:+ member "username" (quoted (entry_username e))
  +:+ "," +:+ member "completed" (pretty (entry_completed e))
  +:+ "," +:+ member "total" (pretty (entry_total e))
  +:+ "," +:+ member "percentage" (pretty (fst (entry_percentage e)))
  +:+ "," +:+ member "lastUpdate" (quoted (entry_lastUpdate e))
  +:+ "}".

Definition leaderboard_update_text (courseId : string)
    (entries : list LeaderboardEntry) : string :=
  "{" +:+ member "type" (quoted "leaderboard_update")
  +:+ "," +:+ member "courseId" (quoted courseId)
  +:+ "," +:+ member "leaderboard"
                ("[" +:+ String.concat "," (map stringify_entry entries) +:+ "]")
  +:+ "}".

Definition connected_text : string := "{" +:+ member "type" (quoted "connected") +:+ "}".

(** Not JSON: [JSON.parse] throws a [SyntaxError] on it. *)
Definition garbage_text : string := "<html>502 Bad Gateway</html>".

(** A [leaderboard_update] for "cs101" that has no [leaderboard]. *)
Definition no_array_text : string :=
  "{" +:+ member "type" (quoted "leaderboard_update")
  +:+ "," +:+ member "courseId" (quoted "cs101")
  +:+ "}".

Definition known_data : list (string * ServerData) :=
  [ (leaderboard_update_text "cs101" [peer; me],
     {| data_type := Some "leaderboard_update"; data_courseId := Some "cs101";
        data_leaderboard := Some [peer; me] |});
    (leaderboard_update_text "ma201" [me],
     {| data_type := Some "leaderboard_update"; data_courseId := Some "ma201";
        data_leaderboard := Some [me] |});
    (no_array_text,
     {| data_type := Some "leaderboard_update"; data_courseId := Some "cs101";
        data_leaderboard := None |});
    (connected_text,
     {| data_type := Some "connected"; data_courseId := None;
        data_leaderboard := None |}) ].

Definition runtime : Runtime :=
  {| Progress := list (string * list (string * bool));
     JSON_parse_progress := fun text =>
       if String.eqb text progress_text then Some progress
       else if String.eqb text "{}" then Some []
       else None;
     JSON_parse_cart := fun text =>
       List.find (fun items => String.eqb (stringify_cart items) text) known_carts;
     JSON_parse_data := fun text =>
       snd <$> List.find (fun entry => String.eqb (fst entry) text) known_data;
     window_defined := true;
     NEXT_PUBLIC_WS_URL := None |}.

(** The closure of a render of the course "cs101" after the identity was
    initialised. *)
Definition env : Closure :=
  {| c_userId := Some "user_1700000000000_4fzyo82mv"; c_courseId := "cs101";
     c_username := "SwiftPanda1" |}.

(** A first visit: empty storage, identity initialised, one socket
    connecting. *)
Definition connecting : @Hook runtime :=
  step (RunConnect env true) (step (Mount entropy) (initial ∅)).

(** The same with the socket open. *)
Definition connected : @Hook runtime :=
  step (SocketOpen 0) connecting.

(** Connected, then progress and a cart were stored. *)
Definition studying : @Hook runtime :=
  step (StoreWritten "study-cart" (stringify_cart cart))
    (step (StoreWritten "course-progress" progress_text) connected).

(** Connected, then progress and a cart with the blank item were stored. *)
Definition studying_blank : @Hook runtime :=
  step (StoreWritten "study-cart" (stringify_cart blank_cart))
    (step (StoreWritten "course-progress" progress_text) connected).

(** Connected, then progress and a cart with the odd item were stored. *)
Definition studying_odd : @Hook runtime :=
  step (StoreWritten "study-cart" (stringify_cart odd_cart))
    (step (StoreWritten "course-progress" progress_text) connected).

(** Storage with unparseable progress. *)
Definition corrupted : @Hook runtime :=
  step (StoreWritten "course-progress" "{oops") connected.

(** A first visit where [new WebSocket] throws. *)
Definition refused : @Hook runtime :=
  step (RunConnect env false) (step (Mount entropy) (initial ∅)).

(** Connected with a leaderboard received for "cs101". *)
Definition ranked : @Hook runtime :=
  step (SocketMessage 0 (leaderboard_update_text "cs101" [peer; me])) connected.

(** The socket of [connecting], and the same once open. *)
Definition socket : @Socket runtime :=
  {| ws_url := "ws://localhost:8000/ws/user_1700000000000_4fzyo82mv";
     readyState := CONNECTING; ws_sent := []; ws_closure := env |}.

Definition open_socket : @Socket runtime :=
  {| ws_url := "ws://localhost:8000/ws/user_1700000000000_4fzyo82mv";
     readyState := OPEN; ws_sent := [request_leaderboard "cs101"];
     ws_closure := env |}.

(** The draws of a later call. *)
Definition later : Entropy :=
  {| now := 1700000009999; random36 := "0.zzzzzzzzzzzz";
     pick_adj := 3; pick_noun := 5; pick_num := 41 |}.

(** The study items object of [cart]. *)
Definition cart_studyItems : gmap string (list string) :=
  {[ "cs101" := ["1-notes"; "2-slides"]; "ma201" := ["1-intro"] ]}.


(** The provider's storage functions, right on the sample carts. *)
Definition codec : StudyCartProvider.CartStorage :=
  {| StudyCartProvider.JSON_stringify_items := stringify_cart;
     StudyCartProvider.JSON_parse_items := fun text =>
       List.find (fun items => String.eqb (stringify_cart items) text) known_carts |}.

(** Storage that holds the sample cart and nothing else. *)
Definition cart_store : gmap string string :=
  {[ "study-cart" := stringify_cart cart ]}.

(** Storage whose cart entry is not JSON. *)
Definition broken_cart_store : gmap string string :=
  {[ "study-cart" := "[{oops" ]}.

(** The closure of a later render, of the course "ma201". *)
Definition env_ma201 : Closure :=
  {| c_userId := Some "user_1700000000000_4fzyo82mv"; c_courseId := "ma201";
     c_username := "SwiftPanda1" |}.

(** The course changed while connected: cleanup, a new socket, which
    opens before the close of the first one is reported. *)
Definition switched : @Hook runtime :=
  step (SocketOpen 1) (step (RunConnect env_ma201 true) (step Cleanup connected)).

Definition closing_socket : @Socket runtime :=
  {| ws_url := "ws://localhost:8000/ws/user_1700000000000_4fzyo82mv";
     readyState := CLOSING; ws_sent := [request_leaderboard "cs101"];
     ws_closure := env |}.

Definition open_socket_ma201 : @Socket runtime :=
  {| ws_url := "ws://localhost:8000/ws/user_1700000000000_4fzyo82mv";
     readyState := OPEN; ws_sent := [request_leaderboard "ma201"];
     ws_closure := env_ma201 |}.

(** A return visit to the page of "cs101": progress and a cart are stored,
    and a file was ticked while the socket was still connecting. *)
Definition returning : @Mounted runtime :=
  {| active_courseId := "cs101";
     hook :=
       step (CallSendProgressUpdate "cs101" "SwiftPanda1" "f1" true)
         (step (StoreWritten "study-cart" (stringify_cart cart))
            (step (StoreWritten "course-progress" progress_text) connecting)) |}.

(** The page of "cs101", connected. *)
Definition page_cs101 : @Mounted runtime :=
  {| active_courseId := "cs101"; hook := connected |}.

(** The page goes on to "ma201" and its socket opens; then the close of the
    first socket is reported, its reconnect timer expires and the socket
    that timer created opens. *)
Definition page_ma201 : @Mounted runtime :=
  deliver (SocketOpen 1) (render_course "ma201" true page_cs101).

Definition stale : @Mounted runtime :=
  deliver (SocketOpen 2)
    (deliver (TimerExpires 0 true) (deliver (SocketClose 0) page_ma201)).

(** Connected, then a [leaderboard_update] without a [leaderboard] came. *)
Definition unranked : @Hook runtime :=
  step (SocketMessage 0 no_array_text) connected.


End Sample.


(** ** Properties *)

Section Properties.
Context `{Runtime}.

(** *** The primitives on examples *)

Example trim_strips_both_ends :
  trim (String (ascii_of_nat 9) " Ada Lovelace  ") = "Ada Lovelace".
Proof. reflexivity. Qed.

Example trim_white_space_only :
  trim (String (ascii_of_nat 160) (String (ascii_of_nat 10) "  ")) = EmptyString.
Proof. reflexivity. Qed.

Example findIndex_first : findIndex (Nat.eqb 2) ([1; 2; 3; 2] : list nat) = 1%Z.
Proof. reflexivity. Qed.

Example findIndex_absent : findIndex (Nat.eqb 5) ([1; 2; 3] : list nat) = (-1)%Z.
Proof. reflexivity. Qed.

Example get_property_inherited : get_property ∅ "constructor" = InheritedValue.
Proof. reflexivity. Qed.

Example get_property_fresh : get_property ∅ "cs101" = Undefined.
Proof. reflexivity. Qed.

Example collect_groups_in_order :
  forEach collect Sample.cart ∅ = Some Sample.cart_studyItems.
Proof. vm_compute. reflexivity. Qed.

Example collect_throws_on_inherited : forEach collect Sample.odd_cart ∅ = None.
Proof. reflexivity. Qed.

(** *** White space *)

Lemma trimEnd_empty (s : string) :
  trimEnd s = "" <-> all_white_space s = true.
Proof.
  induction s as [|c s IH]; simpl; [done|].
  destruct (trimEnd s) eqn:E.
  - destruct (is_white_space c); simpl.
    + split; [intros _; by apply IH | done].
    + split; [discriminate | done].
  - split; [discriminate|].
    intros [_ W]%andb_prop. apply IH in W. discriminate.
Qed.

Lemma trimStart_white (s : string) :
  all_white_space (trimStart s) = all_white_space s.
Proof.
  induction s as [|c s IH]; simpl; [done|].
  destruct (is_white_space c) eqn:E; simpl; [done|]. by rewrite E.
Qed.

Lemma trim_empty (s : string) :
  trim s = "" <-> all_white_space s = true.
Proof. unfold trim. by rewrite trimEnd_empty, trimStart_white. Qed.

Lemma truthy_trim (s : string) :
  truthy (Some (trim s)) = negb (all_white_space s).
Proof.
  unfold truthy. destruct (String.eqb_spec (trim s) "") as [E|E].
  - apply trim_empty in E. by rewrite E.
  - destruct (all_white_space s) eqn:W; [|done].
    apply trim_empty in W. done.
Qed.

Lemma truthy_Some (v : option string) :
  truthy v = true <-> exists s, v = Some s /\ s <> "".
Proof.
  destruct v as [s|]; simpl.
  - destruct (String.eqb_spec s ""); simpl; split; try done.
    + intros (s' & [= <-] & ?). done.
    + intros _. by exists s.
  - split; [done | by intros (? & ? & ?)].
Qed.

(** *** The three copies of the sync block *)

(** Walks one copy of the block and [sync_payload] side by side: the two
    reads, the two parses, then the loop, whose callback is [collect]. *)
Ltac same_block h :=
  unfold run_payload, sync_payload;
  destruct (truthy (localStorage h !! "course-progress")); [|done];
  destruct (JSON_parse_progress _); [|done]; simpl;
  destruct (truthy (localStorage h !! "study-cart")); [|done];
  destruct (JSON_parse_cart _) as [cart|]; [|done]; simpl;
  change (forEach _ cart ∅) with (forEach collect cart ∅);
  by destruct (forEach collect cart ∅).

Lemma onopen_try_payload ws env h :
  onopen_try ws env h
  = run_payload (ws_send ws) "Synced full progress state to server" (c_username env) h.
Proof.
  unfold onopen_try. same_block h.
Qed.

Lemma syncInterval_try_payload username h :
  syncInterval_try username h
  = run_payload wsRef_send "Periodic sync completed" username h.
Proof.
  unfold syncInterval_try. same_block h.
Qed.

Lemma handleStorageChange_try_payload username h :
  handleStorageChange_try username h
  = run_payload wsRef_send "Synced after localStorage change" username h.
Proof.
  unfold handleStorageChange_try. same_block h.
Qed.

(** *** Building the study items object *)

Lemma collect_skip (m : gmap string (list string)) item :
  linked item = false -> collect m item = Some m.
Proof. unfold collect, linked. by intros ->. Qed.

Lemma collect_linked (m : gmap string (list string)) item :
  linked item = true ->
  inherited (default "" (item_courseId item)) = false ->
  collect m item
  = Some (<[default "" (item_courseId item) :=
              (default [] (m !! default "" (item_courseId item))
               ++ [default "" (item_fileKey item)])%list]> m).
Proof.
  unfold collect, linked. intros -> Hinh. unfold get_property. rewrite Hinh.
  destruct (m !! default "" (item_courseId item)) as [a|] eqn:E; simpl.
  - by rewrite E.
  - by rewrite lookup_insert_eq, insert_insert_eq.
Qed.

Lemma collect_inherited (m : gmap string (list string)) item :
  linked item = true ->
  inherited (default "" (item_courseId item)) = true ->
  m !! default "" (item_courseId item) = None ->
  collect m item = None.
Proof.
  unfold collect, linked. intros -> Hinh E. unfold get_property.
  rewrite E, Hinh. simpl. by rewrite E.
Qed.

Lemma filed_under_key c item :
  filed_under c item = true ->
  linked item = true /\ default "" (item_courseId item) = c
  /\ item_fileKey item = Some (default "" (item_fileKey item)).
Proof.
  unfold filed_under, linked, strict_eq.
  intros [[Hc Hf]%andb_prop E]%andb_prop.
  rewrite Hc, Hf. destruct (item_courseId item) as [c'|]; [|done].
  apply String.eqb_eq in E as ->.
  destruct (item_fileKey item); done.
Qed.

Lemma filed_under_other c item :
  linked item = true -> filed_under c item = false ->
  default "" (item_courseId item) <> c.
Proof.
  unfold filed_under, linked, strict_eq. intros L. rewrite L. simpl.
  apply andb_prop in L as [Hc _].
  destruct (item_courseId item) as [c'|]; [|done]. simpl.
  by intros ?%String.eqb_neq.
Qed.

Lemma fileKeys_of_none c cart :
  existsb (filed_under c) cart = false -> fileKeys_of c cart = [].
Proof.
  induction cart as [|item cart IH]; simpl; [done|].
  intros [F X]%orb_false_elim. unfold fileKeys_of. simpl. rewrite F.
  by apply IH.
Qed.

(** Running the loop from any object [m] none of whose linked course ids is
    an inherited name: each course's array grows by its file keys, in cart
    order; arrays of other courses stay. *)
Lemma forEach_collect (cart : list StudyItem) (m : gmap string (list string)) :
  (forall item, item ∈ cart -> linked item = true ->
     inherited (default "" (item_courseId item)) = false) ->
  exists m', forEach collect cart m = Some m' /\
    forall c, m' !! c =
      if existsb (filed_under c) cart
      then Some (default [] (m !! c) ++ fileKeys_of c cart)%list
      else m !! c.
Proof.
  revert m. induction cart as [|item cart IH]; intros m Hok; simpl.
  { by exists m. }
  destruct (linked item) eqn:L.
  - rewrite collect_linked by (done || (apply Hok; [left|done])). simpl.
    destruct (IH (<[default "" (item_courseId item) :=
                    (default [] (m !! default "" (item_courseId item))
                     ++ [default "" (item_fileKey item)])%list]> m))
      as (m' & -> & Hm').
    { intros ? ? ?. apply Hok; [by right|done]. }
    exists m'. split; [done|]. intros c. rewrite Hm'.
    unfold fileKeys_of at 2. simpl. fold (fileKeys_of c cart).
    destruct (filed_under c item) eqn:F.
    + apply filed_under_key in F as (_ & <- & ->). simpl.
      rewrite lookup_insert_eq. simpl.
      destruct (existsb _ cart) eqn:X; [by rewrite <- app_assoc|].
      by rewrite (fileKeys_of_none _ _ X).
    + simpl. rewrite lookup_insert_ne by by apply filed_under_other.
      done.
  - rewrite collect_skip by done. simpl.
    destruct (IH m) as (m' & -> & Hm').
    { intros ? ? ?. apply Hok; [by right|done]. }
    exists m'. split; [done|]. intros c. rewrite Hm'.
    unfold fileKeys_of at 2. simpl. fold (fileKeys_of c cart).
    assert (filed_under c item = false) as -> by (unfold filed_under; by rewrite L).
    done.
Qed.


Lemma collect_Some (m m' : gmap string (list string)) item :
  collect m item = Some m' ->
  m' = if linked item
       then <[default "" (item_courseId item) :=
                (default [] (m !! default "" (item_courseId item))
                 ++ [default "" (item_fileKey item)])%list]> m
       else m.
Proof.
  destruct (linked item) eqn:L.
  - destruct (inherited (default "" (item_courseId item))) eqn:I.
    + destruct (m !! default "" (item_courseId item)) as [a|] eqn:E.
      * unfold collect. unfold linked in L. rewrite L. unfold get_property.
        rewrite E. simpl. rewrite E. by intros [= <-].
      * by rewrite collect_inherited.
    + rewrite collect_linked by done. by intros [= <-].
  - rewrite collect_skip by done. by intros [= <-].
Qed.

(** Whenever the loop completes, from any object [m], the result is the
    grouping of the linked items. *)
Lemma forEach_collect_Some (cart : list StudyItem) (m m' : gmap string (list string)) :
  forEach collect cart m = Some m' ->
  forall c, m' !! c =
    if existsb (filed_under c) cart
    then Some (default [] (m !! c) ++ fileKeys_of c cart)%list
    else m !! c.
Proof.
  revert m. induction cart as [|item cart IH]; intros m; simpl.
  { by intros [= <-]. }
  destruct (collect m item) as [m1|] eqn:C; [|done]. simpl.
  intros F c. rewrite (IH _ F c). apply collect_Some in C as ->.
  unfold fileKeys_of at 2. simpl. fold (fileKeys_of c cart).
  destruct (linked item) eqn:L.
  - destruct (filed_under c item) eqn:Fu.
    + apply filed_under_key in Fu as (_ & <- & ->). simpl.
      rewrite lookup_insert_eq. simpl.
      destruct (existsb _ cart) eqn:X; [by rewrite <- app_assoc|].
      by rewrite (fileKeys_of_none _ _ X).
    + simpl. rewrite lookup_insert_ne by by apply filed_under_other.
      done.
  - assert (filed_under c item = false) as -> by (unfold filed_under; by rewrite L).
    done.
Qed.

(** *** Sending *)

Lemma wsRef_open_true h :
  wsRef_open h = true <->
  exists ws s, wsRef h = Some ws /\ sockets h !! ws = Some s /\ readyState s = OPEN.
Proof.
  unfold wsRef_open. split.
  - destruct (wsRef h) as [ws|]; [|done].
    destruct (sockets h !! ws) as [s|] eqn:E; [|done].
    intros R. exists ws, s. by destruct (readyState s).
  - intros (ws & s & -> & -> & ->). done.
Qed.

Lemma ws_send_open ws s m h :
  sockets h !! ws = Some s -> readyState s = OPEN ->
  ws_send ws m h = Some (set_sockets (<[ws := transmit m s]> (sockets h)) h).
Proof. unfold ws_send. by intros -> ->. Qed.

Lemma wsRef_send_open ws s m h :
  wsRef h = Some ws -> sockets h !! ws = Some s -> readyState s = OPEN ->
  wsRef_send m h = Some (set_sockets (<[ws := transmit m s]> (sockets h)) h).
Proof. unfold wsRef_send. intros -> ? ?. by apply ws_send_open. Qed.

Lemma sent_on_transmit ws s m h :
  sockets h !! ws = Some s ->
  sent_on ws (set_sockets (<[ws := transmit m s]> (sockets h)) h)
  = (ws_sent s ++ [m])%list.
Proof.
  intros E. unfold sent_on. simpl.
  rewrite list_lookup_insert_eq by (by eapply lookup_lt_Some). done.
Qed.

Lemma sent_on_transmit_ne ws ws' s m h :
  ws' <> ws ->
  sent_on ws' (set_sockets (<[ws := transmit m s]> (sockets h)) h) = sent_on ws' h.
Proof.
  intros N. unfold sent_on. simpl. by rewrite list_lookup_insert_ne.
Qed.

Lemma sent_on_log ws line h : sent_on ws (log line h) = sent_on ws h.
Proof. done. Qed.

(** One sync cycle on an open socket, whichever copy runs it. *)
Lemma run_payload_open send line username ws s h :
  sockets h !! ws = Some s ->
  (forall m, send m h = Some (set_sockets (<[ws := transmit m s]> (sockets h)) h)) ->
  run_payload send line username h =
    match sync_payload (localStorage h) username with
    | None => None
    | Some None => Some h
    | Some (Some m) =>
        Some (log line (set_sockets (<[ws := transmit m s]> (sockets h)) h))
    end.
Proof.
  intros E Hsend. unfold run_payload.
  destruct (sync_payload _ _) as [[m|]|]; [|done..].
  by rewrite Hsend.
Qed.

Lemma cycle_sockets send line err username ws s h :
  sockets h !! ws = Some s ->
  (forall m, send m h = Some (set_sockets (<[ws := transmit m s]> (sockets h)) h)) ->
  sockets match run_payload send line username h with
          | Some h' => h'
          | None => log err h
          end
  = match sync_payload (localStorage h) username with
    | Some (Some m) => <[ws := transmit m s]> (sockets h)
    | _ => sockets h
    end.
Proof.
  intros E Hsend. rewrite (run_payload_open _ _ _ ws s) by done.
  by destruct (sync_payload _ _) as [[m|]|].
Qed.

Lemma cycle_localStorage send line err username h :
  (forall m h', send m h = Some h' -> localStorage h' = localStorage h) ->
  localStorage match run_payload send line username h with
               | Some h' => h'
               | None => log err h
               end
  = localStorage h.
Proof.
  intros Hsend. unfold run_payload.
  destruct (sync_payload _ _) as [[m|]|]; [|done..].
  destruct (send m h) as [h'|] eqn:E; [|done]. simpl. by eapply Hsend.
Qed.

Lemma ws_send_localStorage ws m h h' :
  ws_send ws m h = Some h' -> localStorage h' = localStorage h.
Proof.
  unfold ws_send. destruct (sockets h !! ws) as [s|]; [|done].
  destruct (readyState s); intros [= <-]; done.
Qed.

Lemma wsRef_send_localStorage m h h' :
  wsRef_send m h = Some h' -> localStorage h' = localStorage h.
Proof.
  unfold wsRef_send. destruct (wsRef h); [|done]. apply ws_send_localStorage.
Qed.

Lemma sync_payload_none store username :
  truthy (store !! "course-progress") = false
  \/ JSON_parse_progress (default "" (store !! "course-progress")) = None ->
  sync_payload store username = Some None \/ sync_payload store username = None.
Proof.
  unfold sync_payload. intros [-> | E]; [by left|].
  destruct (truthy _); [|by left]. rewrite E. by right.
Qed.


(** *** Outbound calls *)

(** C7. [updateUsername] with a name made of white space only (the empty
    name included) returns the state it was given: the stored username, the
    in-memory username and every socket's traffic are unchanged. With any
    other name it stores the name (as given, untrimmed) under
    "progress-username", sets the in-memory username, and, when the current
    socket is open, transmits exactly one [set_username] message for it on
    that socket and nothing on any other. *)
Theorem updateUsername_whitespace_noop (newUsername : string) (h : Hook) :
  (all_white_space newUsername = true -> updateUsername newUsername h = h) /\
  (all_white_space newUsername = false ->
     let h' := updateUsername newUsername h in
     localStorage h' = <["progress-username" := newUsername]> (localStorage h) /\
     username h' = newUsername /\
     (wsRef_open h = true ->
        exists ws, wsRef h = Some ws /\
          sent_on ws h' = (sent_on ws h ++ [set_username newUsername])%list /\
          forall ws', ws' <> ws -> sent_on ws' h' = sent_on ws' h) /\
     (wsRef_open h = false -> sockets h' = sockets h)).
Proof.
  unfold updateUsername. rewrite truthy_trim, negb_involutive. split.
  - by intros ->.
  - intros ->. cbv zeta.
    set (h1 := set_localStorage _ (setUsername newUsername h)).
    assert (wsRef_open h1 = wsRef_open h) as -> by done.
    destruct (wsRef_open h) eqn:O.
    + apply wsRef_open_true in O as (ws & s & Href & Hs & Hopen).
      rewrite (wsRef_send_open ws s) by done. simpl.
      repeat split; [|done].
      intros _. exists ws. split; [done|]. split.
      * unfold sent_on at 2. rewrite Hs.
        by apply (sent_on_transmit ws s _ h1).
      * intros ws' N. by apply (sent_on_transmit_ne ws ws' s _ h1).
    + repeat split; done.
Qed.

Lemma updateUsername_not_open newUsername h :
  wsRef_open h = false ->
  updateUsername newUsername h =
    if all_white_space newUsername then h
    else set_localStorage (<["progress-username" := newUsername]> (localStorage h))
           (setUsername newUsername h).
Proof.
  intros O. unfold updateUsername. rewrite truthy_trim, negb_involutive.
  destruct (all_white_space newUsername); [done|].
  assert (wsRef_open (set_localStorage
            (<["progress-username" := newUsername]>
               (localStorage (setUsername newUsername h)))
            (setUsername newUsername h)) = wsRef_open h) as -> by done.
  by rewrite O.
Qed.

(** C4. While the current socket is missing or not open,
    [sendProgressUpdate] appends its update to the pending queue and
    transmits nothing, and [requestLeaderboardUpdate], [syncStudyItems],
    [syncFullProgress] and the [set_username] of [updateUsername] neither
    transmit nor queue anything, no more than the poll, the periodic sync
    and the storage listener do; each call returns normally. *)
Theorem not_open_queue_or_drop (h : Hook) (courseId username fileKey : string)
    (isComplete : bool) (fileKeys : list string) (progress : Progress)
    (studyItems : gmap string (list string)) (newUsername : string)
    (e_key : option string) :
  wsRef_open h = false ->
  sendProgressUpdate courseId username fileKey isComplete h
    = set_pendingUpdatesRef
        (pendingUpdatesRef h ++ [{| pu_courseId := courseId; pu_fileKey := fileKey;
                                    pu_isComplete := isComplete |}]) h
  /\ sockets (sendProgressUpdate courseId username fileKey isComplete h) = sockets h
  /\ requestLeaderboardUpdate courseId h = h
  /\ syncStudyItems courseId fileKeys h = h
  /\ syncFullProgress username progress studyItems h = h
  /\ sockets (updateUsername newUsername h) = sockets h
  /\ pendingUpdatesRef (updateUsername newUsername h) = pendingUpdatesRef h
  /\ pollInterval courseId h = h
  /\ syncInterval username h = h
  /\ handleStorageChange username e_key h = h.
Proof.
  intros O.
  rewrite (updateUsername_not_open newUsername h O).
  unfold sendProgressUpdate, requestLeaderboardUpdate, syncStudyItems,
    syncFullProgress, pollInterval, syncInterval, handleStorageChange.
  rewrite O. simpl.
  repeat split; try done; try (by destruct (all_white_space _)).
  by destruct (_ || _).
Qed.

(** *** Inbound messages *)

(** What [onmessage] compares with is the [courseId] its socket's handlers
    closed over. A message that arrives on an open socket and parses to a
    [leaderboard_update] replaces the cached leaderboard with the message's
    [leaderboard] when its [courseId] is that course, and leaves the whole
    state unchanged when it is for any other course (or carries none). A
    payload on which the parse throws is logged and dropped: the
    leaderboard, the sockets (so the socket stays open), the socket
    reference and the connected flag are unchanged. *)
Lemma onmessage_by_closure_course (ws : nat) (s : Socket)
    (event_data : string) (h : Hook) :
  sockets h !! ws = Some s -> readyState s = OPEN ->
  let courseId := c_courseId (ws_closure s) in
  let h' := fire_message ws event_data h in
  (forall d, JSON_parse_data event_data = Some d ->
     data_type d = Some "leaderboard_update" ->
     (data_courseId d = Some courseId ->
        h' = setLeaderboard (data_leaderboard d) h /\
        leaderboard h' = data_leaderboard d) /\
     (data_courseId d <> Some courseId ->
        h' = h /\ leaderboard h' = leaderboard h)) /\
  (JSON_parse_data event_data = None ->
     h' = log "Error parsing WebSocket message:" h /\
     leaderboard h' = leaderboard h /\ sockets h' = sockets h /\
     wsRef h' = wsRef h /\ isConnected h' = isConnected h).
Proof.
  intros Hs Hopen. cbv zeta. unfold fire_message. rewrite Hs, Hopen.
  unfold ws_onmessage, onmessage_try. split.
  - intros d -> Ht. simpl. rewrite Ht. simpl. split.
    + intros ->. simpl. by rewrite String.eqb_refl.
    + intros N. assert (strict_eq (data_courseId d) (c_courseId (ws_closure s)) = false) as ->.
      { unfold strict_eq. destruct (data_courseId d) as [c|]; [|done].
        apply String.eqb_neq. congruence. }
      done.
  - intros ->. done.
Qed.


(** *** Invariants of a run *)

Lemma wf_same (h h' : Hook) :
  userId h' = userId h -> sockets h' = sockets h ->
  timeouts h' = timeouts h -> wsRef h' = wsRef h ->
  well_formed h -> well_formed h'.
Proof.
  intros E1 E2 E3 E4 [W1 W2 W3 W4].
  split; rewrite ?E1, ?E2, ?E3, ?E4; done.
Qed.

(** Replacing a socket by one with the same closure. *)
Lemma wf_update_socket (h : Hook) ws s s' :
  sockets h !! ws = Some s -> ws_closure s' = ws_closure s ->
  well_formed h -> well_formed (set_sockets (<[ws := s']> (sockets h)) h).
Proof.
  intros Hs Hc [W1 W2 W3 W4]. split; simpl; [done| |done|].
  - intros i x [(-> & <- & _) | (_ & Hx)]%list_lookup_insert_Some.
    + rewrite Hc. by eapply W2.
    + by eapply W2.
  - intros i Hi. rewrite length_insert. by apply W4.
Qed.

Lemma wf_clear_timeout (h : Hook) id :
  well_formed h -> well_formed (set_timeouts (<[id := None]> (timeouts h)) h).
Proof.
  intros [W1 W2 W3 W4]. split; simpl; [done..| |done].
  intros i t [(_ & ? & _) | (_ & Ht)]%list_lookup_insert_Some; [done|].
  by eapply W3.
Qed.

Lemma wf_ws_send ws m (h h' : Hook) :
  ws_send ws m h = Some h' -> well_formed h -> well_formed h'.
Proof.
  unfold ws_send. destruct (sockets h !! ws) as [s|] eqn:E; [|done].
  destruct (readyState s); intros [= <-] W; try done.
  by apply (wf_update_socket h ws s).
Qed.

Lemma wf_wsRef_send m (h h' : Hook) :
  wsRef_send m h = Some h' -> well_formed h -> well_formed h'.
Proof.
  unfold wsRef_send. destruct (wsRef h); [|done]. apply wf_ws_send.
Qed.

Lemma wf_uncaught r (h : Hook) :
  (forall h', r = Some h' -> well_formed h') -> well_formed h ->
  well_formed (uncaught r h).
Proof. destruct r; simpl; auto. Qed.

Lemma wf_run_payload send line err username (h : Hook) :
  (forall m h', send m h = Some h' -> well_formed h') ->
  well_formed h ->
  well_formed match run_payload send line username h with
              | Some h' => h'
              | None => log err h
              end.
Proof.
  intros Hsend W. unfold run_payload.
  destruct (sync_payload _ _) as [[m|]|]; [|done|by apply (wf_same h)].
  destruct (send m h) as [h'|] eqn:E; simpl; [|by apply (wf_same h)].
  apply (wf_same h'); try done. by eapply Hsend.
Qed.

Lemma getUserId_valid e store :
  (getUserId e store).1 = None \/ truthy (getUserId e store).1 = true.
Proof.
  unfold getUserId. destruct window_defined; simpl; [|by left].
  destruct (truthy (store !! "progress-user-id")) eqn:T; simpl; by right.
Qed.

Lemma wf_connect env constructed (h : Hook) :
  well_formed h -> well_formed (connect env constructed h).
Proof.
  intros W. unfold connect.
  destruct (truthy (c_userId env)) eqn:T; [|done].
  destruct window_defined eqn:Wd; [|done]. simpl.
  destruct constructed; [|by apply (wf_same h)].
  destruct W as [W1 W2 W3 W4]. split; simpl; [done| | |].
  - intros i x [Hx | (_ & Hx)]%lookup_app_Some; [by eapply W2|].
    apply list_lookup_singleton_Some in Hx as [_ <-]. done.
  - intros i t Ht. destruct (W3 i t Ht). done.
  - intros i [= <-]. rewrite length_app. simpl. lia.
Qed.

Lemma wf_step ev (h : Hook) : well_formed h -> well_formed (step ev h).
Proof.
  intros W. destruct ev; simpl.
  - (* Mount *)
    unfold initIdentity.
    pose proof (getUserId_valid e (localStorage h)) as V.
    destruct (getUserId e (localStorage h)) as [id store].
    destruct (getUsername e store) as [name store'].
    destruct W as [W1 W2 W3 W4]. split; done.
  - by apply wf_connect.
  - (* Cleanup *)
    unfold cleanup.
    set (h1 := match reconnectTimeoutRef h with
               | Some id => set_timeouts (<[id := None]> (timeouts h)) h
               | None => h
               end).
    assert (well_formed h1) as W1.
    { subst h1. destruct (reconnectTimeoutRef h); [by apply wf_clear_timeout|done]. }
    destruct (wsRef h1); [|done].
    destruct (sockets h1 !! n) as [s|] eqn:E; [|done].
    destruct (readyState s); try done; by apply (wf_update_socket h1 n s).
  - (* Online *)
    unfold handleOnline. destruct (negb isConnected0).
    + apply wf_connect. by apply (wf_same h).
    + by apply (wf_same h).
  - by apply (wf_same h).
  - (* SocketOpen *)
    unfold fire_open. destruct (sockets h !! ws) as [s|] eqn:E; [|done].
    destruct (readyState s); try done.
    unfold ws_onopen.
    set (h0 := set_sockets _ h).
    assert (well_formed h0) as W0 by (by apply (wf_update_socket h ws s)).
    set (h1 := setIsConnected true (log _ h0)).
    assert (well_formed h1) as W1 by (by apply (wf_same h0)).
    unfold onopen_sync. rewrite onopen_try_payload.
    set (h2 := match run_payload _ _ _ h1 with Some h' => h' | None => _ end).
    assert (well_formed h2) as W2.
    { apply wf_run_payload; [|done]. intros m h'. intros ?. by eapply wf_ws_send. }
    apply wf_uncaught; [|by apply (wf_same h2)].
    intros h'. intros ?. eapply wf_ws_send; [done|]. by apply (wf_same h2).
  - (* SocketMessage *)
    unfold fire_message. destruct (sockets h !! ws) as [s|]; [|done].
    destruct (readyState s); try done.
    unfold ws_onmessage, onmessage_try.
    destruct (JSON_parse_data event_data) as [d|]; simpl; [|by apply (wf_same h)].
    destruct (_ && _); [by apply (wf_same h)|].
    destruct (strict_eq _ _); [by apply (wf_same h)|done].
  - (* SocketError *)
    unfold fire_error. destruct (sockets h !! ws); [by apply (wf_same h)|done].
  - (* SocketClose *)
    unfold fire_close. destruct (sockets h !! ws) as [s|] eqn:E; [|done].
    assert (well_formed (ws_onclose (ws_closure s)
              (set_sockets (<[ws := set_readyState CLOSED s]> (sockets h)) h))) as Wc.
    { pose proof (wf_update_socket h ws s (set_readyState CLOSED s) E eq_refl W)
        as [W1 W2 W3 W4].
      destruct W as [_ V2 _ _]. specialize (V2 ws s E).
      unfold ws_onclose. split; simpl; [done..| |done].
      intros i t [Ht | (_ & Ht)]%lookup_app_Some; [by eapply W3|].
      apply list_lookup_singleton_Some in Ht as [_ [= <-]]. done. }
    destruct (readyState s); done.
  - (* TimerExpires *)
    unfold fire_timeout. destruct (timeouts h !! id) as [[t|]|]; [|done..].
    unfold reconnect. apply wf_connect.
    apply (wf_same (set_timeouts (<[id := None]> (timeouts h)) h)); try done.
    by apply wf_clear_timeout.
  - (* PollTick *)
    unfold pollInterval. destruct (wsRef_open h); [|done].
    apply wf_uncaught; [|done]. intros h' ?. by eapply wf_wsRef_send.
  - (* SyncTick *)
    unfold syncInterval. destruct (wsRef_open h); [|done].
    rewrite syncInterval_try_payload. apply wf_run_payload; [|done].
    intros m h' ?. by eapply wf_wsRef_send.
  - (* StorageChanged *)
    unfold handleStorageChange. destruct (_ || _); [|done].
    destruct (wsRef_open h); [|done].
    rewrite handleStorageChange_try_payload. apply wf_run_payload; [|done].
    intros m h' ?. by eapply wf_wsRef_send.
  - by apply (wf_same h).
  - (* updateUsername *)
    unfold updateUsername. destruct (negb _); [done|].
    set (h1 := set_localStorage _ _).
    assert (well_formed h1) as W1 by (by apply (wf_same h)).
    destruct (wsRef_open h1); [|done].
    apply wf_uncaught; [|done]. intros h' ?. by eapply wf_wsRef_send.
  - unfold sendProgressUpdate. destruct (wsRef_open h).
    + apply wf_uncaught; [|done]. intros h' ?. by eapply wf_wsRef_send.
    + by apply (wf_same h).
  - unfold requestLeaderboardUpdate. destruct (_ && _); [|done].
    apply wf_uncaught; [|done]. intros h' ?. by eapply wf_wsRef_send.
  - unfold syncStudyItems. destruct (_ && _); [|done].
    apply wf_uncaught; [|done]. intros h' ?. by eapply wf_wsRef_send.
  - unfold syncFullProgress. destruct (wsRef_open h); [|done].
    apply wf_uncaught; [|done]. intros h' ?. by eapply wf_wsRef_send.
Qed.

Lemma reachable_well_formed (h : Hook) : reachable h -> well_formed h.
Proof.
  induction 1 as [store | ev h _ IH].
  - split; simpl; [by left|done..].
  - by apply wf_step.
Qed.


(** *** Identity store *)

Lemma adjective_nonempty i : nth i adjectives "undefined" <> "".
Proof. do 17 (destruct i as [|i]; [done|]). done. Qed.

Lemma generateUsername_truthy e : truthy (Some (generateUsername e)) = true.
Proof.
  unfold generateUsername, truthy.
  pose proof (adjective_nonempty (pick_adj e)) as N.
  destruct (nth (pick_adj e) adjectives "undefined"); done.
Qed.

(** C8. In a browser, [getUserId] and [getUsername] are idempotent on the
    store: when the store holds no (non-empty) value the first call
    generates one and persists it under its key, otherwise it returns the
    stored value and leaves the store alone; a second call, whatever its
    clock and random draws, returns the value now persisted, equal to the
    first result, and does not modify the store. *)
Theorem identity_getters_idempotent (e1 e2 : Entropy) (store : gmap string string) :
  window_defined = true ->
  let first_id := getUserId e1 store in
  let second_id := getUserId e2 first_id.2 in
  let first_name := getUsername e1 store in
  let second_name := getUsername e2 first_name.2 in
  (second_id.1 = first_id.1 /\ second_id.2 = first_id.2 /\
   second_id.1 = first_id.2 !! "progress-user-id" /\
   (truthy (store !! "progress-user-id") = false ->
      first_id.1
        = Some ("user_" +:+ pretty (now e1) +:+ "_" +:+ substring 2 9 (random36 e1))
      /\ first_id.2 = <["progress-user-id" := default "" first_id.1]> store) /\
   (truthy (store !! "progress-user-id") = true ->
      first_id.1 = store !! "progress-user-id" /\ first_id.2 = store)) /\
  (second_name.1 = first_name.1 /\ second_name.2 = first_name.2 /\
   Some second_name.1 = first_name.2 !! "progress-username" /\
   (truthy (store !! "progress-username") = false ->
      first_name.1 = generateUsername e1
      /\ first_name.2 = <["progress-username" := first_name.1]> store) /\
   (truthy (store !! "progress-username") = true ->
      Some first_name.1 = store !! "progress-username" /\ first_name.2 = store)).
Proof.
  intros Wd. cbv zeta. unfold getUserId, getUsername. rewrite Wd. simpl. split.
  - destruct (truthy (store !! "progress-user-id")) eqn:T; simpl.
    + rewrite T. simpl. done.
    + rewrite lookup_insert_eq. simpl. done.
  - destruct (truthy (store !! "progress-username")) eqn:T; simpl.
    + rewrite T. simpl.
      apply truthy_Some in T as (s & -> & _). done.
    + rewrite lookup_insert_eq.
      pose proof (generateUsername_truthy e1) as G. rewrite G. simpl. done.
Qed.

(** *** The user's rank *)

Lemma findIndex_spec {A} (p : A -> bool) (l : list A) :
  (findIndex p l = (-1)%Z /\ forall x, x ∈ l -> p x = false) \/
  (exists i x, findIndex p l = Z.of_nat i /\ l !! i = Some x /\ p x = true /\
     forall j y, j < i -> l !! j = Some y -> p y = false).
Proof.
  induction l as [|a l IH]; simpl.
  { left. split; [done|]. by intros x ?%elem_of_nil. }
  destruct (p a) eqn:Pa.
  { right. exists 0, a. repeat split; try done. lia. }
  destruct IH as [[-> Hall] | (i & x & -> & Hx & Px & Hlt)].
  - left. split; [done|]. intros x [->|?]%elem_of_cons; auto.
  - right. exists (S i), x.
    destruct (Z.ltb_spec (Z.of_nat i) 0); [lia|].
    repeat split; [lia|done..|].
    intros [|j] y Hj; simpl; [by intros [= <-]|]. apply Hlt. lia.
Qed.

(** C9. For every leaderboard, the list of entries the hook has cached,
    and every [userId] the hook can hold ([null] before initialisation, a
    non-empty string after), the render returns, and the returned
    [currentUserRank] is one plus the index of the first entry whose
    [userId] is the client's; it is [null] exactly when [userId] is [null]
    or no entry has that [userId]; a rank that is returned is at least 1. *)
Theorem currentUserRank_first_match (h : Hook) (entries : list LeaderboardEntry) :
  leaderboard h = Some entries ->
  userId h = None \/ truthy (userId h) = true ->
  (forall r, return_currentUserRank h = Some (Some r) <->
     exists u i e, userId h = Some u /\ entries !! i = Some e /\
       entry_userId e = u /\
       (forall j e', j < i -> entries !! j = Some e' -> entry_userId e' <> u) /\
       r = (Z.of_nat i + 1)%Z) /\
  (return_currentUserRank h = Some None <->
     userId h = None \/
     forall e, e ∈ entries -> Some (entry_userId e) <> userId h) /\
  (forall r, return_currentUserRank h = Some (Some r) -> (1 <= r)%Z) /\
  is_Some (return_currentUserRank h).
Proof.
  intros Hl V. unfold return_currentUserRank, currentUserRank. rewrite Hl.
  destruct V as [-> | T].
  { simpl. repeat split; try done.
    - by intros (u & i & e & ? & _).
    - by left. }
  rewrite T. apply truthy_Some in T as (u & -> & Hu). simpl.
  destruct (findIndex_spec (fun entry => String.eqb (entry_userId entry) u)
              entries) as [[-> Hall] | (i & x & -> & Hx & Px & Hlt)]; simpl.
  - repeat split; try done.
    + intros (u' & i & e & [= <-] & He & Hid & _).
      apply list_elem_of_lookup_2 in He. apply Hall in He.
      apply String.eqb_neq in He. done.
    + intros _. right. intros e He [= E]. apply Hall in He.
      apply String.eqb_neq in He. done.
  - destruct (Z.gtb_spec (Z.of_nat i + 1) 0); [|lia].
    apply String.eqb_eq in Px.
    repeat split; try done.
    + intros [= <-]. exists u, i, x. repeat split; try done.
      intros j e' Hj He'. apply String.eqb_neq. by eapply Hlt.
    + intros (u' & i' & e & [= <-] & He & Hid & Hfirst & ->).
      f_equal. f_equal.
      destruct (Nat.lt_trichotomy i i') as [L | [-> | L]]; [|done|].
      * exfalso. by eapply (Hfirst i x).
      * exfalso. specialize (Hlt i' e L He).
        apply String.eqb_neq in Hlt. done.
    + intros [? | Hno]; [done|]. exfalso.
      apply (Hno x); [by eapply list_elem_of_lookup_2 | by rewrite Px].
    + intros r [= <-]. lia.
Qed.


(** *** Sync cycles *)

Lemma same_but_console_refl h : same_but_console h h.
Proof. by repeat split. Qed.

Lemma same_but_console_log line h : same_but_console h (log line h).
Proof. by repeat split. Qed.

Lemma run_payload_skipped send line err username h :
  truthy (localStorage h !! "course-progress") = false
  \/ JSON_parse_progress (default "" (localStorage h !! "course-progress")) = None ->
  same_but_console h match run_payload send line username h with
                     | Some h' => h'
                     | None => log err h
                     end.
Proof.
  intros N. unfold run_payload.
  destruct (sync_payload_none (localStorage h) username N) as [-> | ->].
  - apply same_but_console_refl.
  - apply same_but_console_log.
Qed.

(** C5. A sync cycle, that is the [try]/[catch] statement run on connect,
    the 30 second callback and the storage listener, never writes
    [localStorage]. When "course-progress" is absent or empty, or its text
    does not parse, the cycle returns normally, transmits nothing and
    leaves every part of the state but the console as it was. *)
Theorem sync_cycle_only_reads (ws : nat) (env : Closure) (username : string)
    (e_key : option string) (h : Hook) :
  (localStorage (onopen_sync ws env h) = localStorage h /\
   localStorage (syncInterval username h) = localStorage h /\
   localStorage (handleStorageChange username e_key h) = localStorage h) /\
  (truthy (localStorage h !! "course-progress") = false
   \/ JSON_parse_progress (default "" (localStorage h !! "course-progress")) = None ->
   same_but_console h (onopen_sync ws env h) /\
   same_but_console h (syncInterval username h) /\
   same_but_console h (handleStorageChange username e_key h)).
Proof.
  unfold onopen_sync, syncInterval, handleStorageChange.
  rewrite onopen_try_payload, syncInterval_try_payload,
    handleStorageChange_try_payload.
  split; [split; [|split] | intros N; split; [|split]].
  - apply cycle_localStorage. intros m h'. apply ws_send_localStorage.
  - destruct (wsRef_open h); [|done].
    apply cycle_localStorage. intros m h'. apply wsRef_send_localStorage.
  - destruct (_ || _); [|done]. destruct (wsRef_open h); [|done].
    apply cycle_localStorage. intros m h'. apply wsRef_send_localStorage.
  - by apply run_payload_skipped.
  - destruct (wsRef_open h); [|apply same_but_console_refl].
    by apply run_payload_skipped.
  - destruct (_ || _); [|apply same_but_console_refl].
    destruct (wsRef_open h); [|apply same_but_console_refl].
    by apply run_payload_skipped.
Qed.

Lemma sync_messages_shape store username :
  sync_messages store username = []
  \/ exists progress studyItems,
       sync_messages store username
       = [sync_full_progress progress studyItems username].
Proof.
  unfold sync_messages, sync_payload.
  destruct (truthy (store !! "course-progress")); [|by left].
  destruct (JSON_parse_progress _) as [p|]; [|by left]. simpl.
  destruct (if truthy (store !! "study-cart") then _ else _) as [m|];
    [|by left]. simpl.
  right. by exists p, m.
Qed.

Lemma sync_messages_none store username :
  truthy (store !! "course-progress") = false ->
  sync_messages store username = [].
Proof. unfold sync_messages, sync_payload. by intros ->. Qed.

(** The sockets after one sync cycle on the open socket [ws]. *)
Lemma cycle_transmits send line err username ws s h :
  sockets h !! ws = Some s -> readyState s = OPEN ->
  (forall m, send m h = Some (set_sockets (<[ws := transmit m s]> (sockets h)) h)) ->
  sockets match run_payload send line username h with
          | Some h' => h'
          | None => log err h
          end
  = <[ws := opened_with (sync_messages (localStorage h) username) s]> (sockets h).
Proof.
  intros E O Hsend. rewrite (cycle_sockets _ _ _ _ ws s) by done.
  unfold sync_messages.
  destruct (sync_payload _ _) as [[m|]|].
  - f_equal. destruct s; simpl in *; by subst.
  - symmetry. apply list_insert_id. rewrite E. f_equal.
    destruct s; simpl in *; subst. unfold opened_with. simpl.
    by rewrite app_nil_r.
  - symmetry. apply list_insert_id. rewrite E. f_equal.
    destruct s; simpl in *; subst. unfold opened_with. simpl.
    by rewrite app_nil_r.
Qed.


(** *** Entering the connected state *)

Lemma ws_onopen_open ws s env h :
  sockets h !! ws = Some s -> readyState s = OPEN ->
  let h' := ws_onopen ws env h in
  isConnected h' = true /\ pendingUpdatesRef h' = [] /\
  localStorage h' = localStorage h /\
  sockets h' =
    <[ws := opened_with (sync_messages (localStorage h) (c_username env)
                         ++ [request_leaderboard (c_courseId env)]) s]> (sockets h).
Proof.
  intros E O. cbv zeta. unfold ws_onopen, onopen_sync.
  rewrite onopen_try_payload.
  set (h1 := setIsConnected true (log _ h)).
  assert (sockets h1 !! ws = Some s) as E1 by done.
  rewrite (run_payload_open _ _ _ ws s) by (done || (intros; by apply ws_send_open)).
  change (localStorage h1) with (localStorage h).
  assert (ws < List.length (sockets h)) as L by (by eapply lookup_lt_Some).
  unfold sync_messages.
  destruct (sync_payload (localStorage h) (c_username env)) as [[m|]|].
  - set (h2 := log _ _).
    rewrite (ws_send_open ws (transmit m s)); simpl.
    + repeat split; try done. rewrite list_insert_insert_eq. f_equal.
      unfold opened_with, transmit. destruct s; simpl in *; subst.
      by rewrite <- app_assoc.
    + by rewrite list_lookup_insert_eq.
    + done.
  - rewrite (ws_send_open ws s) by done. simpl.
    repeat split; try done. f_equal.
    unfold opened_with, transmit. destruct s; simpl in *; by subst.
  - rewrite (ws_send_open ws s) by done. simpl.
    repeat split; try done. f_equal.
    unfold opened_with, transmit. destruct s; simpl in *; by subst.
Qed.

(** C1 (amended). Whenever a connecting socket that was opened for the
    course the page displays becomes open, the page stays on its course and
    [onopen] sets the connected flag, empties the pending queue, leaves
    [localStorage] alone and transmits on that socket, in this order: the
    messages of one sync cycle, then exactly one [request_leaderboard] for
    the displayed course. The sync cycle contributes either nothing or
    exactly one [sync_full_progress]: nothing when "course-progress" is
    absent or empty, and the stored progress with an empty study items
    object when the progress parses and "study-cart" is absent or empty. No
    [progress_update], queued or other, is among what is transmitted. *)
Theorem onopen_effects (ws : nat) (s : Socket) (m : Mounted) :
  sockets (hook m) !! ws = Some s -> readyState s = CONNECTING ->
  c_courseId (ws_closure s) = active_courseId m ->
  let h := hook m in
  let username := c_username (ws_closure s) in
  let sync := sync_messages (localStorage h) username in
  let m' := deliver (SocketOpen ws) m in
  let h' := hook m' in
  active_courseId m' = active_courseId m /\
  isConnected h' = true /\
  pendingUpdatesRef h' = [] /\
  localStorage h' = localStorage h /\
  sockets h' =
    <[ws := opened_with (sync ++ [request_leaderboard (active_courseId m)]) s]>
      (sockets h) /\
  (sync = [] \/
   exists progress studyItems,
     sync = [sync_full_progress progress studyItems username]) /\
  (truthy (localStorage h !! "course-progress") = false -> sync = []) /\
  (forall progress,
     truthy (localStorage h !! "course-progress") = true ->
     JSON_parse_progress (default "" (localStorage h !! "course-progress"))
       = Some progress ->
     truthy (localStorage h !! "study-cart") = false ->
     sync = [sync_full_progress progress ∅ username]) /\
  existsb is_progress_update (sync ++ [request_leaderboard (active_courseId m)]) = false.
Proof.
  intros E C A. cbv zeta. destruct m as [a h]. simpl in *. subst a.
  split; [done|]. unfold fire_open. rewrite E, C.
  assert (ws < List.length (sockets h)) as L by (by eapply lookup_lt_Some).
  set (h0 := set_sockets _ h).
  destruct (ws_onopen_open ws (set_readyState OPEN s) (ws_closure s) h0)
    as (Hc & Hp & Hl & Hs).
  { subst h0. simpl. by rewrite list_lookup_insert_eq. }
  { done. }
  split; [done|]. split; [done|]. split; [done|]. split.
  { rewrite Hs. subst h0. simpl. by rewrite list_insert_insert_eq. }
  split; [apply sync_messages_shape|].
  split; [apply sync_messages_none|]. split.
  - intros p T P Tc. unfold sync_messages, sync_payload. rewrite T, P, Tc. done.
  - destruct (sync_messages_shape (localStorage h) (c_username (ws_closure s)))
      as [-> | (p & m & ->)]; done.
Qed.

Lemma sync_triggers_sockets ws s env username e_key h :
  wsRef h = Some ws -> sockets h !! ws = Some s -> readyState s = OPEN ->
  c_username env = username ->
  strict_eq e_key "course-progress" || strict_eq e_key "study-cart" = true ->
  let sent := <[ws := opened_with (sync_messages (localStorage h) username) s]> (sockets h) in
  sockets (onopen_sync ws env h) = sent /\
  sockets (syncInterval username h) = sent /\
  sockets (handleStorageChange username e_key h) = sent.
Proof.
  intros R E O <- K. cbv zeta.
  assert (wsRef_open h = true) as Wo.
  { apply wsRef_open_true. by exists ws, s. }
  unfold onopen_sync, syncInterval, handleStorageChange.
  rewrite K, Wo.
  rewrite onopen_try_payload, syncInterval_try_payload,
    handleStorageChange_try_payload.
  split; [|split].
  - apply cycle_transmits; try done. intros m. by apply ws_send_open.
  - apply cycle_transmits; try done. intros m. by apply wsRef_send_open.
  - apply cycle_transmits; try done. intros m. by apply wsRef_send_open.
Qed.

(** C2 (amended). On an open current socket the three sync triggers, the
    sync on connect, the 30 second sync and the storage listener (for a
    change of "course-progress" or "study-cart"), transmit the same
    messages, a function of [localStorage] and of the username alone: the
    [sync_full_progress] built by [sync_payload], or nothing. The
    leaderboard poll builds a different message, [request_leaderboard] for
    its course, and does not read [localStorage]. *)
Theorem sync_triggers_same_payload (ws : nat) (s : Socket) (env : Closure)
    (username : string) (e_key : option string) (courseId : string) (h : Hook) :
  wsRef h = Some ws -> sockets h !! ws = Some s -> readyState s = OPEN ->
  c_username env = username ->
  strict_eq e_key "course-progress" || strict_eq e_key "study-cart" = true ->
  let sent := <[ws := opened_with (sync_messages (localStorage h) username) s]> (sockets h) in
  sockets (onopen_sync ws env h) = sent /\
  sockets (syncInterval username h) = sent /\
  sockets (handleStorageChange username e_key h) = sent /\
  sockets (pollInterval courseId h)
    = <[ws := opened_with [request_leaderboard courseId] s]> (sockets h) /\
  (forall store, sockets (pollInterval courseId (set_localStorage store h))
                 = sockets (pollInterval courseId h)) /\
  (sync_messages (localStorage h) username = [] \/
   exists progress studyItems,
     sync_messages (localStorage h) username
     = [sync_full_progress progress studyItems username]).
Proof.
  intros R E O U K. cbv zeta.
  destruct (sync_triggers_sockets ws s env username e_key h R E O U K)
    as (S1 & S2 & S3).
  split; [done|]. split; [done|]. split; [done|].
  assert (wsRef_open h = true) as Wo.
  { apply wsRef_open_true. by exists ws, s. }
  unfold pollInterval. split; [|split; [|apply sync_messages_shape]].
  - rewrite Wo, (wsRef_send_open ws s) by done. simpl. f_equal.
    unfold opened_with, transmit. destruct s; simpl in *; by subst.
  - intros store.
    assert (wsRef_open (set_localStorage store h) = wsRef_open h) as -> by done.
    rewrite Wo. rewrite (wsRef_send_open ws s) by done.
    by rewrite (wsRef_send_open ws s) by done.
Qed.


(** *** The study items of a payload *)

Lemma fileKeys_of_elem c cart f :
  f ∈ fileKeys_of c cart <->
  exists item, item ∈ cart /\ item_courseId item = Some c /\ c <> "" /\
    item_fileKey item = Some f /\ f <> "".
Proof.
  unfold fileKeys_of. rewrite list_elem_of_omap. split.
  - intros (item & Hin & Hf). exists item.
    destruct (filed_under c item) eqn:F; [|done].
    unfold filed_under, linked in F.
    apply andb_prop in F as [[Tc Tf]%andb_prop Ec].
    apply truthy_Some in Tc as (c' & Hc & Nc).
    apply truthy_Some in Tf as (f' & Hf' & Nf).
    rewrite Hc in Ec. simpl in Ec. apply String.eqb_eq in Ec as ->.
    rewrite Hf' in Hf. injection Hf as ->. done.
  - intros (item & Hin & Hc & Nc & Hf & Nf). exists item. split; [done|].
    unfold filed_under, linked. rewrite Hc, Hf. simpl.
    rewrite String.eqb_refl.
    destruct (String.eqb_spec c ""); [done|].
    destruct (String.eqb_spec f ""); done.
Qed.

(** C10 (amended). Let the persisted progress and the persisted cart parse,
    the cart to [cart]. Each of the three sync triggers transmits the
    messages of [sync_messages]. Whenever a [sync_full_progress] is among
    them, its study items object has, for every course [c], an own array
    exactly when some cart item has [courseId] equal to [c] with both
    [courseId] and [fileKey] non-empty, and that array lists the [fileKey]
    of those items in cart order; items whose [courseId] or [fileKey] is
    missing or empty contribute nothing. Such a message is built for every
    cart in which no linked item carries as [courseId] a property name
    inherited from [Object.prototype]. *)
Theorem studyItems_grouping (ws : nat) (s : Socket) (env : Closure)
    (username : string) (h : Hook) (progress : Progress) (cart : list StudyItem) :
  wsRef h = Some ws -> sockets h !! ws = Some s -> readyState s = OPEN ->
  c_username env = username ->
  truthy (localStorage h !! "course-progress") = true ->
  JSON_parse_progress (default "" (localStorage h !! "course-progress"))
    = Some progress ->
  truthy (localStorage h !! "study-cart") = true ->
  JSON_parse_cart (default "" (localStorage h !! "study-cart")) = Some cart ->
  (let sent :=
     <[ws := opened_with (sync_messages (localStorage h) username) s]> (sockets h) in
   sockets (onopen_sync ws env h) = sent /\
   sockets (syncInterval username h) = sent /\
   sockets (handleStorageChange username (Some "study-cart") h) = sent) /\
  (forall p (studyItems : gmap string (list string)) u,
     sync_full_progress p studyItems u ∈ sync_messages (localStorage h) username ->
     (forall c, studyItems !! c =
        if existsb (filed_under c) cart then Some (fileKeys_of c cart) else None) /\
     (forall c fileKeys f, studyItems !! c = Some fileKeys ->
        f ∈ fileKeys <->
        exists item, item ∈ cart /\ item_courseId item = Some c /\ c <> "" /\
          item_fileKey item = Some f /\ f <> "")) /\
  ((forall item, item ∈ cart -> linked item = true ->
      inherited (default "" (item_courseId item)) = false) ->
   exists studyItems : gmap string (list string),
     sync_messages (localStorage h) username
     = [sync_full_progress progress studyItems username]).
Proof.
  intros R E O U Tp Pp Tc Pc.
  split; [by apply sync_triggers_sockets|].
  assert (sync_messages (localStorage h) username
          = match forEach collect cart ∅ with
            | Some m => [sync_full_progress progress m username]
            | None => []
            end) as ->.
  { unfold sync_messages, sync_payload. rewrite Tp, Pp, Tc, Pc. simpl.
    by destruct (forEach collect cart ∅). }
  split.
  - intros p m u Hin.
    destruct (forEach collect cart ∅) as [m'|] eqn:F;
      [|by apply elem_of_nil in Hin].
    apply list_elem_of_singleton in Hin. injection Hin as -> -> ->.
    pose proof (forEach_collect_Some cart ∅ m' F) as Hl.
    assert (forall c, m' !! c =
              if existsb (filed_under c) cart then Some (fileKeys_of c cart) else None)
      as Hl'.
    { intros c. rewrite Hl, lookup_empty. done. }
    split; [done|].
    intros c fks f Hc. rewrite Hl' in Hc.
    destruct (existsb _ cart); [|done]. injection Hc as <-.
    apply fileKeys_of_elem.
  - intros Hok. destruct (forEach_collect cart ∅ Hok) as (m & -> & _).
    by exists m.
Qed.

(** *** Reconnecting *)

(** C3 (amended). In any well-formed state (every reachable state is one),
    when a socket that is not yet closed reports its close, [onclose]
    clears the connected flag and schedules exactly one new timer, of
    3000 ms whatever happened before, for the [connect] of the same
    closure. When that timer expires it is consumed and [connect] makes one
    attempt: if the socket constructor returns, one new connecting socket
    for the same identity becomes the current socket. No timer is scheduled
    by the error handler, nor by a [connect] whose socket constructor
    throws (it only clears the connected flag), also when that [connect]
    is the one the timer ran. *)
Theorem onclose_schedules_one_reconnect (ws : nat) (s : Socket) (h : Hook) :
  well_formed h -> sockets h !! ws = Some s -> readyState s <> CLOSED ->
  let env := ws_closure s in
  let h' := fire_close ws h in
  let id := List.length (timeouts h) in
  isConnected h' = false /\
  timeouts h' = (timeouts h ++ [Some {| timer_delay := 3000; timer_closure := env |}])%list /\
  reconnectTimeoutRef h' = Some id /\
  (let h'' := fire_timeout id true h' in
   timeouts h'' = (timeouts h ++ [None])%list /\
   sockets h'' =
     (sockets h' ++ [{| ws_url := getWebSocketUrl +:+ "/ws/" +:+ default "" (c_userId env);
                        readyState := CONNECTING; ws_sent := [];
                        ws_closure := env |}])%list /\
   wsRef h'' = Some (List.length (sockets h'))) /\
  (let h'' := fire_timeout id false h' in
   timeouts h'' = (timeouts h ++ [None])%list /\
   sockets h'' = sockets h' /\ isConnected h'' = false) /\
  timeouts (fire_error ws h) = timeouts h /\
  (forall env',
     timeouts (connect env' false h) = timeouts h /\
     sockets (connect env' false h) = sockets h).
Proof.
  intros W E N. cbv zeta.
  destruct (wf_sockets h W ws s E) as [Tu Wd].
  assert (fire_close ws h
          = ws_onclose (ws_closure s)
              (set_sockets (<[ws := set_readyState CLOSED s]> (sockets h)) h)) as ->.
  { unfold fire_close. rewrite E. by destruct (readyState s). }
  unfold ws_onclose. simpl.
  split; [done|]. split; [done|]. split; [done|].
  assert (forall constructed,
    fire_timeout (List.length (timeouts h)) constructed
      (ws_onclose (ws_closure s)
         (set_sockets (<[ws := set_readyState CLOSED s]> (sockets h)) h))
    = reconnect (ws_closure s) constructed
        (set_timeouts (timeouts h ++ [None])
           (ws_onclose (ws_closure s)
              (set_sockets (<[ws := set_readyState CLOSED s]> (sockets h)) h))))
    as F.
  { intros c. unfold fire_timeout, ws_onclose. simpl.
    rewrite list_lookup_middle by done. simpl. do 2 f_equal.
    rewrite insert_app_r_alt by done. by rewrite Nat.sub_diag. }
  unfold ws_onclose in F. simpl in F. rewrite !F.
  unfold reconnect, connect. rewrite Tu, Wd. simpl.
  split; [done|]. split; [done|]. split.
  - unfold fire_error. by rewrite E.
  - intros env'. destruct (truthy (c_userId env')); done.
Qed.


(** *** The study cart *)

Section Cart.
Import StudyCartProvider.
Context `{CartStorage}.

Lemma isInCart_true id (l : list StudyItem) :
  isInCart id l = true <-> exists item, item ∈ l /\ item_id item = id.
Proof.
  unfold isInCart. rewrite existsb_exists. split.
  - intros (item & Hin & E). exists item. split; [by apply list_elem_of_In|].
    by apply String.eqb_eq.
  - intros (item & Hin & E). exists item. split; [by apply list_elem_of_In|].
    by apply String.eqb_eq.
Qed.

Lemma isInCart_false id (l : list StudyItem) :
  isInCart id l = false <-> forall item, item ∈ l -> item_id item <> id.
Proof.
  split.
  - intros F item Hin E.
    assert (isInCart id l = true) by (apply isInCart_true; eauto). congruence.
  - intros Hall. destruct (isInCart id l) eqn:E; [|done].
    apply isInCart_true in E as (item & Hin & E). by destruct (Hall item Hin).
Qed.

Lemma isInCart_app id (l1 l2 : list StudyItem) :
  isInCart id (l1 ++ l2) = isInCart id l1 || isInCart id l2.
Proof. unfold isInCart. apply existsb_app. Qed.

Lemma existsb_find {A} (f : A -> bool) (l : list A) :
  existsb f l = match List.find f l with Some _ => true | None => false end.
Proof. induction l as [|a l IH]; simpl; [done|]. by destruct (f a). Qed.

Lemma addItem_cases item prev :
  addItem item prev
  = if isInCart (item_id item) prev then prev else (prev ++ [item])%list.
Proof.
  unfold addItem, isInCart. rewrite existsb_find.
  by destruct (List.find _ prev).
Qed.

(** X1. [addItem] never duplicates and never replaces: when an item with
    the same id is in the cart the cart is unchanged (the stored item
    wins, whatever the other fields of the new one), otherwise the item
    goes to the end. Afterwards its id is in the cart, the membership of
    every other id is as before, and adding it again changes nothing. *)
Theorem addItem_keeps_first (item : StudyItem) (prev : list StudyItem) :
  (isInCart (item_id item) prev = true -> addItem item prev = prev) /\
  (isInCart (item_id item) prev = false -> addItem item prev = (prev ++ [item])%list) /\
  isInCart (item_id item) (addItem item prev) = true /\
  (forall id, id <> item_id item ->
     isInCart id (addItem item prev) = isInCart id prev) /\
  addItem item (addItem item prev) = addItem item prev.
Proof.
  rewrite !addItem_cases.
  destruct (isInCart (item_id item) prev) eqn:E.
  - rewrite E. repeat split; try done.
  - assert (isInCart (item_id item) (prev ++ [item]) = true) as E'.
    { rewrite isInCart_app. simpl. rewrite String.eqb_refl.
      by rewrite orb_true_r. }
    rewrite E'. repeat split; try done.
    intros id N. rewrite isInCart_app. simpl.
    assert (String.eqb (item_id item) id = false) as ->
      by (apply String.eqb_neq; congruence).
    by rewrite !orb_false_r.
Qed.

Lemma removeItem_elem id (prev : list StudyItem) item :
  item ∈ removeItem id prev <-> item ∈ prev /\ item_id item <> id.
Proof.
  unfold removeItem. rewrite !list_elem_of_In, filter_In.
  rewrite negb_true_iff, String.eqb_neq. done.
Qed.

Lemma removeItem_absent id (prev : list StudyItem) :
  isInCart id prev = false -> removeItem id prev = prev.
Proof.
  unfold removeItem, isInCart.
  induction prev as [|i prev IH]; simpl; [done|].
  intros [-> E]%orb_false_elim. simpl. by rewrite IH.
Qed.

Lemma removeItem_sublist id (prev : list StudyItem) :
  sublist (removeItem id prev) prev.
Proof.
  unfold removeItem. induction prev as [|i prev IH]; simpl; [done|].
  destruct (negb _); by constructor.
Qed.

(** X2. [removeItem] removes every item with the given id and nothing
    else: afterwards the id is not in the cart, the items that remain are
    exactly the others, in their earlier order, and removing an id that is
    not in the cart changes nothing. The count never grows and drops when
    the id was in the cart. *)
Theorem removeItem_removes_all (id : string) (prev : list StudyItem) :
  isInCart id (removeItem id prev) = false /\
  (forall item, item ∈ removeItem id prev <-> item ∈ prev /\ item_id item <> id) /\
  sublist (removeItem id prev) prev /\
  (forall id', id' <> id -> isInCart id' (removeItem id prev) = isInCart id' prev) /\
  (isInCart id prev = false -> removeItem id prev = prev) /\
  itemCount (removeItem id prev) <= itemCount prev /\
  (isInCart id prev = true -> itemCount (removeItem id prev) < itemCount prev).
Proof.
  split; [|split; [|split; [|split; [|split; [|split]]]]].
  - apply isInCart_false. by intros item [_ N]%removeItem_elem.
  - intros item. apply removeItem_elem.
  - apply removeItem_sublist.
  - intros id' N. destruct (isInCart id' prev) eqn:E.
    + apply isInCart_true in E as (item & Hin & E). apply isInCart_true.
      exists item. split; [|done]. apply removeItem_elem. split; [done|].
      congruence.
    + apply isInCart_false. intros item [Hin _]%removeItem_elem.
      rewrite isInCart_false in E. by apply E.
  - apply removeItem_absent.
  - unfold itemCount. apply sublist_length, removeItem_sublist.
  - unfold itemCount, removeItem, isInCart.
    induction prev as [|i prev IH]; simpl; [done|].
    destruct (String.eqb (item_id i) id) eqn:E; simpl.
    + intros _. pose proof (filter_length_le
        (fun i => negb (String.eqb (item_id i) id)) prev). lia.
    + intros E'. specialize (IH E'). lia.
Qed.

Lemma removeItem_ids id (prev : list StudyItem) :
  sublist (item_id <$> removeItem id prev) (item_id <$> prev).
Proof. apply fmap_sublist, removeItem_sublist. Qed.

(** X3. Distinct ids are an invariant of the cart: if no two items share an
    id, the same holds after [addItem], [removeItem] and [clearCart].
    [addItem] then grows the count by one exactly when the id is new, and
    [removeItem] shrinks it by one exactly when the id was present. *)
Theorem cart_ids_stay_distinct (item : StudyItem) (id : string)
    (prev : list StudyItem) :
  NoDup (item_id <$> prev) ->
  NoDup (item_id <$> addItem item prev) /\
  NoDup (item_id <$> removeItem id prev) /\
  NoDup (item_id <$> clearCart) /\
  itemCount (addItem item prev)
    = itemCount prev + (if isInCart (item_id item) prev then 0 else 1) /\
  itemCount (removeItem id prev)
    = itemCount prev - (if isInCart id prev then 1 else 0).
Proof.
  intros ND. split; [|split; [|split; [|split]]].
  - rewrite addItem_cases. destruct (isInCart (item_id item) prev) eqn:E; [done|].
    rewrite fmap_app. apply NoDup_app. split; [done|]. split.
    + intros x Hx [->|[]%elem_of_nil]%elem_of_cons.
      apply list_elem_of_fmap in Hx as (i & Hi & Hin).
      rewrite isInCart_false in E. by apply (E i).
    + simpl. apply NoDup_singleton.
  - exact (sublist_NoDup _ _ ND (removeItem_ids id prev)).
  - constructor.
  - rewrite addItem_cases. unfold itemCount.
    destruct (isInCart (item_id item) prev); [lia|].
    rewrite length_app. simpl. lia.
  - unfold itemCount, removeItem, isInCart.
    induction prev as [|i prev IH]; simpl; [done|].
    apply NoDup_cons in ND as [Hni ND]. specialize (IH ND).
    destruct (String.eqb (item_id i) id) eqn:E; simpl.
    + apply String.eqb_eq in E. subst id.
      assert (isInCart (item_id i) prev = false) as F.
      { apply isInCart_false. intros j Hj Ej. apply Hni.
        apply list_elem_of_fmap. by exists j. }
      fold (removeItem (item_id i) prev). rewrite removeItem_absent by done. lia.
    + rewrite IH.
      destruct (existsb (fun i0 => String.eqb (item_id i0) id) prev) eqn:X; [|lia].
      destruct prev; simpl in *; [done|lia].
Qed.

(** X4. Adding a new item and removing it again gives the cart back; and
    adding an item after removing its id puts it at the end of the cart,
    whether or not it was there before. *)
Theorem add_then_remove (item : StudyItem) (prev : list StudyItem) :
  isInCart (item_id item) prev = false ->
  removeItem (item_id item) (addItem item prev) = prev /\
  addItem item (removeItem (item_id item) (addItem item prev))
    = (prev ++ [item])%list.
Proof.
  intros E. rewrite addItem_cases, E.
  assert (removeItem (item_id item) (prev ++ [item]) = prev) as ->.
  { unfold removeItem. rewrite List.filter_app. simpl.
    rewrite String.eqb_refl. simpl. rewrite app_nil_r.
    by apply removeItem_absent. }
  split; [done|]. by rewrite addItem_cases, E.
Qed.

Lemma mount_eq store :
  mount store
  = (loadEffect store first_render,
     <[STORAGE_KEY := JSON_stringify_items (items (loadEffect store first_render))]>
       store).
Proof. done. Qed.

(** X5. Mounting the provider keeps a stored cart: when "study-cart"
    holds a non-empty text that parses to [l], the provider ends loaded
    with the items [l], nothing is logged, and the only write is the
    serialisation of [l] under "study-cart"; the save effect of the first
    render, which still sees the empty cart, writes nothing. If that
    serialisation parses back to [l], mounting again leaves the provider
    and the store as they are. *)
Theorem mount_keeps_stored_cart (store : gmap string string) (text : string)
    (l : list StudyItem) :
  store !! STORAGE_KEY = Some text -> text <> "" ->
  JSON_parse_items text = Some l ->
  items (mount store).1 = l /\ isLoaded (mount store).1 = true /\
  provider_console (mount store).1 = [] /\
  (mount store).2 = <[STORAGE_KEY := JSON_stringify_items l]> store /\
  (JSON_stringify_items l <> "" ->
   JSON_parse_items (JSON_stringify_items l) = Some l ->
   mount (mount store).2 = mount store).
Proof.
  intros Hs Ht Hp.
  assert (truthy (Some text) = true) as T.
  { simpl. by destruct (String.eqb_spec text ""). }
  assert (loadEffect store first_render
          = setIsLoaded true (setItems l first_render)) as L.
  { unfold loadEffect, load_try. rewrite Hs, T. simpl. by rewrite Hp. }
  rewrite mount_eq, L. simpl. repeat split; try done.
  intros Hn Hr. rewrite mount_eq.
  assert (truthy (Some (JSON_stringify_items l)) = true) as T'.
  { simpl. by destruct (String.eqb_spec (JSON_stringify_items l) ""). }
  assert (loadEffect (<[STORAGE_KEY := JSON_stringify_items l]> store) first_render
          = setIsLoaded true (setItems l first_render)) as ->.
  { unfold loadEffect, load_try. rewrite lookup_insert_eq, T'. simpl.
    by rewrite Hr. }
  simpl. by rewrite insert_insert_eq.
Qed.

(** X6. Mounting the provider over a missing, empty or unparseable
    "study-cart" ends loaded with an empty cart and overwrites the entry
    with the serialisation of the empty cart; an unparseable text is
    logged once and lost. *)
Theorem mount_replaces_unreadable_cart (store : gmap string string) :
  truthy (store !! STORAGE_KEY) = false
  \/ JSON_parse_items (default "" (store !! STORAGE_KEY)) = None ->
  items (mount store).1 = [] /\ isLoaded (mount store).1 = true /\
  (mount store).2 = <[STORAGE_KEY := JSON_stringify_items []]> store /\
  provider_console (mount store).1
    = (if truthy (store !! STORAGE_KEY) then ["Failed to load study cart:"] else []).
Proof.
  intros N. rewrite mount_eq. unfold loadEffect, load_try.
  destruct (truthy (store !! STORAGE_KEY)) eqn:T.
  - destruct N as [|N]; [done|]. rewrite N. simpl. done.
  - simpl. done.
Qed.

(** X7. What the provider saves reaches the server only with stored
    progress. The save effect of a loaded provider has stored the items
    [l], whose serialisation parses back to [l], and the next periodic sync
    runs on an open socket. When "course-progress" is stored and parses,
    the sync transmits one [sync_full_progress] whose study items object
    groups the file keys of the linked items of [l] by course, in cart
    order, and is empty for a cleared cart. When nothing is stored under
    "course-progress", the sync transmits nothing, so the saved cart is not
    sent. *)
Theorem saved_cart_is_synced (ws : nat) (s : Socket) (username : string)
    (h : Hook) (l : list StudyItem) :
  wsRef h = Some ws -> sockets h !! ws = Some s -> readyState s = OPEN ->
  JSON_stringify_items l <> "" ->
  JSON_parse_cart (JSON_stringify_items l) = Some l ->
  (forall item, item ∈ l -> linked item = true ->
     inherited (default "" (item_courseId item)) = false) ->
  let h' := set_localStorage (saveEffect l true (localStorage h)) h in
  (forall progress,
     truthy (localStorage h !! "course-progress") = true ->
     JSON_parse_progress (default "" (localStorage h !! "course-progress"))
       = Some progress ->
     exists studyItems : gmap string (list string),
       sockets (syncInterval username h')
         = <[ws := opened_with [sync_full_progress progress studyItems username] s]>
             (sockets h) /\
       (forall c, studyItems !! c =
          if existsb (filed_under c) l then Some (fileKeys_of c l) else None) /\
       (l = clearCart -> studyItems = ∅)) /\
  (truthy (localStorage h !! "course-progress") = false ->
     sockets (syncInterval username h') = sockets h).
Proof.
  intros R E O Hn Hr Hok. cbv zeta.
  set (h' := set_localStorage _ h).
  assert (sockets (syncInterval username h')
          = <[ws := opened_with (sync_messages (localStorage h') username) s]>
              (sockets h)) as S2.
  { by destruct (sync_triggers_sockets ws s
                   {| c_userId := None; c_courseId := ""; c_username := username |}
                   username (Some "study-cart") h') as (_ & S2 & _). }
  split; [intros progress Tp Pp|]; cycle 1.
  { intros Tp. rewrite S2, sync_messages_none.
    - apply list_insert_id. rewrite E. f_equal.
      unfold opened_with. destruct s; simpl in *; subst. by rewrite app_nil_r.
    - subst h'. simpl. unfold saveEffect. by rewrite lookup_insert_ne. }
  destruct (forEach_collect l ∅ Hok) as (m & Hm & Hl).
  assert (sync_messages (localStorage h') username
          = [sync_full_progress progress m username]) as Hsync.
  { unfold sync_messages, sync_payload. subst h'. simpl. unfold saveEffect.
    rewrite lookup_insert_ne by done. rewrite Tp, Pp. simpl.
    unfold STORAGE_KEY. rewrite lookup_insert_eq. simpl.
    destruct (String.eqb_spec (JSON_stringify_items l) ""); [done|]. simpl.
    rewrite Hr. simpl. by rewrite Hm. }
  exists m. split; [|split].
  - rewrite S2, Hsync. done.
  - intros c. rewrite Hl, lookup_empty. done.
  - intros ->. apply map_eq. intros c. rewrite Hl, lookup_empty. done.
Qed.

End Cart.


(** *** What an event can change *)

Lemma socket_ops_trans P (l1 l2 l3 : list Socket) :
  socket_ops P l1 l2 -> socket_ops P l2 l3 -> socket_ops P l1 l3.
Proof.
  induction 1 as [|l l' ws s m E O Pm _ IH|l l' ws s r E N _ IH|l l' env T W _ IH];
    intros Hrest; [done| | |].
  - eapply ops_transmit; eauto.
  - eapply ops_readyState; eauto.
  - eapply ops_new; eauto.
Qed.

Lemma newest_same (h h' : Hook) :
  wsRef h' = wsRef h -> List.length (sockets h') = List.length (sockets h) ->
  newest h -> newest h'.
Proof.
  unfold newest. intros -> L. destruct (wsRef h); [by rewrite L|].
  intros E. rewrite E in L. by apply nil_length_inv.
Qed.

Lemma evolves_same P K (h h' : Hook) :
  sockets h' = sockets h -> localStorage h' = localStorage h ->
  timeouts h' = timeouts h -> wsRef h' = wsRef h -> evolves P K h h'.
Proof.
  intros E1 E2 E3 E4. split.
  - rewrite E1. constructor.
  - intros k _. by rewrite E2.
  - intros id t. rewrite E3. by left.
  - apply newest_same; [done|by rewrite E1].
Qed.

Lemma evolves_refl P K (h : Hook) : evolves P K h h.
Proof. by apply evolves_same. Qed.

Lemma evolves_trans P K (h1 h2 h3 : Hook) :
  evolves P K h1 h2 -> evolves P K h2 h3 -> evolves P K h1 h3.
Proof.
  intros [S1 L1 T1 N1] [S2 L2 T2 N2]. split.
  - by eapply socket_ops_trans.
  - intros k Hk. by rewrite L2, L1.
  - intros id t Ht. destruct (T2 id t Ht) as [Ht'|]; [|by right]. by apply T1.
  - auto.
Qed.

Lemma evolves_socket_change P K (h : Hook) (l' : list Socket) :
  socket_ops P (sockets h) l' -> List.length l' = List.length (sockets h) ->
  evolves P K h (set_sockets l' h).
Proof.
  intros Hops L. split; simpl; [done|done|by left|].
  by apply newest_same.
Qed.

Lemma evolves_ws_send P K ws m (h h' : Hook) :
  P m -> ws_send ws m h = Some h' -> evolves P K h h'.
Proof.
  intros Pm. unfold ws_send.
  destruct (sockets h !! ws) as [s|] eqn:E; [|done].
  destruct (readyState s) eqn:O; intros [= <-]; try apply evolves_refl.
  apply evolves_socket_change; [|by rewrite length_insert].
  eapply ops_transmit; eauto. constructor.
Qed.

Lemma evolves_wsRef_send P K m (h h' : Hook) :
  P m -> wsRef_send m h = Some h' -> evolves P K h h'.
Proof.
  intros Pm. unfold wsRef_send. destruct (wsRef h); [|done].
  by apply evolves_ws_send.
Qed.

Lemma evolves_uncaught P K r (h : Hook) :
  (forall h', r = Some h' -> evolves P K h h') -> evolves P K h (uncaught r h).
Proof. destruct r; simpl; [auto|intros _; apply evolves_refl]. Qed.

Lemma evolves_log P K line (h : Hook) : evolves P K h (log line h).
Proof. by apply evolves_same. Qed.

Lemma sync_payload_username store username m :
  sync_payload store username = Some (Some m) ->
  exists progress studyItems, m = sync_full_progress progress studyItems username.
Proof.
  unfold sync_payload. destruct (truthy (store !! "course-progress")); [|done].
  destruct (JSON_parse_progress _) as [p|]; [|done]. simpl.
  destruct (if truthy (store !! "study-cart") then _ else _) as [si|]; [|done].
  simpl. intros [= <-]. by exists p, si.
Qed.

Lemma evolves_cycle P K send line err username (h : Hook) :
  (forall m h', (exists progress studyItems,
                   m = sync_full_progress progress studyItems username) ->
     send m h = Some h' -> evolves P K h h') ->
  evolves P K h match run_payload send line username h with
                | Some h' => h'
                | None => log err h
                end.
Proof.
  intros Hsend. unfold run_payload.
  destruct (sync_payload _ _) as [[m|]|] eqn:Ep;
    [|apply evolves_refl|apply evolves_log].
  apply sync_payload_username in Ep.
  destruct (send m h) as [h'|] eqn:Es; simpl; [|apply evolves_log].
  eapply evolves_trans; [by eapply Hsend|apply evolves_log].
Qed.

Lemma evolves_connect P K env constructed (h : Hook) :
  evolves P K h (connect env constructed h).
Proof.
  unfold connect. destruct (truthy (c_userId env)) eqn:T; [|apply evolves_refl].
  destruct window_defined eqn:W; [|apply evolves_refl]. simpl.
  destruct constructed; [|by apply evolves_same].
  split; simpl; [|done|by left|].
  - eapply ops_new; [done..|]. constructor.
  - intros _. unfold newest. simpl. rewrite length_app. simpl. lia.
Qed.

Lemma evolves_readyState P K ws s r (h : Hook) :
  sockets h !! ws = Some s -> r <> CONNECTING ->
  evolves P K h (set_sockets (<[ws := set_readyState r s]> (sockets h)) h).
Proof.
  intros E N. apply evolves_socket_change; [|by rewrite length_insert].
  eapply ops_readyState; eauto. constructor.
Qed.

Lemma evolves_clear_timeout P K id (h : Hook) :
  evolves P K h (set_timeouts (<[id := None]> (timeouts h)) h).
Proof.
  split; simpl; [constructor|done| |by apply newest_same].
  intros i t [(_ & ? & _) | (_ & Ht)]%list_lookup_insert_Some; [done|by left].
Qed.

Lemma evolves_onclose P K env (h : Hook) : evolves P K h (ws_onclose env h).
Proof.
  unfold ws_onclose. split; simpl; [constructor|done| |by apply newest_same].
  intros i t [Ht | (_ & Ht)]%lookup_app_Some; [by left|].
  apply list_lookup_singleton_Some in Ht as [_ [= <-]]. by right.
Qed.

Lemma evolves_setItem P K k v (h : Hook) :
  k ∈ K -> evolves P K h (set_localStorage (<[k := v]> (localStorage h)) h).
Proof.
  intros Hk. split; simpl; [constructor| |by left|by apply newest_same].
  intros k' Hk'. apply lookup_insert_ne. by intros ->.
Qed.

Lemma getUserId_other_keys e store k :
  k <> "progress-user-id" -> (getUserId e store).2 !! k = store !! k.
Proof.
  intros N. unfold getUserId. destruct window_defined; [|done]. simpl.
  destruct (truthy _); simpl; [done|]. by rewrite lookup_insert_ne.
Qed.

Lemma getUsername_other_keys e store k :
  k <> "progress-username" -> (getUsername e store).2 !! k = store !! k.
Proof.
  intros N. unfold getUsername. destruct window_defined; [|done]. simpl.
  destruct (truthy _); simpl; [done|]. by rewrite lookup_insert_ne.
Qed.

Lemma initIdentity_eq e (h : Hook) :
  initIdentity e h
  = setUsername (getUsername e (getUserId e (localStorage h)).2).1
      (setUserId (getUserId e (localStorage h)).1
         (set_localStorage (getUsername e (getUserId e (localStorage h)).2).2 h)).
Proof.
  unfold initIdentity. destruct (getUserId e (localStorage h)) as [id store].
  simpl. by destruct (getUsername e store).
Qed.

(** Every event relates the states before and after it by [evolves], for
    the messages and the keys of that event. *)
Lemma step_evolves ev (h : Hook) :
  evolves (may_transmit ev) (may_write ev) h (step ev h).
Proof.
  destruct ev; simpl.
  - (* Mount *)
    rewrite initIdentity_eq. split; simpl; [constructor| |by left|by apply newest_same].
    intros k Hk. rewrite getUsername_other_keys, getUserId_other_keys; [done|..];
      intros ->; apply Hk; set_solver.
  - apply evolves_connect.
  - (* Cleanup *)
    unfold cleanup.
    set (h1 := match reconnectTimeoutRef h with
               | Some id => set_timeouts (<[id := None]> (timeouts h)) h
               | None => h
               end).
    assert (evolves (fun _ => False) [] h h1) as E1.
    { subst h1. destruct (reconnectTimeoutRef h);
        [apply evolves_clear_timeout|apply evolves_refl]. }
    eapply evolves_trans; [exact E1|].
    destruct (wsRef h1); [|apply evolves_refl].
    destruct (sockets h1 !! n) as [s|] eqn:E; [|apply evolves_refl].
    destruct (readyState s); try apply evolves_refl;
      by apply evolves_readyState.
  - (* Online *)
    unfold handleOnline. eapply evolves_trans; [apply evolves_log|].
    destruct (negb _); [apply evolves_connect|apply evolves_refl].
  - apply evolves_log.
  - (* SocketOpen *)
    unfold fire_open. destruct (sockets h !! ws) as [s|] eqn:E; [|apply evolves_refl].
    destruct (readyState s); try apply evolves_refl.
    eapply evolves_trans; [by apply (evolves_readyState _ _ ws s OPEN)|].
    set (h0 := set_sockets _ h). unfold ws_onopen, onopen_sync.
    rewrite onopen_try_payload.
    set (h1 := log _ h0). set (h2 := setIsConnected true h1).
    set (h3 := match run_payload _ _ _ h2 with Some h' => h' | None => _ end).
    set (h4 := set_pendingUpdatesRef [] h3).
    apply (evolves_trans _ _ _ h1); [apply evolves_log|].
    apply (evolves_trans _ _ _ h2); [by apply evolves_same|].
    apply (evolves_trans _ _ _ h3).
    { apply evolves_cycle. intros m h' (p & si & ->). by apply evolves_ws_send. }
    apply (evolves_trans _ _ _ h4); [by apply evolves_same|].
    apply evolves_uncaught. intros h'. by apply evolves_ws_send.
  - (* SocketMessage *)
    unfold fire_message. destruct (sockets h !! ws) as [s|]; [|apply evolves_refl].
    destruct (readyState s); try apply evolves_refl.
    unfold ws_onmessage, onmessage_try.
    destruct (JSON_parse_data event_data) as [d|]; simpl; [|apply evolves_log].
    destruct (_ && _); [by apply evolves_same|].
    destruct (strict_eq _ _); [apply evolves_log|apply evolves_refl].
  - (* SocketError *)
    unfold fire_error. destruct (sockets h !! ws); [apply evolves_log|apply evolves_refl].
  - (* SocketClose *)
    unfold fire_close. destruct (sockets h !! ws) as [s|] eqn:E; [|apply evolves_refl].
    destruct (readyState s); try apply evolves_refl;
      (eapply evolves_trans;
       [by apply (evolves_readyState _ _ ws s CLOSED)|apply evolves_onclose]).
  - (* TimerExpires *)
    unfold fire_timeout. destruct (timeouts h !! id) as [[t|]|]; try apply evolves_refl.
    eapply evolves_trans; [apply evolves_clear_timeout|].
    unfold reconnect. eapply evolves_trans; [apply evolves_log|apply evolves_connect].
  - (* PollTick *)
    unfold pollInterval. destruct (wsRef_open h); [|apply evolves_refl].
    apply evolves_uncaught. intros h'. by apply evolves_wsRef_send.
  - (* SyncTick *)
    unfold syncInterval. destruct (wsRef_open h); [|apply evolves_refl].
    rewrite syncInterval_try_payload. apply evolves_cycle.
    intros m h' Hm. by apply evolves_wsRef_send.
  - (* StorageChanged *)
    unfold handleStorageChange. destruct (_ || _); [|apply evolves_refl].
    destruct (wsRef_open h); [|apply evolves_refl].
    rewrite handleStorageChange_try_payload. apply evolves_cycle.
    intros m h' Hm. by apply evolves_wsRef_send.
  - (* StoreWritten *)
    apply evolves_setItem. set_solver.
  - (* CallUpdateUsername *)
    unfold updateUsername. destruct (negb _); [apply evolves_refl|].
    set (h0 := setUsername newUsername h). set (h1 := set_localStorage _ h0).
    apply (evolves_trans _ _ _ h0); [by apply evolves_same|].
    apply (evolves_trans _ _ _ h1);
      [apply (evolves_setItem _ _ "progress-username"); set_solver|].
    destruct (wsRef_open h1); [|apply evolves_refl].
    apply evolves_uncaught. intros h'. by apply evolves_wsRef_send.
  - (* CallSendProgressUpdate *)
    unfold sendProgressUpdate. destruct (wsRef_open h); [|by apply evolves_same].
    apply evolves_uncaught. intros h'. by apply evolves_wsRef_send.
  - unfold requestLeaderboardUpdate. destruct (_ && _); [|apply evolves_refl].
    apply evolves_uncaught. intros h'. by apply evolves_wsRef_send.
  - unfold syncStudyItems. destruct (_ && _); [|apply evolves_refl].
    apply evolves_uncaught. intros h'. by apply evolves_wsRef_send.
  - unfold syncFullProgress. destruct (wsRef_open h); [|apply evolves_refl].
    apply evolves_uncaught. intros h'. by apply evolves_wsRef_send.
Qed.


Lemma socket_ops_sent P (l l' : list Socket) :
  socket_ops P l l' ->
  forall ws, exists extra,
    match l' !! ws with Some s => ws_sent s | None => [] end
    = (match l !! ws with Some s => ws_sent s | None => [] end ++ extra)%list
    /\ Forall P extra.
Proof.
  induction 1 as [l|l l' ws0 s m E O Pm _ IH|l l' ws0 s r E N _ IH|l l' env T W _ IH];
    intros ws.
  - exists []. by rewrite app_nil_r.
  - destruct (IH ws) as (extra & -> & Hall).
    destruct (decide (ws = ws0)) as [->|Hne].
    + rewrite list_lookup_insert_eq by (by eapply lookup_lt_Some). rewrite E.
      exists (m :: extra). simpl. rewrite <- app_assoc. split; [done|].
      by constructor.
    + rewrite list_lookup_insert_ne by done. by exists extra.
  - destruct (IH ws) as (extra & -> & Hall).
    destruct (decide (ws = ws0)) as [->|Hne].
    + rewrite list_lookup_insert_eq by (by eapply lookup_lt_Some). rewrite E.
      by exists extra.
    + rewrite list_lookup_insert_ne by done. by exists extra.
  - destruct (IH ws) as (extra & -> & Hall). exists extra. split; [|done].
    f_equal. destruct (l !! ws) as [s|] eqn:E.
    + by rewrite (lookup_app_l_Some _ _ _ _ E).
    + apply lookup_ge_None in E. rewrite lookup_app_r by done.
      by destruct (ws - List.length l) as [|[|?]].
Qed.

Lemma socket_ops_ok P (l l' : list Socket) :
  socket_ops P l l' ->
  (forall ws s, l !! ws = Some s -> socket_ok s) ->
  forall ws s, l' !! ws = Some s -> socket_ok s.
Proof.
  induction 1 as [l|l l' ws0 s m E O Pm _ IH|l l' ws0 s r E N _ IH|l l' env T W _ IH];
    intros Hok; [done| | |]; apply IH.
  - intros ws x [(-> & <- & _) | (_ & Hx)]%list_lookup_insert_Some; [|by eapply Hok].
    destruct (Hok _ _ E) as (U & I & _). repeat split; try done.
    simpl. by rewrite O.
  - intros ws x [(-> & <- & _) | (_ & Hx)]%list_lookup_insert_Some; [|by eapply Hok].
    destruct (Hok _ _ E) as (U & I & _). repeat split; done.
  - intros ws x [Hx | (_ & Hx)]%lookup_app_Some; [by eapply Hok|].
    apply list_lookup_singleton_Some in Hx as [_ <-]. repeat split; done.
Qed.

(** X8. Whatever happens, what a socket has transmitted only grows, and
    each event adds only its own kind of message: an opening socket its
    sync and leaderboard request, the poll and [requestLeaderboardUpdate]
    a [request_leaderboard] for their course, the periodic sync, the
    storage listener and [syncFullProgress] a [sync_full_progress] with
    their username, [updateUsername] a [set_username], [syncStudyItems] a
    [sync_study_items], [sendProgressUpdate] its own [progress_update];
    every other event transmits nothing. So no event but a direct
    [sendProgressUpdate] call ever transmits a [progress_update]: what was
    queued is never sent. *)
Theorem transmissions_by_event (ev : Event) (h : Hook) (ws : nat) :
  exists extra,
    sent_on ws (step ev h) = (sent_on ws h ++ extra)%list /\
    Forall (may_transmit ev) extra /\
    ((forall courseId username fileKey isComplete,
        ev <> CallSendProgressUpdate courseId username fileKey isComplete) ->
     existsb is_progress_update extra = false).
Proof.
  destruct (socket_ops_sent _ _ _ (ev_sockets _ _ _ _ (step_evolves ev h)) ws)
    as (extra & Hs & Hall).
  exists extra. split; [exact Hs|]. split; [done|].
  intros Hev. destruct (existsb is_progress_update extra) eqn:X; [|done].
  apply existsb_exists in X as (m & Hin & Hm).
  rewrite Forall_forall in Hall. apply list_elem_of_In, Hall in Hin.
  destruct m; try done.
  destruct ev; simpl in Hin; try done.
  - by destruct Hin as (? & ? & ?).
  - by destruct Hin as (? & ? & ?).
  - injection Hin as -> -> -> ->. by destruct (Hev courseId0 username1 fileKey0 isComplete0).
Qed.

(** X9. In every state of a run, every socket was constructed for a closure
    with a non-empty [userId], its URL is the base URL followed by "/ws/"
    and that [userId], and a socket that is still connecting has
    transmitted nothing. *)
Theorem sockets_of_a_run (h : Hook) :
  reachable h ->
  forall ws s, sockets h !! ws = Some s ->
    ws_url s = getWebSocketUrl +:+ "/ws/" +:+ default "" (c_userId (ws_closure s))
    /\ truthy (c_userId (ws_closure s)) = true
    /\ (readyState s = CONNECTING -> ws_sent s = []).
Proof.
  induction 1 as [store | ev h _ IH]; [done|].
  apply (socket_ops_ok _ _ _ (ev_sockets _ _ _ _ (step_evolves ev h)) IH).
Qed.

(** X10. Apart from a write by another component, no event writes any
    [localStorage] key other than "progress-user-id" and
    "progress-username"; in particular the hook never writes
    "course-progress" or "study-cart". *)
Theorem only_identity_keys_written (ev : Event) (h : Hook) (k : string) :
  (forall key value, ev <> StoreWritten key value) ->
  k <> "progress-user-id" -> k <> "progress-username" ->
  localStorage (step ev h) !! k = localStorage h !! k.
Proof.
  intros Hev N1 N2. apply (ev_storage _ _ _ _ (step_evolves ev h)).
  destruct ev; simpl; try (by destruct (Hev key value)); intros Hin;
    repeat (apply elem_of_cons in Hin as [?|Hin]; [done|]);
    by apply elem_of_nil in Hin.
Qed.

(** X11. In every state of a run, every pending timer has a delay of
    3000 ms: the reconnect delay never grows or shrinks, however many
    reconnections came before. *)
Theorem reconnect_delay_is_constant (h : Hook) :
  reachable h ->
  forall id t, timeouts h !! id = Some (Some t) -> timer_delay t = 3000%N.
Proof.
  induction 1 as [store | ev h _ IH]; [by intros [|?] ?|].
  intros id t Ht.
  destruct (ev_timeouts _ _ _ _ (step_evolves ev h) id t Ht); eauto.
Qed.

(** X12. In every state of a run, [wsRef.current] is [null] exactly while no
    socket was ever constructed, and otherwise is the socket constructed
    last: the reference is never cleared, also not after that socket
    closed. *)
Theorem wsRef_is_newest_socket (h : Hook) :
  reachable h ->
  match wsRef h with
  | Some ws => S ws = List.length (sockets h)
  | None => sockets h = []
  end.
Proof.
  induction 1 as [store | ev h _ IH]; [done|].
  by apply (ev_newest _ _ _ _ (step_evolves ev h)).
Qed.


(** *** Reconnection after cleanup and after an online event *)

Lemma fire_close_open_onclose ws s (h : Hook) :
  sockets h !! ws = Some s -> readyState s <> CLOSED ->
  fire_close ws h
  = ws_onclose (ws_closure s)
      (set_sockets (<[ws := set_readyState CLOSED s]> (sockets h)) h).
Proof. intros E N. unfold fire_close. rewrite E. by destruct (readyState s). Qed.

Lemma fire_timeout_last env constructed (h : Hook) (l : list (option Timer)) :
  timeouts h = (l ++ [Some {| timer_delay := 3000; timer_closure := env |}])%list ->
  fire_timeout (List.length l) constructed h
  = reconnect env constructed (set_timeouts (l ++ [None]) h).
Proof.
  intros E. unfold fire_timeout. rewrite E.
  rewrite list_lookup_middle by done. simpl. do 2 f_equal.
  rewrite insert_app_r_alt by done. by rewrite Nat.sub_diag.
Qed.

Lemma connect_constructs env (h : Hook) :
  truthy (c_userId env) = true -> window_defined = true ->
  connect env true h
  = set_wsRef (Some (List.length (sockets h)))
      (set_sockets (sockets h ++ [new_socket env]) h).
Proof. intros T W. unfold connect. by rewrite T, W. Qed.

(** *** The mounted hook *)

(** The runs of a mounted hook are runs of the hook. *)
Lemma reachable_deliver ev (m : Mounted) :
  reachable (hook m) -> reachable (hook (deliver ev m)).
Proof. intros R. by apply reach_step. Qed.

Lemma reachable_render_course courseId constructed (m : Mounted) :
  reachable (hook m) -> reachable (hook (render_course courseId constructed m)).
Proof.
  intros R.
  assert (reachable (cleanup (hook m))) as Rc by apply (reach_step Cleanup _ R).
  unfold render_course, connectEffect. cbn [hook].
  set (env := render_closure courseId (cleanup (hook m))).
  destruct (truthy (c_userId env)); [|exact Rc].
  apply (reach_step (RunConnect env constructed) _ Rc).
Qed.

(** The socket a render creates is opened for the course of that render. *)
Lemma render_course_socket courseId (m : Mounted) :
  truthy (userId (hook m)) = true -> window_defined = true ->
  let m' := render_course courseId true m in
  exists ws s, wsRef (hook m') = Some ws /\ sockets (hook m') !! ws = Some s /\
    readyState s = CONNECTING /\ c_courseId (ws_closure s) = active_courseId m'.
Proof.
  intros T W. cbv zeta. unfold render_course, connectEffect. simpl.
  assert (userId (cleanup (hook m)) = userId (hook m)) as U.
  { unfold cleanup.
    destruct (reconnectTimeoutRef (hook m)); simpl;
      (destruct (wsRef (hook m)) as [ws|]; [|done]);
      (destruct (sockets (hook m) !! ws) as [s|]; [|done]);
      by destruct (readyState s). }
  rewrite U, T.
  rewrite connect_constructs by (simpl; by rewrite ?U).
  simpl. eexists _, _. split; [done|]. split; [by apply list_lookup_middle|done].
Qed.

Lemma cleanup_timeouts (h : Hook) :
  timeouts (cleanup h)
  = match reconnectTimeoutRef h with
    | Some id => <[id := None]> (timeouts h)
    | None => timeouts h
    end.
Proof.
  unfold cleanup.
  destruct (reconnectTimeoutRef h) as [id|]; simpl.
  all: destruct (wsRef h) as [ws|]; [|done].
  all: destruct (sockets h !! ws) as [s|]; [|done].
  all: by destruct (readyState s).
Qed.

(** X13. One cleanup of the connect effect does not end reconnection. With
    an open current socket, cleanup cancels the reconnect timer the
    reference holds and starts closing the socket. When the close event of
    that socket arrives after the cleanup has run, [onclose] schedules a
    new 3000 ms timer, pending and held by the reference; a further cleanup
    would cancel it. When it expires with no further cleanup before, a new
    socket is constructed for the old closure and becomes the current
    socket. *)
Theorem cleanup_does_not_stop_reconnect (ws : nat) (s : Socket) (h : Hook) :
  well_formed h -> wsRef h = Some ws -> sockets h !! ws = Some s ->
  readyState s = OPEN ->
  let h1 := cleanup h in
  let h2 := fire_close ws h1 in
  let id' := List.length (timeouts h) in
  let h3 := fire_timeout id' true h2 in
  (forall id t, reconnectTimeoutRef h = Some id -> timeouts h1 !! id <> Some (Some t)) /\
  sockets h1 = <[ws := set_readyState CLOSING s]> (sockets h) /\
  timeouts h2
    = (timeouts h1 ++ [Some {| timer_delay := 3000; timer_closure := ws_closure s |}])%list /\
  reconnectTimeoutRef h2 = Some id' /\
  timeouts (cleanup h2) !! id' = Some None /\
  sockets h3 = (sockets h2 ++ [new_socket (ws_closure s)])%list /\
  wsRef h3 = Some (List.length (sockets h)).
Proof.
  intros W R E O. cbv zeta.
  destruct (wf_sockets h W ws s E) as [Tu Wd].
  set (h0 := match reconnectTimeoutRef h with
             | Some id => set_timeouts (<[id := None]> (timeouts h)) h
             | None => h
             end).
  assert (sockets h0 = sockets h /\ wsRef h0 = wsRef h
          /\ List.length (timeouts h0) = List.length (timeouts h)) as (S0 & R0 & L0).
  { subst h0. destruct (reconnectTimeoutRef h); simpl; [|done].
    by rewrite length_insert. }
  assert (cleanup h
          = set_sockets (<[ws := set_readyState CLOSING s]> (sockets h0)) h0) as ->.
  { unfold cleanup. fold h0. by rewrite R0, R, S0, E, O. }
  assert (ws < List.length (sockets h)) as Lw by (by eapply lookup_lt_Some).
  split; [|split; [by rewrite S0|]].
  { intros id t Hid. simpl. subst h0. rewrite Hid. simpl.
    intros [(_ & ? & _) | (? & _)]%list_lookup_insert_Some; done. }
  set (h1 := set_sockets _ h0).
  rewrite (fire_close_open_onclose ws (set_readyState CLOSING s) h1);
    [|subst h1; simpl; rewrite S0; by apply list_lookup_insert_eq|done].
  set (h2 := ws_onclose _ _).
  assert (timeouts h2
          = (timeouts h0 ++ [Some {| timer_delay := 3000;
                                     timer_closure := ws_closure s |}])%list)
    as T2 by done.
  assert (reconnectTimeoutRef h2 = Some (List.length (timeouts h))) as R2.
  { subst h2. unfold ws_onclose. simpl. by rewrite L0. }
  split; [done|]. split; [done|]. split.
  { rewrite cleanup_timeouts, R2, T2, <- L0.
    rewrite insert_app_r_alt by done. rewrite Nat.sub_diag. simpl.
    by rewrite list_lookup_middle. }
  rewrite <- L0.
  rewrite (fire_timeout_last (ws_closure s) true _ (timeouts h0)) by done.
  unfold reconnect. rewrite connect_constructs by done. simpl.
  split; [done|]. by rewrite !length_insert, S0.
Qed.

(** X14. An online event does not cancel a pending reconnect. After a
    socket closed, [handleOnline] of a disconnected render constructs a
    socket at once and leaves the reconnect timer pending; when the timer
    expires a second socket is constructed and replaces the first as the
    current socket, so two sockets are connecting at the same time. *)
Theorem online_does_not_cancel_reconnect (ws : nat) (s : Socket) (env : Closure)
    (h : Hook) :
  well_formed h -> sockets h !! ws = Some s -> readyState s <> CLOSED ->
  truthy (c_userId env) = true ->
  let h1 := fire_close ws h in
  let h2 := handleOnline false env true h1 in
  let h3 := fire_timeout (List.length (timeouts h)) true h2 in
  timeouts h2 = timeouts h1 /\
  wsRef h2 = Some (List.length (sockets h)) /\
  sockets h3 = (sockets h1 ++ [new_socket env; new_socket (ws_closure s)])%list /\
  wsRef h3 = Some (S (List.length (sockets h))).
Proof.
  intros W E N T. cbv zeta.
  destruct (wf_sockets h W ws s E) as [Tu Wd].
  rewrite (fire_close_open_onclose ws s h) by done.
  unfold handleOnline. simpl negb. cbv iota.
  rewrite connect_constructs by done.
  unfold ws_onclose. simpl.
  split; [done|]. split; [by rewrite length_insert|].
  rewrite (fire_timeout_last (ws_closure s) true _ (timeouts h)) by done.
  unfold reconnect. rewrite connect_constructs by done. simpl.
  rewrite <- app_assoc. split; [done|].
  rewrite length_app, length_insert. simpl. f_equal. lia.
Qed.

(** *** Identity across mounts *)

Lemma getUserId_stored e store :
  truthy (store !! "progress-user-id") = true ->
  getUserId e store
  = (if window_defined then store !! "progress-user-id" else None, store).
Proof.
  intros T. unfold getUserId. destruct window_defined; [|done]. simpl.
  by rewrite T.
Qed.

Lemma getUsername_stored e store name :
  store !! "progress-username" = Some name -> name <> "" ->
  getUsername e store = (if window_defined then name else "", store).
Proof.
  intros E N. unfold getUsername. destruct window_defined; [|done]. simpl.
  rewrite E. simpl. by destruct (String.eqb_spec name "").
Qed.

Lemma generateUsername_nonempty e : generateUsername e <> "".
Proof.
  pose proof (generateUsername_truthy e) as T. simpl in T.
  by destruct (String.eqb_spec (generateUsername e) "").
Qed.

Lemma getUserId_result e store :
  window_defined = true ->
  exists v, v <> "" /\ (getUserId e store).1 = Some v
    /\ (getUserId e store).2 !! "progress-user-id" = Some v.
Proof.
  intros W. unfold getUserId. rewrite W. simpl.
  destruct (truthy (store !! "progress-user-id")) eqn:T; simpl.
  - apply truthy_Some in T as (v & Hv & N). by exists v.
  - eexists. split; [|split; [done|apply lookup_insert_eq]]. done.
Qed.

Lemma getUsername_result e store :
  window_defined = true ->
  (getUsername e store).1 <> ""
  /\ (getUsername e store).2 !! "progress-username" = Some (getUsername e store).1.
Proof.
  intros W. unfold getUsername. rewrite W. simpl.
  destruct (truthy (store !! "progress-username")) eqn:T; simpl.
  - apply truthy_Some in T as (v & Hv & N). rewrite Hv. done.
  - split; [apply generateUsername_nonempty|apply lookup_insert_eq].
Qed.

Lemma truthy_Some_nonempty v : v <> "" -> truthy (Some v) = true.
Proof. intros N. simpl. by destruct (String.eqb_spec v ""). Qed.

(** X15. The identity is stable across mounts: running the mount effect
    again, with any clock and random draws, on the state a first mount
    left gives exactly that state. In a browser the mounted state holds
    the persisted values: [userId] and [username] are the non-empty values
    stored under "progress-user-id" and "progress-username". *)
Theorem mount_identity_stable (e1 e2 : Entropy) (h : Hook) :
  initIdentity e2 (initIdentity e1 h) = initIdentity e1 h /\
  (window_defined = true ->
   userId (initIdentity e1 h)
     = localStorage (initIdentity e1 h) !! "progress-user-id" /\
   truthy (userId (initIdentity e1 h)) = true /\
   Some (username (initIdentity e1 h))
     = localStorage (initIdentity e1 h) !! "progress-username" /\
   username (initIdentity e1 h) <> "").
Proof.
  destruct window_defined eqn:W.
  - rewrite !initIdentity_eq. simpl.
    destruct (getUserId_result e1 (localStorage h) W) as (v & Nv & Hid & Hst).
    destruct (getUsername_result e1 (getUserId e1 (localStorage h)).2 W)
      as (Nn & Hn).
    set (store2 := (getUsername e1 (getUserId e1 (localStorage h)).2).2) in *.
    set (name := (getUsername e1 (getUserId e1 (localStorage h)).2).1) in *.
    assert (store2 !! "progress-user-id" = Some v) as Hid2.
    { subst store2. by rewrite getUsername_other_keys. }
    assert (getUserId e2 store2 = (Some v, store2)) as ->.
    { rewrite getUserId_stored, W, ?Hid2; [done|].
      rewrite Hid2. by apply truthy_Some_nonempty. }
    simpl. rewrite (getUsername_stored e2 store2 name), W by done. simpl.
    rewrite Hid. split; [done|]. intros _.
    repeat split; try done. by apply truthy_Some_nonempty.
  - assert (forall e store, getUserId e store = (None, store)) as Hi.
    { intros. unfold getUserId. by rewrite W. }
    assert (forall e store, getUsername e store = ("", store)) as Hn.
    { intros. unfold getUsername. by rewrite W. }
    split; [|done]. rewrite (initIdentity_eq e1 h), !Hi, !Hn. simpl.
    rewrite initIdentity_eq, !Hi, !Hn. done.
Qed.

Lemma all_white_space_nonempty s : all_white_space s = false -> s <> "".
Proof. by intros E ->. Qed.

Lemma updateUsername_localStorage newUsername (h : Hook) :
  all_white_space newUsername = false ->
  localStorage (updateUsername newUsername h)
  = <["progress-username" := newUsername]> (localStorage h).
Proof.
  intros A. unfold updateUsername. rewrite truthy_trim, A. simpl.
  set (h1 := set_localStorage _ _).
  destruct (wsRef_open h1); [|done].
  destruct (wsRef_send (set_username newUsername) h1) as [h'|] eqn:E; [|done].
  simpl. by rewrite (wsRef_send_localStorage _ _ _ E).
Qed.

(** X16. A name set with [updateUsername] survives a reload: in a browser,
    after [updateUsername] accepted a name, [getUsername] returns that
    name without touching the store, a later mount sets the in-memory
    username to it, and "progress-user-id" is as before. *)
Theorem updateUsername_survives_reload (newUsername : string) (e : Entropy)
    (h : Hook) :
  window_defined = true -> all_white_space newUsername = false ->
  let h' := updateUsername newUsername h in
  getUsername e (localStorage h') = (newUsername, localStorage h') /\
  username (initIdentity e h') = newUsername /\
  localStorage h' !! "progress-user-id" = localStorage h !! "progress-user-id".
Proof.
  intros Wd A. cbv zeta.
  pose proof (all_white_space_nonempty _ A) as N.
  pose proof (updateUsername_localStorage newUsername h A) as Hl.
  assert (localStorage (updateUsername newUsername h) !! "progress-username"
          = Some newUsername) as Hn by (rewrite Hl; apply lookup_insert_eq).
  split; [|split].
  - rewrite (getUsername_stored _ _ newUsername) by done. by rewrite Wd.
  - rewrite initIdentity_eq. simpl.
    rewrite (getUsername_stored _ _ newUsername); [by rewrite Wd| |done].
    by rewrite getUserId_other_keys.
  - rewrite Hl. by apply lookup_insert_ne.
Qed.


Lemma adjective_starts_with_letter i :
  exists c r, nth i adjectives "undefined" = String c r /\ is_white_space c = false.
Proof. do 17 (destruct i as [|i]; [by eexists _, _|]). by eexists _, _. Qed.

Lemma updateUsername_username newUsername (h : Hook) :
  all_white_space newUsername = false ->
  username (updateUsername newUsername h) = newUsername.
Proof.
  intros A. unfold updateUsername. rewrite truthy_trim, A. simpl.
  set (h1 := set_localStorage _ _).
  destruct (wsRef_open h1); [|done].
  unfold wsRef_send. destruct (wsRef h1) as [ws|]; [|done].
  unfold ws_send. destruct (sockets h1 !! ws) as [s|]; [|done].
  by destruct (readyState s).
Qed.

(** X17. A generated username is always accepted by [updateUsername]: it
    is never made of white space only, whatever the random draws. When
    the two picks are within the tables, the name is an adjective of the
    table, then a noun of the table, then the decimal of the number
    pick plus one. *)
Theorem generated_username_is_accepted (e : Entropy) :
  all_white_space (generateUsername e) = false /\
  (forall h : Hook,
     username (updateUsername (generateUsername e) h) = generateUsername e) /\
  (pick_adj e < 16 -> pick_noun e < 16 ->
   exists adj noun, adj ∈ adjectives /\ noun ∈ nouns /\
     generateUsername e = adj +:+ noun +:+ pretty (S (pick_num e))).
Proof.
  assert (all_white_space (generateUsername e) = false) as A.
  { unfold generateUsername.
    destruct (adjective_starts_with_letter (pick_adj e)) as (c & r & -> & Hc).
    simpl. by rewrite Hc. }
  split; [done|]. split; [intros h; by apply updateUsername_username|].
  intros La Ln. exists (nth (pick_adj e) adjectives "undefined"),
    (nth (pick_noun e) nouns "undefined").
  split; [apply list_elem_of_In, nth_In; simpl; lia|].
  split; [apply list_elem_of_In, nth_In; simpl; lia|].
  unfold generateUsername. by rewrite Nat.add_1_r.
Qed.

(** *** Sending on an open socket *)

(** X18. On an open current socket [sendProgressUpdate] transmits its
    [progress_update], carrying the course, file key, completion flag and
    username, and queues nothing, and [syncFullProgress] transmits its
    [sync_full_progress]. [requestLeaderboardUpdate] and [syncStudyItems]
    transmit for a non-empty course only: with an empty [courseId] they do
    nothing although the socket is open. *)
Theorem senders_on_open_socket (ws : nat) (s : Socket) (h : Hook)
    (courseId username fileKey : string) (isComplete : bool)
    (fileKeys : list string) (progress : Progress)
    (studyItems : gmap string (list string)) :
  wsRef h = Some ws -> sockets h !! ws = Some s -> readyState s = OPEN ->
  let transmitted m := set_sockets (<[ws := transmit m s]> (sockets h)) h in
  sendProgressUpdate courseId username fileKey isComplete h
    = transmitted (progress_update courseId fileKey isComplete username) /\
  pendingUpdatesRef (sendProgressUpdate courseId username fileKey isComplete h)
    = pendingUpdatesRef h /\
  syncFullProgress username progress studyItems h
    = transmitted (sync_full_progress progress studyItems username) /\
  (courseId <> "" ->
   requestLeaderboardUpdate courseId h = transmitted (request_leaderboard courseId) /\
   syncStudyItems courseId fileKeys h
     = transmitted (sync_study_items courseId fileKeys)) /\
  requestLeaderboardUpdate "" h = h /\
  syncStudyItems "" fileKeys h = h.
Proof.
  intros R E O. cbv zeta.
  assert (wsRef_open h = true) as Wo by (apply wsRef_open_true; by exists ws, s).
  unfold sendProgressUpdate, syncFullProgress, requestLeaderboardUpdate,
    syncStudyItems.
  rewrite Wo. simpl. rewrite !(wsRef_send_open ws s) by done. simpl.
  repeat split; try done;
    destruct (String.eqb_spec courseId ""); try done; simpl;
    by rewrite (wsRef_send_open ws s).
Qed.

(** X19. A message arriving on a socket changes nothing but the cached
    leaderboard and the console: flags, username, identity, references,
    queue, storage, sockets and timers stay. The cache changes only when
    the socket is open and the message is a [leaderboard_update] for the
    course of the socket's closure; it then holds the message's
    [leaderboard] as it came, without a check. When that is not an array,
    the value cached is not an array, and the render of a hook that has a
    [userId] throws. A "connected" message, any other type and a text on
    which the parse throws leave the cache as it was. *)
Theorem inbound_message_touches_only_leaderboard (ws : nat) (event_data : string)
    (h : Hook) :
  let h' := fire_message ws event_data h in
  (isConnected h' = isConnected h /\ username h' = username h /\
   userId h' = userId h /\ wsRef h' = wsRef h /\
   reconnectTimeoutRef h' = reconnectTimeoutRef h /\
   pendingUpdatesRef h' = pendingUpdatesRef h /\
   localStorage h' = localStorage h /\ sockets h' = sockets h /\
   timeouts h' = timeouts h) /\
  (leaderboard h' = leaderboard h \/
   exists s d, sockets h !! ws = Some s /\ readyState s = OPEN /\
     JSON_parse_data event_data = Some d /\
     data_type d = Some "leaderboard_update" /\
     data_courseId d = Some (c_courseId (ws_closure s)) /\
     h' = setLeaderboard (data_leaderboard d) h) /\
  (leaderboard h' = None -> truthy (userId h') = true ->
   return_currentUserRank h' = None).
Proof.
  cbv zeta. split; [|split]; cycle 2.
  { intros L T. unfold return_currentUserRank, currentUserRank. by rewrite T, L. }
  all: unfold fire_message.
  all: destruct (sockets h !! ws) as [s|] eqn:E; [|done || by left].
  all: destruct (readyState s) eqn:O; try (done || by left).
  all: unfold ws_onmessage, onmessage_try.
  all: destruct (JSON_parse_data event_data) as [d|] eqn:P; simpl; [|done || by left].
  all: destruct (strict_eq (data_type d) "leaderboard_update") eqn:Ty; simpl.
  all: try (destruct (strict_eq (data_type d) "connected"); done || by left).
  all: destruct (strict_eq (data_courseId d) (c_courseId (ws_closure s))) eqn:Tc; simpl.
  all: try (destruct (strict_eq (data_type d) "connected"); done || by left).
  - right. exists s, d. repeat split; try done.
    + unfold strict_eq in Ty. destruct (data_type d) as [t|]; [|done].
      by apply String.eqb_eq in Ty as ->.
    + unfold strict_eq in Tc. destruct (data_courseId d) as [c|]; [|done].
      by apply String.eqb_eq in Tc as ->.
Qed.


(** *** The pending queue and the connected flag *)







(** X21. The connected flag can disagree with the current socket. When an
    older socket reports its close while the current socket is open,
    [onclose] clears the flag and schedules a reconnect although the
    current socket stays open; the senders, which test the socket and not
    the flag, keep transmitting: [sendProgressUpdate] sends its update and
    queues nothing. *)
Theorem late_close_clears_flag (old ws : nat) (s_old s : Socket) (h : Hook)
    (courseId username fileKey : string) (isComplete : bool) :
  wsRef h = Some ws -> sockets h !! ws = Some s -> readyState s = OPEN ->
  old <> ws -> sockets h !! old = Some s_old -> readyState s_old <> CLOSED ->
  let h' := fire_close old h in
  isConnected h' = false /\ wsRef_open h' = true /\
  List.length (timeouts h') = S (List.length (timeouts h)) /\
  sent_on ws (sendProgressUpdate courseId username fileKey isComplete h')
    = (sent_on ws h ++ [progress_update courseId fileKey isComplete username])%list /\
  pendingUpdatesRef (sendProgressUpdate courseId username fileKey isComplete h')
    = pendingUpdatesRef h.
Proof.
  intros R E O N Eo No. cbv zeta.
  rewrite (fire_close_open_onclose old s_old h) by done.
  set (h' := ws_onclose _ _).
  assert (wsRef h' = Some ws) as R' by done.
  assert (sockets h' !! ws = Some s) as E'.
  { subst h'. unfold ws_onclose. simpl. by rewrite list_lookup_insert_ne. }
  assert (wsRef_open h' = true) as Wo by (apply wsRef_open_true; by exists ws, s).
  split; [done|]. split; [done|]. split.
  { subst h'. unfold ws_onclose. simpl. rewrite length_app. simpl. lia. }
  unfold sendProgressUpdate. rewrite Wo. simpl.
  rewrite (wsRef_send_open ws s) by done. simpl. split; [|done].
  rewrite (sent_on_transmit ws s _ h') by done.
  unfold sent_on. by rewrite E.
Qed.


(** *** Messages on the connection of the displayed course *)

(** X22. On an open socket that was opened for the course the page
    displays, a [leaderboard_update] puts the message's [leaderboard] in the
    cache when its [courseId] is the displayed course and changes nothing
    when it is another course or none; a payload on which the parse throws
    is only logged. The page stays on its course. *)
Theorem update_on_current_connection (ws : nat) (s : Socket)
    (event_data : string) (m : Mounted) :
  sockets (hook m) !! ws = Some s -> readyState s = OPEN ->
  c_courseId (ws_closure s) = active_courseId m ->
  let h := hook m in
  let m' := deliver (SocketMessage ws event_data) m in
  let h' := hook m' in
  active_courseId m' = active_courseId m /\
  (forall d, JSON_parse_data event_data = Some d ->
     data_type d = Some "leaderboard_update" ->
     (data_courseId d = Some (active_courseId m) ->
        h' = setLeaderboard (data_leaderboard d) h) /\
     (data_courseId d <> Some (active_courseId m) -> h' = h)) /\
  (JSON_parse_data event_data = None ->
     h' = log "Error parsing WebSocket message:" h).
Proof.
  intros E O A. cbv zeta. destruct m as [a h]. simpl in *. subst a.
  destruct (onmessage_by_closure_course ws s event_data h E O) as [Hd Hn].
  split; [done|]. split.
  - intros d P Ty. destruct (Hd d P Ty) as [Hyes Hno]. split.
    + intros C. by destruct (Hyes C).
    + intros C. by destruct (Hno C).
  - intros P. by destruct (Hn P).
Qed.

End Properties.

(** ** The properties on the sample run *)

Import Sample.
#[local] Existing Instance runtime.

Lemma sample_reachable_connected : reachable connected.
Proof. unfold connected, connecting. repeat apply reach_step. apply reach_initial. Qed.

(** C1, as stated, fails on a first visit: nothing is stored under
    "course-progress", the socket opens, and the only message transmitted is
    the leaderboard request; no [sync_full_progress] is sent. *)
Lemma onopen_without_stored_progress :
  localStorage connecting !! "course-progress" = None /\
  sockets connecting !! 0 = Some socket /\
  sent_on 0 (fire_open 0 connecting) = [request_leaderboard "cs101"] /\
  existsb is_sync_full_progress (sent_on 0 (fire_open 0 connecting)) = false.
Proof. vm_compute. repeat split; reflexivity. Qed.

Lemma onopen_effects_witness :
  sockets (hook returning) !! 0 = Some socket /\ readyState socket = CONNECTING /\
  c_courseId (ws_closure socket) = active_courseId returning /\
  localStorage (hook returning) !! "course-progress" = Some progress_text /\
  pendingUpdatesRef (hook returning)
    = [{| pu_courseId := "cs101"; pu_fileKey := "f1"; pu_isComplete := true |}] /\
  pendingUpdatesRef (hook (deliver (SocketOpen 0) returning)) = [] /\
  sockets (hook (deliver (SocketOpen 0) returning))
    = [opened_with [@sync_full_progress runtime progress cart_studyItems "SwiftPanda1";
                    request_leaderboard "cs101"] socket].
Proof.
  assert (sockets (hook returning) !! 0 = Some socket) as E by reflexivity.
  assert (readyState socket = CONNECTING) as C by reflexivity.
  assert (c_courseId (ws_closure socket) = active_courseId returning) as A
    by reflexivity.
  split; [exact E|]. split; [exact C|]. split; [exact A|].
  split; [reflexivity|]. split; [reflexivity|].
  destruct (onopen_effects 0 socket returning E C A) as (_ & _ & Hp & _ & Hs & _).
  split; [exact Hp|]. rewrite Hs. vm_compute. reflexivity.
Defined.

(** C2, as stated, fails for the leaderboard poll: on the same state the poll
    transmits a [request_leaderboard] while the periodic sync transmits the
    [sync_full_progress] built from storage. *)
Lemma poll_payload_differs :
  sent_on 0 (pollInterval "cs101" studying)
    = [request_leaderboard "cs101"; request_leaderboard "cs101"] /\
  sent_on 0 (syncInterval "SwiftPanda1" studying)
    = [request_leaderboard "cs101";
       @sync_full_progress runtime progress cart_studyItems "SwiftPanda1"] /\
  sent_on 0 (pollInterval "cs101" studying)
    <> sent_on 0 (syncInterval "SwiftPanda1" studying).
Proof.
  split; [vm_compute; reflexivity|]. split; [vm_compute; reflexivity|].
  vm_compute. discriminate.
Qed.

Lemma sync_triggers_same_payload_witness :
  wsRef studying = Some 0 /\ sockets studying !! 0 = Some open_socket /\
  readyState open_socket = OPEN /\
  sockets (onopen_sync 0 env studying) = sockets (syncInterval "SwiftPanda1" studying) /\
  sockets (handleStorageChange "SwiftPanda1" (Some "study-cart") studying)
    = sockets (syncInterval "SwiftPanda1" studying).
Proof.
  assert (wsRef studying = Some 0) as R by reflexivity.
  assert (sockets studying !! 0 = Some open_socket) as E by reflexivity.
  assert (readyState open_socket = OPEN) as O by reflexivity.
  split; [exact R|]. split; [exact E|]. split; [exact O|].
  destruct (sync_triggers_same_payload 0 open_socket env "SwiftPanda1"
              (Some "study-cart") "cs101" studying R E O eq_refl eq_refl)
    as (S1 & S2 & S3 & _).
  split; congruence.
Defined.

(** C3, as stated, fails when the socket constructor throws: on a first
    visit whose [connect] fails nothing is scheduled and no socket exists
    whose close could schedule anything; and when the constructor throws in
    the [connect] run by the reconnect timer, the timer is spent, the only
    socket is closed and nothing is pending either. *)
Lemma failed_connect_schedules_nothing :
  (isConnected refused = false /\ timeouts refused = [] /\ sockets refused = []) /\
  (let h := fire_timeout 0 false (fire_close 0 connected) in
   isConnected h = false /\ timeouts h = [None] /\
   readyState <$> sockets h = [CLOSED]).
Proof. vm_compute. repeat split; reflexivity. Qed.

Lemma onclose_schedules_one_reconnect_witness :
  well_formed connected /\ sockets connected !! 0 = Some open_socket /\
  readyState open_socket <> CLOSED /\
  timeouts (fire_close 0 connected)
    = [Some {| timer_delay := 3000; timer_closure := env |}] /\
  wsRef (fire_timeout 0 true (fire_close 0 connected)) = Some 1.
Proof.
  assert (well_formed connected) as W
    by exact (reachable_well_formed connected sample_reachable_connected).
  assert (sockets connected !! 0 = Some open_socket) as E by reflexivity.
  assert (readyState open_socket <> CLOSED) as N by discriminate.
  split; [exact W|]. split; [exact E|]. split; [exact N|].
  destruct (onclose_schedules_one_reconnect 0 open_socket connected W E N)
    as (_ & Ht & _ & (_ & _ & Hr) & _).
  split; [exact Ht | exact Hr].
Defined.

Lemma not_open_queue_or_drop_witness :
  wsRef_open connecting = false /\
  pendingUpdatesRef (sendProgressUpdate "cs101" "SwiftPanda1" "f1" true connecting)
    = [{| pu_courseId := "cs101"; pu_fileKey := "f1"; pu_isComplete := true |}] /\
  requestLeaderboardUpdate "cs101" connecting = connecting.
Proof.
  assert (wsRef_open connecting = false) as O by reflexivity.
  split; [exact O|].
  destruct (not_open_queue_or_drop connecting "cs101" "SwiftPanda1" "f1" true
              ["f1"] progress cart_studyItems "Ada" None O)
    as (Hq & _ & Hr & _).
  split; [by rewrite Hq | exact Hr].
Defined.

Lemma sync_cycle_only_reads_witness :
  truthy (localStorage connected !! "course-progress") = false /\
  sockets (syncInterval "SwiftPanda1" connected) = sockets connected /\
  JSON_parse_progress (default "" (localStorage corrupted !! "course-progress")) = None /\
  sockets (handleStorageChange "SwiftPanda1" (Some "course-progress") corrupted)
    = sockets corrupted.
Proof.
  assert (truthy (localStorage connected !! "course-progress") = false) as T
    by reflexivity.
  assert (JSON_parse_progress (default "" (localStorage corrupted !! "course-progress"))
          = None) as P by reflexivity.
  split; [exact T|].
  destruct (sync_cycle_only_reads 0 env "SwiftPanda1" (Some "course-progress")
              connected) as [_ Hn].
  destruct (Hn (or_introl T)) as (_ & Hs & _).
  split; [apply Hs|]. split; [exact P|].
  destruct (sync_cycle_only_reads 0 env "SwiftPanda1" (Some "course-progress")
              corrupted) as [_ Hc].
  destruct (Hc (or_intror P)) as (_ & _ & Hs').
  apply Hs'.
Defined.

Lemma sample_reachable_stale : reachable (hook stale).
Proof.
  unfold stale, page_ma201. do 4 apply reachable_deliver.
  apply reachable_render_course. exact sample_reachable_connected.
Qed.

(** C6. The hook can receive a [leaderboard_update] on a socket that was
    opened for a course the page no longer displays. The page of "cs101"
    goes on to "ma201": the cleanup closes the first socket and a second
    one opens. The close of the first socket is reported after that, its
    [onclose] schedules a reconnect, and the timer constructs a third
    socket with the closure of "cs101", which becomes the current socket
    and asks for the leaderboard of "cs101". The page displays "ma201";
    an update for "cs101" that arrives on the third socket replaces the
    cached leaderboard, and an update for "ma201" that arrives on it is
    dropped. *)
Theorem stale_socket_replaces_leaderboard :
  reachable (hook stale) /\
  active_courseId stale = "ma201" /\
  wsRef (hook stale) = Some 2 /\
  ws_closure <$> sockets (hook stale) !! 2 = Some env /\
  sent_on 2 (hook stale) = [request_leaderboard "cs101"] /\
  leaderboard (hook stale) = Some [] /\
  (let m := deliver (SocketMessage 2 (leaderboard_update_text "cs101" [peer; me])) stale in
   active_courseId m = "ma201" /\ leaderboard (hook m) = Some [peer; me]) /\
  (let m := deliver (SocketMessage 2 (leaderboard_update_text "ma201" [me])) stale in
   active_courseId m = "ma201" /\ leaderboard (hook m) = Some []).
Proof.
  split; [exact sample_reachable_stale|].
  vm_compute. repeat split; reflexivity.
Qed.

Lemma updateUsername_whitespace_noop_witness :
  all_white_space "  " = true /\ updateUsername "  " connected = connected /\
  all_white_space "Ada" = false /\
  localStorage (updateUsername "Ada" connected) !! "progress-username" = Some "Ada".
Proof.
  assert (all_white_space "  " = true) as W by reflexivity.
  assert (all_white_space "Ada" = false) as A by reflexivity.
  split; [exact W|]. split; [|split; [exact A|]].
  - exact (proj1 (updateUsername_whitespace_noop "  " connected) W).
  - destruct (proj2 (updateUsername_whitespace_noop "Ada" connected) A) as [Hl _].
    rewrite Hl. apply lookup_insert_eq.
Defined.

Lemma identity_getters_idempotent_witness :
  @window_defined runtime = true /\
  (getUserId later (getUserId entropy ∅).2).1 = (getUserId entropy ∅).1 /\
  (getUsername later (getUsername entropy ∅).2).1 = (getUsername entropy ∅).1.
Proof.
  assert (@window_defined runtime = true) as Wd by reflexivity.
  split; [exact Wd|].
  destruct (identity_getters_idempotent entropy later ∅ Wd)
    as [(Hi & _) (Hn & _)].
  split; [exact Hi | exact Hn].
Defined.

Lemma currentUserRank_first_match_witness :
  (userId ranked = None \/ truthy (userId ranked) = true) /\
  leaderboard ranked = Some [peer; me] /\
  return_currentUserRank ranked = Some (Some 2%Z).
Proof.
  assert (userId ranked = None \/ truthy (userId ranked) = true) as V
    by (right; reflexivity).
  assert (leaderboard ranked = Some [peer; me]) as L by reflexivity.
  split; [exact V|]. split; [exact L|].
  destruct (currentUserRank_first_match ranked [peer; me] L V) as (Hr & _).
  apply Hr. exists (entry_userId me), 1, me.
  split; [reflexivity|]. split; [reflexivity|]. split; [reflexivity|].
  split; [|reflexivity].
  intros [|j] e' Hj; [|lia]. intros [= <-]. discriminate.
Defined.

(** The mount effect produces the identity of the sample closure. *)
Lemma sample_identity :
  userId connecting = c_userId env /\ username connecting = c_username env /\
  localStorage connecting !! "progress-user-id" = c_userId env /\
  localStorage connecting !! "progress-username" = Some (c_username env).
Proof. vm_compute. repeat split; reflexivity. Qed.

(** A linked item whose [courseId] is an inherited name makes the sync block
    throw: the cycle logs the failure and transmits nothing, not even the
    file keys of the other items. *)
Lemma inherited_courseId_skips_the_sync :
  JSON_parse_cart (default "" (localStorage studying_odd !! "study-cart"))
    = Some [notes; odd] /\
  sent_on 0 (syncInterval "SwiftPanda1" studying_odd) = [request_leaderboard "cs101"] /\
  last (console (syncInterval "SwiftPanda1" studying_odd))
    = Some "Failed to sync progress:".
Proof. vm_compute. repeat split; reflexivity. Qed.

(** C10, as stated, fails on a cart item that has both fields with an empty
    [courseId]: the hook leaves it out of the study items it sends. *)
Lemma blank_courseId_is_left_out :
  item_courseId blank = Some EmptyString /\ item_fileKey blank = Some "3-blank" /\
  JSON_parse_cart (default "" (localStorage studying_blank !! "study-cart"))
    = Some [blank] /\
  sent_on 0 (syncInterval "SwiftPanda1" studying_blank)
    = [request_leaderboard "cs101"; @sync_full_progress runtime progress ∅ "SwiftPanda1"].
Proof. vm_compute. repeat split; reflexivity. Qed.

Lemma studyItems_grouping_witness :
  wsRef studying = Some 0 /\ sockets studying !! 0 = Some open_socket /\
  JSON_parse_cart (default "" (localStorage studying !! "study-cart")) = Some cart /\
  (forall item, item ∈ cart -> linked item = true ->
     inherited (default "" (item_courseId item)) = false) /\
  exists studyItems : gmap string (list string),
    studyItems !! "cs101" = Some ["1-notes"; "2-slides"] /\
    studyItems !! "ma201" = Some ["1-intro"] /\
    studyItems !! "Misc" = None /\
    sockets (syncInterval "SwiftPanda1" studying)
      = [opened_with [@sync_full_progress runtime progress studyItems "SwiftPanda1"]
           open_socket].
Proof.
  assert (wsRef studying = Some 0) as R by reflexivity.
  assert (sockets studying !! 0 = Some open_socket) as E by reflexivity.
  assert (JSON_parse_cart (default "" (localStorage studying !! "study-cart"))
          = Some cart) as Pc by reflexivity.
  assert (forall item, item ∈ cart -> linked item = true ->
            inherited (default "" (item_courseId item)) = false) as Hok.
  { intros item Hin _. unfold cart in Hin.
    repeat (apply elem_of_cons in Hin as [-> | Hin]; [reflexivity|]).
    by apply elem_of_nil in Hin. }
  split; [exact R|]. split; [exact E|]. split; [exact Pc|]. split; [exact Hok|].
  destruct (studyItems_grouping 0 open_socket env "SwiftPanda1" studying progress
              cart R E eq_refl eq_refl eq_refl eq_refl eq_refl Pc)
    as ((_ & Hs & _) & Hany & Hbuilt).
  destruct (Hbuilt Hok) as (m & Hm).
  destruct (Hany progress m "SwiftPanda1") as [Hl _].
  { rewrite Hm. apply list_elem_of_singleton. reflexivity. }
  exists m. rewrite !Hl. repeat split; try reflexivity.
  rewrite Hs, Hm. reflexivity.
Defined.

(** ** The further properties on the sample run *)

#[local] Existing Instance codec.

Lemma addItem_keeps_first_witness :
  StudyCartProvider.isInCart (item_id notes) cart = true /\
  StudyCartProvider.addItem notes cart = cart /\
  StudyCartProvider.isInCart (item_id blank) cart = false /\
  StudyCartProvider.addItem blank cart = [notes; unlinked; intro; slides; blank].
Proof.
  assert (StudyCartProvider.isInCart (item_id notes) cart = true) as I by reflexivity.
  assert (StudyCartProvider.isInCart (item_id blank) cart = false) as F by reflexivity.
  split; [exact I|]. split; [|split; [exact F|]].
  - exact (proj1 (addItem_keeps_first notes cart) I).
  - exact (proj1 (proj2 (addItem_keeps_first blank cart)) F).
Defined.

Lemma removeItem_removes_all_witness :
  StudyCartProvider.isInCart "i1" cart = true /\
  StudyCartProvider.itemCount (StudyCartProvider.removeItem "i1" cart)
    < StudyCartProvider.itemCount cart /\
  StudyCartProvider.isInCart "zz" cart = false /\
  StudyCartProvider.removeItem "zz" cart = cart.
Proof.
  assert (StudyCartProvider.isInCart "i1" cart = true) as I by reflexivity.
  assert (StudyCartProvider.isInCart "zz" cart = false) as F by reflexivity.
  split; [exact I|]. split; [|split; [exact F|]].
  - destruct (removeItem_removes_all "i1" cart) as (_ & _ & _ & _ & _ & _ & Hlt).
    exact (Hlt I).
  - destruct (removeItem_removes_all "zz" cart) as (_ & _ & _ & _ & Hid & _).
    exact (Hid F).
Defined.

Lemma sample_cart_ids_distinct : NoDup (item_id <$> cart).
Proof.
  apply NoDup_ListNoDup. repeat constructor; simpl; intuition discriminate.
Qed.

Lemma cart_ids_stay_distinct_witness :
  NoDup (item_id <$> cart) /\
  NoDup (item_id <$> StudyCartProvider.addItem blank cart) /\
  StudyCartProvider.itemCount (StudyCartProvider.removeItem "n1" cart) = 3.
Proof.
  split; [exact sample_cart_ids_distinct|].
  destruct (cart_ids_stay_distinct blank "n1" cart sample_cart_ids_distinct)
    as (Ha & _ & _ & _ & Hc).
  split; [exact Ha | exact Hc].
Defined.

Lemma add_then_remove_witness :
  StudyCartProvider.isInCart (item_id odd) cart = false /\
  StudyCartProvider.removeItem (item_id odd) (StudyCartProvider.addItem odd cart)
    = cart.
Proof.
  assert (StudyCartProvider.isInCart (item_id odd) cart = false) as F by reflexivity.
  split; [exact F|]. exact (proj1 (add_then_remove odd cart F)).
Defined.

Lemma mount_keeps_stored_cart_witness :
  cart_store !! StudyCartProvider.STORAGE_KEY = Some (stringify_cart cart) /\
  stringify_cart cart <> "" /\
  StudyCartProvider.JSON_parse_items (stringify_cart cart) = Some cart /\
  StudyCartProvider.items (StudyCartProvider.mount cart_store).1 = cart /\
  StudyCartProvider.mount (StudyCartProvider.mount cart_store).2
    = StudyCartProvider.mount cart_store.
Proof.
  assert (cart_store !! StudyCartProvider.STORAGE_KEY = Some (stringify_cart cart))
    as E by reflexivity.
  assert (stringify_cart cart <> "") as N by discriminate.
  assert (StudyCartProvider.JSON_parse_items (stringify_cart cart) = Some cart)
    as P by reflexivity.
  split; [exact E|]. split; [exact N|]. split; [exact P|].
  destruct (mount_keeps_stored_cart cart_store (stringify_cart cart) cart E N P)
    as (Hi & _ & _ & _ & Hm).
  split; [exact Hi | exact (Hm N P)].
Defined.

Lemma mount_replaces_unreadable_cart_witness :
  StudyCartProvider.JSON_parse_items
    (default "" (broken_cart_store !! StudyCartProvider.STORAGE_KEY)) = None /\
  StudyCartProvider.items (StudyCartProvider.mount broken_cart_store).1 = [] /\
  (StudyCartProvider.mount broken_cart_store).2 !! "study-cart" = Some "[]".
Proof.
  assert (StudyCartProvider.JSON_parse_items
            (default "" (broken_cart_store !! StudyCartProvider.STORAGE_KEY)) = None)
    as P by reflexivity.
  split; [exact P|].
  destruct (mount_replaces_unreadable_cart broken_cart_store (or_intror P))
    as (Hi & _ & Hs & _).
  split; [exact Hi|]. rewrite Hs. reflexivity.
Defined.

Lemma sample_cart_not_inherited :
  forall item, item ∈ cart -> linked item = true ->
    inherited (default "" (item_courseId item)) = false.
Proof.
  intros item Hin _. unfold cart in Hin.
  repeat (apply elem_of_cons in Hin as [-> | Hin]; [reflexivity|]).
  by apply elem_of_nil in Hin.
Qed.

Lemma saved_cart_is_synced_witness :
  wsRef studying_blank = Some 0 /\
  sockets studying_blank !! 0 = Some open_socket /\
  JSON_parse_cart (StudyCartProvider.JSON_stringify_items cart) = Some cart /\
  (exists studyItems : gmap string (list string),
     studyItems !! "cs101" = Some ["1-notes"; "2-slides"] /\
     sockets (syncInterval "SwiftPanda1"
                (set_localStorage
                   (StudyCartProvider.saveEffect cart true (localStorage studying_blank))
                   studying_blank))
     = [opened_with [@sync_full_progress runtime progress studyItems "SwiftPanda1"]
          open_socket]) /\
  localStorage connected !! "course-progress" = None /\
  sockets (syncInterval "SwiftPanda1"
             (set_localStorage
                (StudyCartProvider.saveEffect cart true (localStorage connected))
                connected))
  = [open_socket].
Proof.
  assert (wsRef studying_blank = Some 0) as R by reflexivity.
  assert (sockets studying_blank !! 0 = Some open_socket) as E by reflexivity.
  assert (JSON_parse_cart (StudyCartProvider.JSON_stringify_items cart) = Some cart)
    as P by reflexivity.
  split; [exact R|]. split; [exact E|]. split; [exact P|].
  assert (StudyCartProvider.JSON_stringify_items cart <> "") as N by discriminate.
  split; [|split; [reflexivity|]].
  - destruct (saved_cart_is_synced 0 open_socket "SwiftPanda1" studying_blank
                cart R E eq_refl N P sample_cart_not_inherited) as [Hyes _].
    destruct (Hyes progress eq_refl eq_refl) as (m & Hs & Hl & _).
    exists m. split; [by rewrite Hl|exact Hs].
  - destruct (saved_cart_is_synced 0 open_socket "SwiftPanda1" connected
                cart eq_refl eq_refl eq_refl N P sample_cart_not_inherited)
      as [_ Hno].
    exact (Hno eq_refl).
Defined.

Lemma transmissions_by_event_witness :
  exists extra,
    sent_on 0 (step (SyncTick "SwiftPanda1") studying)
      = (sent_on 0 studying ++ extra)%list /\
    existsb is_progress_update extra = false.
Proof.
  destruct (transmissions_by_event (SyncTick "SwiftPanda1") studying 0)
    as (extra & Hs & _ & Hn).
  exists extra. split; [exact Hs|]. apply Hn. discriminate.
Defined.

Lemma sample_reachable_switched : reachable switched.
Proof.
  unfold switched, connected, connecting. repeat apply reach_step.
  apply reach_initial.
Qed.

Lemma sockets_of_a_run_witness :
  reachable switched /\ sockets switched !! 1 = Some open_socket_ma201 /\
  ws_url open_socket_ma201
    = "ws://localhost:8000/ws/user_1700000000000_4fzyo82mv".
Proof.
  assert (sockets switched !! 1 = Some open_socket_ma201) as E by reflexivity.
  split; [exact sample_reachable_switched|]. split; [exact E|].
  destruct (sockets_of_a_run switched sample_reachable_switched 1
              open_socket_ma201 E) as (Hu & _).
  rewrite Hu. reflexivity.
Defined.

Lemma only_identity_keys_written_witness :
  localStorage (step (Mount later) studying) !! "study-cart"
    = localStorage studying !! "study-cart" /\
  localStorage (step (CallUpdateUsername "Ada") studying) !! "course-progress"
    = localStorage studying !! "course-progress".
Proof.
  split.
  - apply only_identity_keys_written; discriminate.
  - apply only_identity_keys_written; discriminate.
Defined.

Lemma sample_reachable_closed : reachable (step (SocketClose 0) switched).
Proof. apply reach_step, sample_reachable_switched. Qed.

Lemma reconnect_delay_is_constant_witness :
  reachable (step (SocketClose 0) switched) /\
  timeouts (step (SocketClose 0) switched) !! 0
    = Some (Some {| timer_delay := 3000; timer_closure := env |}) /\
  timer_delay {| timer_delay := 3000; timer_closure := env |} = 3000%N.
Proof.
  assert (timeouts (step (SocketClose 0) switched) !! 0
          = Some (Some {| timer_delay := 3000; timer_closure := env |})) as E
    by reflexivity.
  split; [exact sample_reachable_closed|]. split; [exact E|].
  exact (reconnect_delay_is_constant _ sample_reachable_closed 0 _ E).
Defined.

Lemma wsRef_is_newest_socket_witness :
  reachable switched /\ wsRef switched = Some 1 /\
  2 = List.length (sockets switched).
Proof.
  split; [exact sample_reachable_switched|]. split; [reflexivity|].
  exact (wsRef_is_newest_socket switched sample_reachable_switched).
Defined.

Lemma cleanup_does_not_stop_reconnect_witness :
  well_formed connected /\ wsRef connected = Some 0 /\
  sockets connected !! 0 = Some open_socket /\ readyState open_socket = OPEN /\
  timeouts (cleanup (fire_close 0 (cleanup connected))) !! 0 = Some None /\
  wsRef (fire_timeout 0 true (fire_close 0 (cleanup connected))) = Some 1.
Proof.
  assert (well_formed connected) as W
    by exact (reachable_well_formed connected sample_reachable_connected).
  assert (sockets connected !! 0 = Some open_socket) as E by reflexivity.
  split; [exact W|]. split; [reflexivity|]. split; [exact E|].
  split; [reflexivity|].
  destruct (cleanup_does_not_stop_reconnect 0 open_socket connected W eq_refl E
              eq_refl) as (_ & _ & _ & _ & Hc & _ & Hr).
  split; [exact Hc | exact Hr].
Defined.

Lemma online_does_not_cancel_reconnect_witness :
  well_formed connected /\ sockets connected !! 0 = Some open_socket /\
  readyState open_socket <> CLOSED /\ truthy (c_userId env) = true /\
  List.length
    (sockets (fire_timeout 0 true
                (handleOnline false env true (fire_close 0 connected)))) = 3.
Proof.
  assert (well_formed connected) as W
    by exact (reachable_well_formed connected sample_reachable_connected).
  assert (sockets connected !! 0 = Some open_socket) as E by reflexivity.
  assert (readyState open_socket <> CLOSED) as N by discriminate.
  split; [exact W|]. split; [exact E|]. split; [exact N|]. split; [reflexivity|].
  destruct (online_does_not_cancel_reconnect 0 open_socket env connected W E N
              eq_refl) as (_ & _ & Hs & _).
  change (List.length (timeouts connected)) with 0 in Hs.
  rewrite Hs. reflexivity.
Defined.

Lemma mount_identity_stable_witness :
  @window_defined runtime = true /\
  initIdentity later (initIdentity entropy (initial ∅)) = initIdentity entropy (initial ∅) /\
  username (initIdentity entropy (initial ∅)) <> "".
Proof.
  assert (@window_defined runtime = true) as W by reflexivity.
  split; [exact W|].
  destruct (mount_identity_stable entropy later (initial ∅)) as [Hs Hb].
  split; [exact Hs|]. destruct (Hb W) as (_ & _ & _ & Hn). exact Hn.
Defined.

Lemma updateUsername_survives_reload_witness :
  @window_defined runtime = true /\ all_white_space "Ada" = false /\
  username (initIdentity later (updateUsername "Ada" connected)) = "Ada".
Proof.
  assert (@window_defined runtime = true) as W by reflexivity.
  assert (all_white_space "Ada" = false) as A by reflexivity.
  split; [exact W|]. split; [exact A|].
  exact (proj1 (proj2 (updateUsername_survives_reload "Ada" later connected W A))).
Defined.

Lemma generated_username_is_accepted_witness :
  pick_adj entropy < 16 /\ pick_noun entropy < 16 /\
  exists adj noun, adj ∈ adjectives /\ noun ∈ nouns /\
    generateUsername entropy = adj +:+ noun +:+ "1".
Proof.
  assert (pick_adj entropy < 16) as La by (simpl; lia).
  assert (pick_noun entropy < 16) as Ln by (simpl; lia).
  split; [exact La|]. split; [exact Ln|].
  destruct (generated_username_is_accepted entropy) as (_ & _ & Hf).
  destruct (Hf La Ln) as (adj & noun & Ha & Hn & Hg).
  exists adj, noun. split; [exact Ha|]. split; [exact Hn|]. exact Hg.
Defined.

Lemma senders_on_open_socket_witness :
  wsRef connected = Some 0 /\ sockets connected !! 0 = Some open_socket /\
  readyState open_socket = OPEN /\
  sent_on 0 (sendProgressUpdate "cs101" "SwiftPanda1" "f1" true connected)
    = [request_leaderboard "cs101"; progress_update "cs101" "f1" true "SwiftPanda1"] /\
  requestLeaderboardUpdate "" connected = connected.
Proof.
  assert (sockets connected !! 0 = Some open_socket) as E by reflexivity.
  split; [reflexivity|]. split; [exact E|]. split; [reflexivity|].
  destruct (senders_on_open_socket 0 open_socket connected "cs101" "SwiftPanda1"
              "f1" true ["f1"] progress cart_studyItems eq_refl E eq_refl)
    as (Hp & _ & _ & _ & Hr & _).
  split; [by rewrite Hp | exact Hr].
Defined.

Lemma late_close_clears_flag_witness :
  wsRef switched = Some 1 /\ sockets switched !! 1 = Some open_socket_ma201 /\
  sockets switched !! 0 = Some closing_socket /\
  isConnected switched = true /\
  isConnected (fire_close 0 switched) = false /\
  wsRef_open (fire_close 0 switched) = true.
Proof.
  assert (sockets switched !! 1 = Some open_socket_ma201) as E by reflexivity.
  assert (sockets switched !! 0 = Some closing_socket) as Eo by reflexivity.
  split; [reflexivity|]. split; [exact E|]. split; [exact Eo|].
  split; [reflexivity|].
  assert (readyState closing_socket <> CLOSED) as N by discriminate.
  assert (0 <> 1) as D by discriminate.
  destruct (late_close_clears_flag 0 1 closing_socket open_socket_ma201 switched
              "ma201" "SwiftPanda1" "1-intro" true eq_refl E eq_refl D Eo N)
    as (Hf & Ho & _).
  split; [exact Hf | exact Ho].
Defined.

Lemma inbound_message_touches_only_leaderboard_witness :
  leaderboard unranked = None /\
  sockets unranked = sockets connected /\
  console unranked = console connected /\
  return_currentUserRank unranked = None.
Proof.
  assert (leaderboard unranked = None) as L by reflexivity.
  assert (truthy (userId unranked) = true) as T by reflexivity.
  destruct (inbound_message_touches_only_leaderboard 0 no_array_text connected)
    as ((_ & _ & _ & _ & _ & _ & _ & Hs & _) & _ & Ht).
  split; [exact L|]. split; [exact Hs|]. split; [reflexivity|].
  exact (Ht L T).
Defined.

Lemma update_on_current_connection_witness :
  sockets (hook page_cs101) !! 0 = Some open_socket /\ readyState open_socket = OPEN /\
  c_courseId (ws_closure open_socket) = active_courseId page_cs101 /\
  leaderboard
    (hook (deliver (SocketMessage 0 (leaderboard_update_text "cs101" [peer; me]))
             page_cs101)) = Some [peer; me] /\
  hook (deliver (SocketMessage 0 (leaderboard_update_text "ma201" [me])) page_cs101)
    = hook page_cs101 /\
  sockets (hook (deliver (SocketMessage 0 garbage_text) page_cs101))
    = sockets (hook page_cs101).
Proof.
  assert (sockets (hook page_cs101) !! 0 = Some open_socket) as E by reflexivity.
  assert (readyState open_socket = OPEN) as O by reflexivity.
  assert (c_courseId (ws_closure open_socket) = active_courseId page_cs101) as A
    by reflexivity.
  split; [exact E|]. split; [exact O|]. split; [exact A|]. split; [|split].
  - destruct (update_on_current_connection 0 open_socket
                (leaderboard_update_text "cs101" [peer; me]) page_cs101 E O A)
      as (_ & Hd & _).
    destruct (Hd {| data_type := Some "leaderboard_update";
                    data_courseId := Some "cs101";
                    data_leaderboard := Some [peer; me] |} eq_refl eq_refl)
      as [Hyes _].
    exact (f_equal leaderboard (Hyes eq_refl)).
  - destruct (update_on_current_connection 0 open_socket
                (leaderboard_update_text "ma201" [me]) page_cs101 E O A)
      as (_ & Hd & _).
    destruct (Hd {| data_type := Some "leaderboard_update";
                    data_courseId := Some "ma201";
                    data_leaderboard := Some [me] |} eq_refl eq_refl)
      as [_ Hno].
    refine (Hno _). discriminate.
  - destruct (update_on_current_connection 0 open_socket garbage_text page_cs101
                E O A) as (_ & _ & Hg).
    exact (f_equal sockets (Hg eq_refl)).
Defined.
